(** * DOC: document generation from Bible translation resources

    A shallow embedding of [document/domain/resource.py] and
    [document/domain/document_generator.py]: resource construction,
    location lookup, provisioning, asset discovery, the directory
    structured parsers and the document generator's driver loop.

    Strings are [string] (one [ascii] per character); Python's [None]
    is [option]; a raised exception is the [Raise] outcome of a small
    exception monad that also records the calls made on the outside
    world (catalog lookups, clones, downloads, file writes).  Modules
    of the repository that the two files import but do not define
    ([resource_lookup], [config], [bible_books], [link_utils],
    [url_utils], [file_utils]) and third-party libraries are supplied
    by a [World] record of oracles; those of the content methods
    ([markdown], [usfm_tools], the link functions) are its [Library]. *)

From Stdlib Require Import String Ascii List ZArith Lia.
From Stdlib Require Import Sorting.Sorted Sorting.Permutation.
From stdpp Require Import base gmap strings list.

Open Scope string_scope.

(* ================================================================= *)
(** ** Python string and list primitives used by the source *)

Module Py.

(** [str.lower()] on the ASCII range. *)
Definition lower_ascii (c : ascii) : ascii :=
  let n := nat_of_ascii c in
  if (65 <=? n)%nat && (n <=? 90)%nat then ascii_of_nat (n + 32) else c.

Fixpoint lower (s : string) : string :=
  match s with
  | EmptyString => EmptyString
  | String c s' => String (lower_ascii c) (lower s')
  end.

(** [needle in hay] for strings: [needle] occurs as a contiguous
    substring of [hay]. *)
Fixpoint str_in (needle hay : string) : bool :=
  String.prefix needle hay
  || match hay with
     | EmptyString => false
     | String _ hay' => str_in needle hay'
     end.

Fixpoint has_char (c : ascii) (s : string) : bool :=
  match s with
  | EmptyString => false
  | String a s' => Ascii.eqb a c || has_char c s'
  end.

(** [s.rpartition(sep)[2]] for a one-character [sep]: what follows
    the last occurrence of [sep], or all of [s] when there is none. *)
Fixpoint rpartition_tail (sep : ascii) (s : string) : string :=
  match s with
  | EmptyString => EmptyString
  | String a s' =>
      if has_char sep s' then rpartition_tail sep s'
      else if Ascii.eqb a sep then s' else s
  end.

(** [s.lstrip(c)] for a one-character set. *)
Fixpoint lstrip (c : ascii) (s : string) : string :=
  match s with
  | EmptyString => EmptyString
  | String a s' => if Ascii.eqb a c then lstrip c s' else s
  end.

(** [s[:-1]]. *)
Fixpoint drop_last (s : string) : string :=
  match s with
  | EmptyString => EmptyString
  | String a EmptyString => EmptyString
  | String a s' => String a (drop_last s')
  end.

Definition startswith (p s : string) : bool := String.prefix p s.

Fixpoint endswith_char (c : ascii) (s : string) : bool :=
  match s with
  | EmptyString => false
  | String a EmptyString => Ascii.eqb a c
  | String _ s' => endswith_char c s'
  end.

(** Truthiness of a string, a list and an optional string. *)
Definition truthy (s : string) : bool :=
  match s with EmptyString => false | _ => true end.

Definition truthy_list {A} (l : list A) : bool :=
  match l with [] => false | _ => true end.

Definition truthy_opt (o : option string) : bool :=
  match o with Some s => truthy s | None => false end.

Definition is_digit (c : ascii) : bool :=
  let n := nat_of_ascii c in (48 <=? n)%nat && (n <=? 57)%nat.

Fixpoint all_digits (s : string) : bool :=
  match s with
  | EmptyString => true
  | String c s' => is_digit c && all_digits s'
  end.

(** [re.match(r"^\d+$", s)] as a truth value: one or more digits,
    then the end of the string or a single final newline. *)
Fixpoint match_digits_tail (s : string) : bool :=
  match s with
  | EmptyString => true
  | String c EmptyString => is_digit c || Ascii.eqb c "010"%char
  | String c s' => is_digit c && match_digits_tail s'
  end.

Definition re_match_digits (s : string) : bool :=
  match s with
  | EmptyString => false
  | String c _ => is_digit c && match_digits_tail s
  end.

(** The value of a string of decimal digits, most significant
    first. *)
Fixpoint digits_value_from (acc : nat) (s : string) : nat :=
  match s with
  | EmptyString => acc
  | String c s' => digits_value_from (10 * acc + (nat_of_ascii c - 48)) s'
  end.

Definition digits_value (s : string) : nat := digits_value_from 0 s.

(** [s.split()]: the maximal runs of non-whitespace characters. *)
Definition is_space (c : ascii) : bool :=
  let n := nat_of_ascii c in
  (n =? 32)%nat || ((9 <=? n)%nat && (n <=? 13)%nat)
  || ((28 <=? n)%nat && (n <=? 31)%nat).

Fixpoint split_from (cur s : string) : list string :=
  match s with
  | EmptyString => if truthy cur then [cur] else []
  | String c s' =>
      if is_space c then
        (if truthy cur then cur :: split_from EmptyString s'
         else split_from EmptyString s')
      else split_from (cur ++ String c EmptyString) s'
  end.

Definition split (s : string) : list string := split_from EmptyString s.

(** [int(s)] for a decimal numeral with an optional sign; [None] is
    the [ValueError]. *)
Definition int (s : string) : option Z :=
  match s with
  | String "-" ds =>
      if truthy ds && all_digits ds then Some (- Z.of_nat (digits_value ds))%Z
      else None
  | String "+" ds =>
      if truthy ds && all_digits ds then Some (Z.of_nat (digits_value ds))
      else None
  | _ =>
      if truthy s && all_digits s then Some (Z.of_nat (digits_value s))
      else None
  end.

(** [pathlib.Path(p).stem] of a file name: the name without its last
    suffix; a leading or a final dot starts no suffix. *)
Fixpoint drop_suffix (name : string) : string :=
  match name with
  | EmptyString => EmptyString
  | String c rest =>
      if has_char "."%char rest then String c (drop_suffix rest)
      else if Ascii.eqb c "."%char then EmptyString
      else name
  end.

Definition stem_of_name (name : string) : string :=
  match name with
  | EmptyString => EmptyString
  | String c rest =>
      let cut := drop_suffix rest in
      if String.eqb cut rest then name
      else if (String.length cut + 1 =? String.length rest)%nat then name
      else String c cut
  end.

(** [d[k] = v] on a dictionary kept in insertion order: an existing
    key keeps its place. *)
Fixpoint dict_set {V} (d : list (Z * V)) (k : Z) (v : V) : list (Z * V) :=
  match d with
  | [] => [(k, v)]
  | (k', v') :: d' =>
      if (k' =? k)%Z then (k, v) :: d' else (k', v') :: dict_set d' k v
  end.

(** [sorted(l)] on strings: ascending in the character-code
    lexicographic order of [str.__lt__]. *)
Fixpoint insert_sorted (x : string) (l : list string) : list string :=
  match l with
  | [] => [x]
  | y :: l' => if String.leb x y then x :: l else y :: insert_sorted x l'
  end.

Fixpoint sorted (l : list string) : list string :=
  match l with
  | [] => []
  | x :: l' => insert_sorted x (sorted l')
  end.

End Py.

(** [os.path.join(a, b)] and [os.path.sep] of [posixpath]. *)
Module os_path.

Definition sep : ascii := "/"%char.

Definition join (a b : string) : string :=
  if Py.startswith "/" b then b
  else if negb (Py.truthy a) || Py.endswith_char sep a then a ++ b
  else a ++ "/" ++ b.

End os_path.

(* ================================================================= *)
(** ** Exceptions, outcomes and the record of outside calls *)

Inductive Exn : Type :=
| KeyError (key : string)
| IndexError
| ValueError
| TypeError
| AttributeError (name : string)
| ViolationError           (* icontract: a failed require or ensure *)
| AssertionError
| FileExistsError
| OSError
| SubprocessError
| DownloadError            (* whatever url_utils.download_file raises *)
| UnzipError.              (* whatever file_utils.unzip raises *)

Inductive Outcome (A : Type) : Type :=
| Return (a : A)
| Raise (e : Exn).
Arguments Return {A} a.
Arguments Raise {A} e.

(** An effect on the outside world: a catalog lookup, a process, a
    download, a write to the file system.  Reads of the local file
    system ([os.path.exists], [glob], [os.listdir]) are not recorded. *)
Inductive Event : Type :=
| EvLookup (resource_filename : string)
| EvMkdir (path : string)
| EvCall (command : string)
| EvDownload (url path : string)
| EvUnzip (file dir : string)
| EvWriteFile (path content : string).

(** A computation maps the calls made so far to an outcome and the
    calls made once it has ended; a raised exception keeps the calls
    made before it. *)
Definition M (A : Type) : Type := list Event -> Outcome A * list Event.

Definition ret {A} (a : A) : M A := fun t => (Return a, t).
Definition raise {A} (e : Exn) : M A := fun t => (Raise e, t).
Definition emit (ev : Event) : M unit := fun t => (Return tt, (t ++ [ev])%list).

Definition bind {A B} (c : M A) (k : A -> M B) : M B :=
  fun t =>
    match c t with
    | (Return a, t') => k a t'
    | (Raise e, t') => (Raise e, t')
    end.

Definition lift {A} (o : Outcome A) : M A := fun t => (o, t).

Notation "x <- c ;; k" := (bind c (fun x => k))
  (at level 62, c at next level, right associativity).
Notation "c ;;; k" := (bind c (fun _ => k))
  (at level 62, right associativity).

(** [for x in l: body] threading a state. *)
Fixpoint for_each {A S} (body : S -> A -> M S) (l : list A) (s : S) : M S :=
  match l with
  | [] => ret s
  | x :: l' => s' <- body s x ;; for_each body l' s'
  end.

(** A contract or an [assert]: raise [e] unless [b]. *)
Definition check (b : bool) (e : Exn) : M unit :=
  if b then ret tt else raise e.

(* ================================================================= *)
(** ** The data model ([document/domain/model.py], as the two modules
       use it) *)

Inductive AssemblyStrategyEnum : Type := BOOK | VERSE | VERSE2.

Record ResourceRequest : Type := {
  rr_lang_code : string;
  rr_resource_type : string;
  rr_resource_code : string;
}.

Record DocumentRequest : Type := {
  assembly_strategy_kind : AssemblyStrategyEnum;
  resource_requests : list ResourceRequest;
}.

Record ResourceLookupDto : Type := {
  dto_url : option string;
  dto_source : string;
  dto_jsonpath : option string;
}.

(** The [Resource] subclasses. *)
Inductive ResourceClass : Type := USFM | TN | TQ | TW | TA.

(** The instance variables of a [Resource] object.  [_resource_source]
    and [_content] are declared but not assigned by [__init__]:
    [None] stands for the attribute not being set yet. *)
Record Resource : Type := {
  cls : ResourceClass;
  _working_dir : string;
  _output_dir : string;
  _assembly_strategy_kind : AssemblyStrategyEnum;
  _lang_code : string;
  _resource_type : string;
  _resource_code : string;
  _resource_dir : string;
  _resource_filename : string;
  _book_id : string;
  _book_title : string;
  _book_number : string;
  _resource_url : option string;
  _resource_source : option string;
  _resource_jsonpath : option string;
  _content_files : list string;
  _content : option string;
}.

Definition set_resource_dir (r : Resource) (d : string) : Resource :=
  {| cls := cls r; _working_dir := _working_dir r; _output_dir := _output_dir r;
     _assembly_strategy_kind := _assembly_strategy_kind r;
     _lang_code := _lang_code r; _resource_type := _resource_type r;
     _resource_code := _resource_code r; _resource_dir := d;
     _resource_filename := _resource_filename r; _book_id := _book_id r;
     _book_title := _book_title r; _book_number := _book_number r;
     _resource_url := _resource_url r; _resource_source := _resource_source r;
     _resource_jsonpath := _resource_jsonpath r;
     _content_files := _content_files r; _content := _content r |}.

Definition set_location (r : Resource) (dto : ResourceLookupDto) : Resource :=
  {| cls := cls r; _working_dir := _working_dir r; _output_dir := _output_dir r;
     _assembly_strategy_kind := _assembly_strategy_kind r;
     _lang_code := _lang_code r; _resource_type := _resource_type r;
     _resource_code := _resource_code r; _resource_dir := _resource_dir r;
     _resource_filename := _resource_filename r; _book_id := _book_id r;
     _book_title := _book_title r; _book_number := _book_number r;
     _resource_url := dto_url dto; _resource_source := Some (dto_source dto);
     _resource_jsonpath := dto_jsonpath dto;
     _content_files := _content_files r; _content := _content r |}.

Definition set_content (r : Resource) (c : string) : Resource :=
  {| cls := cls r; _working_dir := _working_dir r; _output_dir := _output_dir r;
     _assembly_strategy_kind := _assembly_strategy_kind r;
     _lang_code := _lang_code r; _resource_type := _resource_type r;
     _resource_code := _resource_code r; _resource_dir := _resource_dir r;
     _resource_filename := _resource_filename r; _book_id := _book_id r;
     _book_title := _book_title r; _book_number := _book_number r;
     _resource_url := _resource_url r; _resource_source := _resource_source r;
     _resource_jsonpath := _resource_jsonpath r;
     _content_files := _content_files r; _content := Some c |}.


(** [model.USFMChapter], [model.TNChapterPayload] and
    [model.TNBookPayload]; dictionaries keyed by chapter or verse
    number are kept in insertion order. *)
Record USFMChapter : Type := {
  chapter_content : list string;
  chapter_verses : list (Z * string);
}.

Record TNChapterPayload : Type := {
  chapter_intro_html : string;
  verses_html : list (Z * string);
}.

Record TNBookPayload : Type := {
  book_intro_html : string;
  chapters : list (Z * TNChapterPayload);
}.

(** What [subprocess.call] does: the exit status of the command, or an
    exception. *)
Inductive CallOutcome : Type :=
| Exited (status : Z)
| CallRaised (e : Exn).

(** The libraries that the content methods of the resource classes
    call, and the Markdown builders of the three helps classes that
    are taken as given here (file reads and templates throughout). *)
Record Library : Type := {
  (* document.config *)
  get_markdown_doc_file_names : list string;
  (* document.utils.link_utils, with the resource whose link
     registries it is given; markdown.markdown *)
  replace_rc_links : Resource -> string -> string;
  transform_rc_links : string -> string;
  markdown_markdown : string -> string;
  (* usfm_tools.transform.UsfmTransform, file_utils.read_file *)
  buildSingleHtmlFromFiles : list string -> string -> string -> option Exn;
  read_file : string -> Outcome string;
  (* TWResource._get_tw_markdown, TQResource._get_tq_markdown,
     TAResource._get_ta_markdown *)
  _get_tw_markdown : Resource -> Outcome Resource;
  _get_tq_markdown : Resource -> Outcome Resource;
  _get_ta_markdown : Resource -> Outcome Resource;
}.

(** The modules and libraries outside the two files. *)
Record World : Type := {
  (* document.domain.bible_books *)
  BOOK_NAMES : gmap string string;
  BOOK_NUMBERS : gmap string string;
  (* document.config *)
  GIT : string;
  ZIP : string;
  get_document_html_header : string;
  get_document_html_footer : string;
  pandoc_command : string -> string -> string -> list string -> string;
  IN_CONTAINER : bool;
  (* document.domain.resource_lookup *)
  usfm_lookup : Resource -> ResourceLookupDto;
  t_lookup : Resource -> ResourceLookupDto;
  (* os, glob, subprocess *)
  path_exists : string -> bool;
  isfile : string -> bool;
  isdir : string -> bool;
  listdir : string -> list string;
  glob : string -> list string;
  mkdir : string -> option Exn;
  subprocess_call : string -> CallOutcome;
  (* document.utils.url_utils, document.utils.file_utils *)
  download_file : string -> string -> option Exn;
  unzip : string -> string -> option Exn;
  write_file : string -> string -> option Exn;
  (* bs4 and html_parsing_utils: the text of every [h2] element of
     class [c-num] of a document, in document order; and the body of
     the chapter loop of [USFMResource._initialize_verses_html] for a
     document, the localized chapter heading and a chapter number *)
  find_all_chapter_breaks : string -> list string;
  usfm_chapter : Resource -> string -> string -> Z -> Outcome USFMChapter;
  (* markdown, jinja2, link_utils: a Markdown file read and converted
     to HTML; the texts that [TNResource] builds from files, templates
     and the link registry *)
  markdown_file_to_html : string -> string;
  tn_book_intro : Resource -> string;
  tn_chapter_intro : Resource -> string -> string -> string;
  initialize_tn_chapter_files :
    string -> string -> string -> string -> string -> string;
  pad : string -> string -> string;
  (* the libraries of the content methods *)
  library : Library;
}.

(** [d[k]] on a dictionary. *)
Definition getitem {V} (d : gmap string V) (k : string) : Outcome V :=
  match d !! k with
  | Some v => Return v
  | None => Raise (KeyError k)
  end.

(* ================================================================= *)
(** ** [Resource.__init__] and [resource_factory] *)

Definition Resource_init (w : World) (c : ResourceClass)
    (working_dir output_dir : string) (resource_request : ResourceRequest)
    (kind : AssemblyStrategyEnum) : Outcome Resource :=
  let lang_code := rr_lang_code resource_request in
  let resource_type := rr_resource_type resource_request in
  let resource_code := rr_resource_code resource_request in
  let resource_dir := os_path.join working_dir (lang_code ++ "_" ++ resource_type) in
  let resource_filename := lang_code ++ "_" ++ resource_type ++ "_" ++ resource_code in
  let book_id := resource_code in
  match getitem (BOOK_NAMES w) resource_code with
  | Raise e => Raise e
  | Return book_title =>
      match getitem (BOOK_NUMBERS w) book_id with
      | Raise e => Raise e
      | Return book_number =>
          Return {| cls := c; _working_dir := working_dir; _output_dir := output_dir;
                    _assembly_strategy_kind := kind;
                    _lang_code := lang_code; _resource_type := resource_type;
                    _resource_code := resource_code; _resource_dir := resource_dir;
                    _resource_filename := resource_filename; _book_id := book_id;
                    _book_title := book_title; _book_number := book_number;
                    _resource_url := None; _resource_source := None;
                    _resource_jsonpath := None;
                    _content_files := []; _content := None |}
      end
  end.

(** The factory's table: resource type to class. *)
Definition resources : gmap string ResourceClass :=
  list_to_map
    [ ("usfm", USFM); ("ulb", USFM); ("ulb-wa", USFM); ("udb", USFM);
      ("udb-wa", USFM); ("nav", USFM); ("reg", USFM); ("tn", TN);
      ("tn-wa", TN); ("tq", TQ); ("tq-wa", TQ); ("tw", TW); ("tw-wa", TW);
      ("ta", TA); ("ta-wa", TA) ].

Definition resource_factory (w : World) (working_dir output_dir : string)
    (resource_request : ResourceRequest) (kind : AssemblyStrategyEnum)
  : Outcome Resource :=
  match getitem resources (rr_resource_type resource_request) with
  | Raise e => Raise e
  | Return c => Resource_init w c working_dir output_dir resource_request kind
  end.

Definition is_found (r : Resource) : bool :=
  match _resource_url r with Some _ => true | None => false end.

(* ================================================================= *)
(** ** [USFMResource.find_location], [TResource.find_location] *)

(** Both ask the lookup service of their class and store its answer;
    the USFM one carries the postcondition
    [icontract.ensure(lambda self: self._resource_url is not None)]. *)
Definition find_location (w : World) (r : Resource) : M Resource :=
  emit (EvLookup (_resource_filename r)) ;;;
  match cls r with
  | USFM =>
      let r' := set_location r (usfm_lookup w r) in
      check (is_found r') ViolationError ;;;
      ret r'
  | _ => ret (set_location r (t_lookup w r))
  end.

(* ================================================================= *)
(** ** [ResourceProvisioner] *)

Module ResourceProvisioner.

(** The [resource_source] property reads [_resource_source]. *)
Definition resource_source (r : Resource) : M string :=
  match _resource_source r with
  | Some s => ret s
  | None => raise (AttributeError "_resource_source")
  end.

Definition _is_git (w : World) (r : Resource) : M bool :=
  s <- resource_source r ;;
  check (Py.truthy s) ViolationError ;;;
  ret (String.eqb s (GIT w)).

Definition _is_zip (w : World) (r : Resource) : M bool :=
  s <- resource_source r ;;
  check (Py.truthy s) ViolationError ;;;
  ret (String.eqb s (ZIP w)).

Definition _prepare_resource_directory (w : World) (r : Resource) : M unit :=
  (if negb (path_exists w (_resource_dir r)) then
     emit (EvMkdir (_resource_dir r)) ;;;
     match mkdir w (_resource_dir r) with
     | None => ret tt
     | Some FileExistsError => ret tt
     | Some e => raise e
     end
   else ret tt) ;;;
  check (Py.truthy (_resource_dir r)) ViolationError.

Definition git_clone_command (url resource_filepath : string) : string :=
  "git clone --depth=1 '" ++ url ++ "' '" ++ resource_filepath ++ "'".

(** The local variable [resource_filepath] of [_acquire_resource]:
    the resource directory joined with the last component of the URL. *)
Definition resource_filepath (r : Resource) (resource_url : string) : string :=
  os_path.join (_resource_dir r) (Py.rpartition_tail os_path.sep resource_url).

Definition _acquire_resource (w : World) (r : Resource) : M Resource :=
  check (Py.truthy (_resource_type r) && Py.truthy (_resource_dir r)
         && Py.truthy_opt (_resource_url r)) ViolationError ;;;
  match _resource_url r with
  | None => raise AssertionError
  | Some resource_url =>
      let resource_filepath := resource_filepath r resource_url in
      is_git <- _is_git w r ;;
      r1 <- (if is_git then
               let command := git_clone_command resource_url resource_filepath in
               emit (EvCall command) ;;;
               match subprocess_call w command with
               | CallRaised SubprocessError => ret r
               | CallRaised e => raise e
               | Exited _ => ret (set_resource_dir r resource_filepath)
               end
             else
               emit (EvDownload resource_url resource_filepath) ;;;
               match download_file w resource_url resource_filepath with
               | Some e => raise e
               | None => ret r
               end) ;;
      is_zip <- _is_zip w r1 ;;
      (if is_zip then
         emit (EvUnzip resource_filepath (_resource_dir r1)) ;;;
         match unzip w resource_filepath (_resource_dir r1) with
         | Some e => raise e
         | None => ret tt
         end
       else ret tt) ;;;
      ret r1
  end.

Definition __call__ (w : World) (r : Resource) : M Resource :=
  _prepare_resource_directory w r ;;;
  _acquire_resource w r.

End ResourceProvisioner.

(** [Resource.get_files]. *)
Definition get_files (w : World) (r : Resource) : M Resource :=
  ResourceProvisioner.__call__ w r.

(* ================================================================= *)
(** ** [USFMResource] *)

Module USFMResource.


(** [initialize_from_assets]; the [Manifest] object it builds first
    touches nothing outside itself. *)
Definition usfm_glob_pattern (r : Resource) : string :=
  _resource_dir r ++ "**/*.usfm".



(** [_initialize_verses_html], from the parsed document to the
    chapters dictionary.  Its contracts: [require(self._content)] and
    [ensure(self._chapters_content)]. *)
Definition chapter_step (w : World) (r : Resource) (content heading : string)
    (chapters_content : list (Z * USFMChapter)) (chapter_break : string)
  : M (list (Z * USFMChapter)) :=
  match Py.split chapter_break with
  | _ :: num :: _ =>
      match Py.int num with
      | None => raise ValueError
      | Some chapter_num =>
          ch <- lift (usfm_chapter w r content heading chapter_num) ;;
          ret (Py.dict_set chapters_content chapter_num ch)
      end
  | _ => raise IndexError
  end.

Definition _initialize_verses_html (w : World) (r : Resource)
    (chapters_content : list (Z * USFMChapter)) : M (list (Z * USFMChapter)) :=
  match _content r with
  | None => raise (AttributeError "_content")
  | Some content =>
      check (Py.truthy content) ViolationError ;;;
      let chapter_breaks := find_all_chapter_breaks w content in
      match chapter_breaks with
      | [] => raise IndexError
      | first_break :: _ =>
          match Py.split first_break with
          | [] => raise IndexError
          | localized_chapter_heading :: _ =>
              chapters_content' <-
                for_each (chapter_step w r content localized_chapter_heading)
                         chapter_breaks chapters_content ;;
              check (Py.truthy_list chapters_content') ViolationError ;;;
              ret chapters_content'
          end
      end
  end.

End USFMResource.

(* ================================================================= *)
(** ** [TResource] and [TNResource]: the directory structured parsers *)

Module TResource.

(** [os.path.split(p)[-1]]. *)
Definition basename (p : string) : string := Py.rpartition_tail os_path.sep p.

Definition chapter_dirs (w : World) (r : Resource) : list string :=
  let dirs :=
    Py.sorted (glob w (_resource_dir r ++ "/**/*" ++ _resource_code r ++ "/*[0-9]*")) in
  if Py.truthy_list dirs then dirs
  else Py.sorted (glob w (_resource_dir r ++ "/*" ++ _resource_code r ++ "/*[0-9]*")).

Definition verse_paths (w : World) (chapter_dir : string) : list string :=
  Py.sorted (glob w (chapter_dir ++ "/*[0-9]*.md")).

Definition verse_step (w : World) (verses : list (Z * string)) (filepath : string)
  : M (list (Z * string)) :=
  match Py.int (Py.stem_of_name (basename filepath)) with
  | None => raise ValueError
  | Some verse_num =>
      ret (Py.dict_set verses verse_num (markdown_file_to_html w filepath))
  end.

Definition chapter_step (w : World) (chapter_verses : list (Z * TNChapterPayload))
    (chapter_dir : string) : M (list (Z * TNChapterPayload)) :=
  match Py.int (basename chapter_dir) with
  | None => raise ValueError
  | Some chapter_num =>
      let intro_paths := glob w (chapter_dir ++ "/*intro.md") in
      let intro_html :=
        match intro_paths with
        | intro_path :: _ =>
            if Py.truthy intro_path then markdown_file_to_html w intro_path
            else EmptyString
        | [] => EmptyString
        end in
      verses <- for_each (verse_step w) (verse_paths w chapter_dir) [] ;;
      ret (Py.dict_set chapter_verses chapter_num
             {| chapter_intro_html := intro_html; verses_html := verses |})
  end.

Definition _initialize_verses_html (w : World) (r : Resource) : M TNBookPayload :=
  chapter_verses <- for_each (chapter_step w) (chapter_dirs w r) [] ;;
  let book_intro_path :=
    glob w (_resource_dir r ++ "/*" ++ _resource_code r ++ "/front/intro.md") in
  let book_intro :=
    match book_intro_path with
    | p :: _ => markdown_file_to_html w p
    | [] => EmptyString
    end in
  ret {| book_intro_html := book_intro; chapters := chapter_verses |}.

End TResource.

Module TNResource.

Definition _get_book_dir (w : World) (r : Resource) : M string :=
  check (Py.truthy (_resource_dir r) && Py.truthy (_lang_code r)
         && Py.truthy (_resource_type r)) ViolationError ;;;
  let filepath :=
    os_path.join (_resource_dir r) (_lang_code r ++ "_" ++ _resource_type r) in
  if isdir w filepath then ret filepath
  else ret (os_path.join (_resource_dir r) (_resource_code r)).

Definition _initialize_tn_links (w : World) (lang_code book_id : string)
    (book_has_intro chapter_has_intro : bool) (chapter : string) : string :=
  let links := "### Links:" ++ String "010" (String "010" EmptyString) in
  let links :=
    if book_has_intro then
      links ++ "* [[rc://" ++ lang_code ++ "/tn/help/" ++ book_id
            ++ "/front/intro]]" ++ String "010" EmptyString
    else links in
  let links :=
    if chapter_has_intro then
      links ++ "* [[rc://" ++ lang_code ++ "/tn/help/" ++ book_id ++ "/"
            ++ pad w book_id chapter ++ "/intro]]" ++ String "010" EmptyString
    else links in
  links ++ "* [[rc://" ++ lang_code ++ "/tq/help/" ++ book_id ++ "/"
        ++ pad w book_id chapter ++ "]]" ++ String "010" EmptyString.

(** The chapters whose body runs, as (directory name, chapter
    directory, chapter), in the order of the loop
    [for chapter in sorted(os.listdir(book_dir))]. *)
Definition chapter_entries (w : World) (book_dir : string)
  : list (string * string * string) :=
  flat_map
    (fun name =>
       let chapter_dir := os_path.join book_dir name in
       let chapter := Py.lstrip "0" name in
       if isdir w chapter_dir && Py.re_match_digits chapter
       then [(name, chapter_dir, chapter)] else [])
    (Py.sorted (listdir w book_dir)).

Definition chunk_files (w : World) (chapter_dir : string) : list string :=
  Py.sorted (glob w (os_path.join chapter_dir "[0-9]*.md")).

(** What one chunk file adds to [tn_md]. *)
Definition chunk_md (w : World) (r : Resource) (book_intro_template : string)
    (chapter_dir chapter chunk_file : string) : string :=
  let nl := String "010" EmptyString in
  let chapter_intro_md := tn_chapter_intro w r chapter_dir chapter in
  let md :=
    initialize_tn_chapter_files w (_book_id r) (_book_title r) (_lang_code r)
                                chunk_file chapter in
  let pre_md := "### Translation Notes" ++ nl in
  let md := pre_md ++ nl ++ md ++ nl ++ nl in
  let links :=
    _initialize_tn_links w (_lang_code r) (_book_id r)
      (Py.truthy book_intro_template) (Py.truthy chapter_intro_md) chapter in
  md ++ links ++ nl ++ nl.

(** The chunk files read, with their chapter, in reading order. *)
Definition units (w : World) (book_dir : string)
  : list (string * string * string) :=
  flat_map
    (fun '(name, chapter_dir, chapter) =>
       List.map (fun chunk_file => (chapter_dir, chapter, chunk_file))
                (chunk_files w chapter_dir))
    (chapter_entries w book_dir).

Definition _get_tn_markdown (w : World) (r : Resource) : M Resource :=
  check (Py.truthy (_resource_code r)) ViolationError ;;;
  book_dir <- _get_book_dir w r ;;
  if negb (isdir w book_dir) then ret r
  else
    let book_intro_template := tn_book_intro w r in
    let tn_md :=
      book_intro_template
      ++ String.concat EmptyString
           (List.map (fun '(chapter_dir, chapter, chunk_file) =>
                        chunk_md w r book_intro_template chapter_dir chapter chunk_file)
                     (units w book_dir)) in
    ret (set_content r tn_md).

End TNResource.

(** The names of the chapter directories whose body runs, in loop
    order, their chapters (the names once [lstrip("0")] has been
    applied), and the test that lets a directory entry in. *)
Definition chapter_names (w : World) (book_dir : string) : list string :=
  List.map (fun '(name, _, _) => name) (TNResource.chapter_entries w book_dir).

Definition processed_chapters (w : World) (book_dir : string) : list string :=
  List.map (fun '(_, _, chapter) => chapter) (TNResource.chapter_entries w book_dir).

Definition eligible (w : World) (book_dir name : string) : bool :=
  isdir w (os_path.join book_dir name) && Py.re_match_digits (Py.lstrip "0" name).

(** A list of paths in which numerals of equal width, in the same
    place of the path, come in the order of their values. *)
Definition numeric_on_equal_width (l : list string) : Prop :=
  forall prefix suffix x y i j,
    l !! i = Some (prefix ++ x ++ suffix) ->
    l !! j = Some (prefix ++ y ++ suffix) ->
    i < j ->
    Py.all_digits x = true -> Py.all_digits y = true ->
    String.length x = String.length y ->
    Py.digits_value x <= Py.digits_value y.

(* ================================================================= *)
(** ** [get_tw_refs] *)

(** Truthiness of a dictionary. *)
Definition truthy_dict {V} (d : gmap string V) : bool :=
  negb (bool_decide (d = ∅)).

Definition contains {V} (d : gmap string V) (k : string) : bool :=
  bool_decide (is_Some (d !! k)).

Definition get_tw_refs {A}
    (tw_refs_by_verse : gmap string (gmap string (gmap string (list A))))
    (book chapter verse : string) : Outcome (list A) :=
  if truthy_dict tw_refs_by_verse && negb (contains tw_refs_by_verse book)
  then Return []
  else
    match getitem tw_refs_by_verse book with
    | Raise e => Raise e
    | Return by_chapter =>
        if negb (contains by_chapter chapter) then Return []
        else
          match getitem by_chapter chapter with
          | Raise e => Raise e
          | Return by_verse =>
              if negb (contains by_verse verse) then Return []
              else getitem by_verse verse
          end
    end.

(* ================================================================= *)
(** ** The content of a resource: [get_content] and the helps'
       [initialize_from_assets] *)

(** [TResource._convert_md2html], under
    [icontract.require(lambda self: self._content)]. *)
Definition _convert_md2html (lib : Library) (r : Resource) : M Resource :=
  match _content r with
  | None => raise (AttributeError "_content")
  | Some c =>
      check (Py.truthy c) ViolationError ;;;
      ret (set_content r (markdown_markdown lib c))
  end.

(** [TResource._transform_content]. *)
Definition _transform_content (lib : Library) (r : Resource) : M Resource :=
  match _content r with
  | None => raise (AttributeError "_content")
  | Some c =>
      if Py.truthy c then
        let replaced := replace_rc_links lib r c in
        let transformed := transform_rc_links lib replaced in
        _convert_md2html lib (set_content r transformed)
      else ret r
  end.

(** [TNResource.get_content]. *)
Definition TNResource_get_content (w : World) (lib : Library) (r : Resource)
  : M Resource :=
  r <- TNResource._get_tn_markdown w r ;;
  _transform_content lib r.

(** The Markdown that [_get_tn_markdown] builds in a book
    directory. *)
Definition tn_md (w : World) (r : Resource) (book_dir : string) : string :=
  tn_book_intro w r
  ++ String.concat EmptyString
       (List.map (fun '(chapter_dir, chapter, chunk_file) =>
                    TNResource.chunk_md w r (tn_book_intro w r)
                                        chapter_dir chapter chunk_file)
                 (TNResource.units w book_dir)).

(** The world with another text for the chapter introductions. *)
Definition with_tn_chapter_intro (w : World)
    (intro : Resource -> string -> string -> string) : World :=
  {| BOOK_NAMES := BOOK_NAMES w; BOOK_NUMBERS := BOOK_NUMBERS w;
     GIT := GIT w; ZIP := ZIP w;
     get_document_html_header := get_document_html_header w;
     get_document_html_footer := get_document_html_footer w;
     pandoc_command := pandoc_command w; IN_CONTAINER := IN_CONTAINER w;
     usfm_lookup := usfm_lookup w; t_lookup := t_lookup w;
     path_exists := path_exists w; isfile := isfile w; isdir := isdir w;
     listdir := listdir w; glob := glob w; mkdir := mkdir w;
     subprocess_call := subprocess_call w;
     download_file := download_file w; unzip := unzip w;
     write_file := write_file w;
     find_all_chapter_breaks := find_all_chapter_breaks w;
     usfm_chapter := usfm_chapter w;
     markdown_file_to_html := markdown_file_to_html w;
     tn_book_intro := tn_book_intro w;
     tn_chapter_intro := intro;
     initialize_tn_chapter_files := initialize_tn_chapter_files w;
     pad := pad w;
     library := library w |}.






(** [USFMResource.get_content], with the chapters dictionary that
    [_initialize_verses_html] fills; its two contracts
    ([_content_files is not None], [_resource_filename is not None])
    hold of every resource. *)
Definition html_file (r : Resource) : string :=
  os_path.join (_output_dir r) (_resource_filename r) ++ ".html".

Definition USFMResource_get_content (w : World) (lib : Library) (r : Resource)
    (chapters_content : list (Z * USFMChapter))
  : M (Resource * list (Z * USFMChapter)) :=
  match buildSingleHtmlFromFiles lib (_content_files r) (_output_dir r)
                                 (_resource_filename r) with
  | Some e => raise e
  | None =>
      c <- lift (read_file lib (html_file r)) ;;
      let r := set_content r c in
      match _assembly_strategy_kind r with
      | BOOK => ret (r, chapters_content)
      | _ =>
          chapters_content <-
            USFMResource._initialize_verses_html w r chapters_content ;;
          ret (r, chapters_content)
      end
  end.

(** The chapter number that the chapter loop of
    [USFMResource._initialize_verses_html] reads in the text of a
    chapter heading: [int(chapter_break.get_text().split()[1])]. *)
Definition heading_number (chapter_break : string) : option Z :=
  match Py.split chapter_break with
  | _ :: num :: _ => Py.int num
  | _ => None
  end.

(** What one chapter heading gives to the chapters dictionary: its
    number and the chapter that the parsing of the document yields
    for it; [None] when the loop body raises. *)
Definition usfm_chapter_of (w : World) (r : Resource) (content heading : string)
    (chapter_break : string) : option (Z * USFMChapter) :=
  match heading_number chapter_break with
  | Some chapter_num =>
      match usfm_chapter w r content heading chapter_num with
      | Return ch => Some (chapter_num, ch)
      | Raise _ => None
      end
  | None => None
  end.

(** [resource.get_content()], by the class of the resource; a
    scripture resource starts with the empty chapters dictionary of
    [USFMResource.__init__]. *)
Definition get_content (w : World) (r : Resource) : M Resource :=
  match cls r with
  | USFM =>
      rc <- USFMResource_get_content w (library w) r [] ;;
      ret (fst rc)
  | TN => TNResource_get_content w (library w) r
  | TW =>
      r <- lift (_get_tw_markdown (library w) r) ;;
      _transform_content (library w) r
  | TQ =>
      r <- lift (_get_tq_markdown (library w) r) ;;
      _transform_content (library w) r
  | TA =>
      r <- lift (_get_ta_markdown (library w) r) ;;
      _transform_content (library w) r
  end.

(** [resource.initialize_assets()]: no class of [resource.py] defines
    a method of that name (the classes define
    [initialize_from_assets]), so the attribute lookup raises. *)
Definition initialize_assets (r : Resource) : M Resource :=
  raise (AttributeError "initialize_assets").

(* ================================================================= *)
(** ** [DocumentGenerator] *)

(** The strategies of [assembly_strategy_factory]; then the instance
    variables of a [DocumentGenerator].  [_resources]
    holds the [Resource] objects; [found_resources] and
    [unfound_resources] hold references to these same objects, here
    their positions in [_resources]. *)
Inductive AssemblyStrategy : Type := AssembleContentByBook.

Record Generator : Type := {
  assembly_strategy : AssemblyStrategy;
  working_dir : string;
  output_dir : string;
  content : string;
  unfound_resources : list nat;
  found_resources : list nat;
  _resources : list Resource;
  _document_request_key : string;
}.

Definition set_resources (dg : Generator) (rs : list Resource) : Generator :=
  {| assembly_strategy := assembly_strategy dg; working_dir := working_dir dg;
     output_dir := output_dir dg; content := content dg;
     unfound_resources := unfound_resources dg;
     found_resources := found_resources dg; _resources := rs;
     _document_request_key := _document_request_key dg |}.

Definition append_found (dg : Generator) (i : nat) : Generator :=
  {| assembly_strategy := assembly_strategy dg; working_dir := working_dir dg;
     output_dir := output_dir dg; content := content dg;
     unfound_resources := unfound_resources dg;
     found_resources := (found_resources dg ++ [i])%list;
     _resources := _resources dg;
     _document_request_key := _document_request_key dg |}.

Definition append_unfound (dg : Generator) (i : nat) : Generator :=
  {| assembly_strategy := assembly_strategy dg; working_dir := working_dir dg;
     output_dir := output_dir dg; content := content dg;
     unfound_resources := (unfound_resources dg ++ [i])%list;
     found_resources := found_resources dg; _resources := _resources dg;
     _document_request_key := _document_request_key dg |}.

Definition set_document_content (dg : Generator) (c : string) : Generator :=
  {| assembly_strategy := assembly_strategy dg; working_dir := working_dir dg;
     output_dir := output_dir dg; content := c;
     unfound_resources := unfound_resources dg;
     found_resources := found_resources dg; _resources := _resources dg;
     _document_request_key := _document_request_key dg |}.

Module DocumentGenerator.

(** [assembly_strategy_factory]: the table has the one entry [BOOK]. *)
Definition assembly_strategy_factory (kind : AssemblyStrategyEnum)
  : Outcome AssemblyStrategy :=
  match kind with
  | BOOK => Return AssembleContentByBook
  | VERSE => Raise (KeyError "AssemblyStrategyEnum.VERSE")
  | VERSE2 => Raise (KeyError "AssemblyStrategyEnum.VERSE2")
  end.

(** The call of [_initialize_resources],
    [resource_factory(self.working_dir, self.output_dir,
    resource_request)]: three arguments for a function whose four
    parameters are all required, so the call raises [TypeError] before
    the body of [resource_factory] runs. *)
Definition resource_factory_of_three (working_dir output_dir : string)
    (resource_request : ResourceRequest) : Outcome Resource :=
  Raise TypeError.

(** [_initialize_resources]: one call of the factory per resource
    request, in request order. *)
Definition _initialize_resources (working_dir output_dir : string)
    (document_request : DocumentRequest) : M (list Resource) :=
  for_each
    (fun resources resource_request =>
       r <- lift (resource_factory_of_three working_dir output_dir
                    resource_request) ;;
       ret (resources ++ [r])%list)
    (resource_requests document_request) [].

Definition request_triple (resource : ResourceRequest) : string :=
  String.concat "-"
    [rr_lang_code resource; rr_resource_type resource; rr_resource_code resource].

Definition _initialize_document_request_key (document_request : DocumentRequest)
  : string :=
  Py.drop_last
    (fold_left (fun document_request_key resource =>
                  document_request_key ++ request_triple resource ++ "_")
               (resource_requests document_request) EmptyString).

Definition __init__ (document_request : DocumentRequest)
    (working_dir output_dir : string) : M Generator :=
  strategy <- lift (assembly_strategy_factory
                      (assembly_strategy_kind document_request)) ;;
  let output_dir := if negb (Py.truthy output_dir) then working_dir else output_dir in
  resources <- _initialize_resources working_dir output_dir document_request ;;
  ret {| assembly_strategy := strategy; working_dir := working_dir;
         output_dir := output_dir; content := EmptyString;
         unfound_resources := []; found_resources := [];
         _resources := resources;
         _document_request_key :=
           _initialize_document_request_key document_request |}.

(** The body of the loop of [_fetch_resources] for the resource at
    position [i]. *)
Definition fetch_step (w : World) (dg : Generator) (i : nat) : M Generator :=
  match _resources dg !! i with
  | None => raise IndexError
  | Some resource =>
      resource <- find_location w resource ;;
      let dg := set_resources dg (<[i := resource]> (_resources dg)) in
      if is_found resource then
        let dg := append_found dg i in
        resource <- get_files w resource ;;
        ret (set_resources dg (<[i := resource]> (_resources dg)))
      else
        ret (append_unfound dg i)
  end.

Definition _fetch_resources (w : World) (dg : Generator) : M Generator :=
  for_each (fetch_step w) (seq 0 (length (_resources dg))) dg.

(** The body of the loop of [_initialize_resource_content] for the
    resource at position [i]. *)
Definition content_step (w : World) (dg : Generator) (i : nat) : M Generator :=
  match _resources dg !! i with
  | None => raise IndexError
  | Some resource =>
      resource <- initialize_assets resource ;;
      resource <- get_content w resource ;;
      ret (set_resources dg (<[i := resource]> (_resources dg)))
  end.

Definition _initialize_resource_content (w : World) (dg : Generator) : M Generator :=
  for_each (content_step w) (found_resources dg) dg.

(** [assemble_content_by_book]. *)
Definition assemble_step (dg : Generator) (content : string) (i : nat) : M string :=
  match _resources dg !! i with
  | None => raise IndexError
  | Some resource =>
      match _content resource with
      | None => raise (AttributeError "_content")
      | Some c => ret (content ++ String "010" (String "010" EmptyString) ++ c)
      end
  end.

Definition assemble_content_by_book (docgen : Generator) : M string :=
  for_each (assemble_step docgen) (found_resources docgen) EmptyString.

Definition enclose_html_content (w : World) (dg : Generator) : Generator :=
  set_document_content dg
    (get_document_html_header w ++ content dg ++ get_document_html_footer w).

Definition html_path (dg : Generator) : string :=
  os_path.join (output_dir dg) (_document_request_key dg ++ ".html").

Definition pdf_path (dg : Generator) : string :=
  os_path.join (output_dir dg) (_document_request_key dg ++ ".pdf").

Definition assemble_content (w : World) (dg : Generator) : M Generator :=
  c <- (match assembly_strategy dg with
        | AssembleContentByBook => assemble_content_by_book dg
        end) ;;
  let dg := enclose_html_content w (set_document_content dg c) in
  emit (EvWriteFile (html_path dg) (content dg)) ;;;
  match write_file w (html_path dg) (content dg) with
  | Some e => raise e
  | None => ret dg
  end.

Definition call (w : World) (command : string) : M unit :=
  emit (EvCall command) ;;;
  match subprocess_call w command with
  | CallRaised e => raise e
  | Exited _ => ret tt
  end.

Definition convert_html2pdf (w : World) (dg : Generator) : M unit :=
  let command :=
    pandoc_command w (output_dir dg) (working_dir dg) (_document_request_key dg)
                   (List.map _resource_code (_resources dg)) in
  let copy_command :=
    "cp " ++ output_dir dg ++ "/" ++ _document_request_key dg ++ ".pdf /output" in
  call w command ;;;
  if IN_CONTAINER w then call w copy_command else ret tt.

Definition _generate_pdf (w : World) (dg : Generator) : M Generator :=
  if negb (isfile w (pdf_path dg)) then
    dg <- assemble_content w dg ;;
    convert_html2pdf w dg ;;;
    ret dg
  else ret dg.

Definition run (w : World) (dg : Generator) : M Generator :=
  dg <- _fetch_resources w dg ;;
  dg <- _initialize_resource_content w dg ;;
  _generate_pdf w dg.

End DocumentGenerator.

(** The reference at position [i] of a list of resources is to a
    found one. *)
Definition is_found_at (rs : list Resource) (i : nat) : bool :=
  match rs !! i with Some r => is_found r | None => false end.

(** The same class and the same language, type and code. *)
Definition same_request (r r' : Resource) : Prop :=
  cls r' = cls r /\ _lang_code r' = _lang_code r
  /\ _resource_type r' = _resource_type r
  /\ _resource_code r' = _resource_code r.

(** Everything of a generator but its resources and its two lists. *)
Definition same_settings (dg dg' : Generator) : Prop :=
  assembly_strategy dg' = assembly_strategy dg
  /\ working_dir dg' = working_dir dg /\ output_dir dg' = output_dir dg
  /\ content dg' = content dg
  /\ _document_request_key dg' = _document_request_key dg.

(* ================================================================= *)
(** ** [index_tw_refs_by_verse] *)

(** A row of the references file, as [csv.DictReader] gives it: a
    dictionary from column name to text. *)
Abbreviation TwRef := (gmap string string).

(** One turn of the loop: the three subscripts of the row, the three
    [if ... not in ...] that create the missing levels, and the
    [append]. *)
Definition index_tw_ref
    (tw_refs_by_verse : gmap string (gmap string (gmap string (list TwRef))))
    (tw_ref : TwRef)
  : Outcome (gmap string (gmap string (gmap string (list TwRef)))) :=
  match getitem tw_ref "Book" with
  | Raise e => Raise e
  | Return book =>
      match getitem tw_ref "Chapter" with
      | Raise e => Raise e
      | Return chapter =>
          match getitem tw_ref "Verse" with
          | Raise e => Raise e
          | Return verse =>
              let by_chapter :=
                if negb (contains tw_refs_by_verse book) then ∅
                else default ∅ (tw_refs_by_verse !! book) in
              let by_verse :=
                if negb (contains by_chapter chapter) then ∅
                else default ∅ (by_chapter !! chapter) in
              let refs :=
                if negb (contains by_verse verse) then []
                else default [] (by_verse !! verse) in
              Return (<[book := <[chapter := <[verse := (refs ++ [tw_ref])%list]>
                                               by_verse]> by_chapter]>
                        tw_refs_by_verse)
          end
      end
  end.

Fixpoint index_tw_refs_from
    (tw_refs_by_verse : gmap string (gmap string (gmap string (list TwRef))))
    (tw_refs : list TwRef)
  : Outcome (gmap string (gmap string (gmap string (list TwRef)))) :=
  match tw_refs with
  | [] => Return tw_refs_by_verse
  | tw_ref :: rest =>
      match index_tw_ref tw_refs_by_verse tw_ref with
      | Raise e => Raise e
      | Return d => index_tw_refs_from d rest
      end
  end.

Definition index_tw_refs_by_verse (tw_refs : list TwRef)
  : Outcome (gmap string (gmap string (gmap string (list TwRef)))) :=
  index_tw_refs_from ∅ tw_refs.

(** The rows of a book, chapter and verse; a row that has the three
    columns. *)
Definition row_of (book chapter verse : string) (tw_ref : TwRef) : bool :=
  bool_decide (tw_ref !! "Book" = Some book)
  && bool_decide (tw_ref !! "Chapter" = Some chapter)
  && bool_decide (tw_ref !! "Verse" = Some verse).

Definition row_complete (tw_ref : TwRef) : bool :=
  contains tw_ref "Book" && contains tw_ref "Chapter" && contains tw_ref "Verse".

(** What is stored under a book, chapter and verse, the empty list
    when a level is missing. *)
Definition refs_at
    (d : gmap string (gmap string (gmap string (list TwRef))))
    (book chapter verse : string) : list TwRef :=
  match d !! book with
  | Some by_chapter =>
      match by_chapter !! chapter with
      | Some by_verse =>
          match by_verse !! verse with Some refs => refs | None => [] end
      | None => []
      end
  | None => []
  end.

(* ================================================================= *)
(** ** Kinds of recorded events *)

Definition is_call (ev : Event) : bool :=
  match ev with EvCall _ => true | _ => false end.

Definition is_download (ev : Event) : bool :=
  match ev with EvDownload _ _ => true | _ => false end.

Definition is_unzip (ev : Event) : bool :=
  match ev with EvUnzip _ _ => true | _ => false end.

Definition is_lookup (ev : Event) : bool :=
  match ev with EvLookup _ => true | _ => false end.

Definition is_write (ev : Event) : bool :=
  match ev with EvWriteFile _ _ => true | _ => false end.

(** The call by which [_acquire_resource] gets the files of a
    resource located at [url] from [source]: the clone command for
    git, the download otherwise. *)
Definition acquisition (w : World) (r : Resource) (source url : string) : Event :=
  if String.eqb source (GIT w)
  then EvCall (ResourceProvisioner.git_clone_command url
                 (ResourceProvisioner.resource_filepath r url))
  else EvDownload url (ResourceProvisioner.resource_filepath r url).

(* ================================================================= *)
(** ** Reading the resources of a generator *)

(** The content of the resource that a reference points to. *)
Definition content_at (rs : list Resource) (i : nat) : option string :=
  match rs !! i with Some r => _content r | None => None end.

(** The text that [assemble_content_by_book] adds for one resource. *)
Definition book_section (c : string) : string :=
  String "010" (String "010" EmptyString) ++ c.

(** The generator after a fetch phase in which no lookup gave a URL:
    every resource carries the answer of its lookup and every
    reference is in the unfound list. *)
Definition all_unfound (w : World) (dg : Generator) : Generator :=
  {| assembly_strategy := assembly_strategy dg; working_dir := working_dir dg;
     output_dir := output_dir dg; content := content dg;
     unfound_resources :=
       (unfound_resources dg ++ seq 0 (length (_resources dg)))%list;
     found_resources := found_resources dg;
     _resources := List.map (fun r => set_location r (t_lookup w r)) (_resources dg);
     _document_request_key := _document_request_key dg |}.

Definition lookups_of (rs : list Resource) : list Event :=
  List.map (fun r => EvLookup (_resource_filename r)) rs.

(* ================================================================= *)
(** ** Reading dictionaries kept in insertion order *)

(** [d.get(k)]. *)
Fixpoint dict_get {V} (d : list (Z * V)) (k : Z) : option V :=
  match d with
  | [] => None
  | (k', v) :: d' => if (k' =? k)%Z then Some v else dict_get d' k
  end.

(** The dictionary after the assignments [d[k] = v] of a list, in
    order. *)
Definition dict_update {V} (d : list (Z * V)) (l : list (Z * V)) : list (Z * V) :=
  fold_left (fun d kv => Py.dict_set d (fst kv) (snd kv)) l d.

(** What one verse file and one chapter directory give to
    [TResource._initialize_verses_html]: the number read from the
    name and the value stored under it; [None] when the name is not a
    number. *)
Definition verse_of (w : World) (filepath : string) : option (Z * string) :=
  match Py.int (Py.stem_of_name (TResource.basename filepath)) with
  | Some verse_num => Some (verse_num, markdown_file_to_html w filepath)
  | None => None
  end.

Definition chapter_intro_of (w : World) (chapter_dir : string) : string :=
  match glob w (chapter_dir ++ "/*intro.md") with
  | intro_path :: _ =>
      if Py.truthy intro_path then markdown_file_to_html w intro_path
      else EmptyString
  | [] => EmptyString
  end.

Definition chapter_of (w : World) (chapter_dir : string)
  : option (Z * TNChapterPayload) :=
  match Py.int (TResource.basename chapter_dir) with
  | Some chapter_num =>
      if forallb (fun p => bool_decide (is_Some (verse_of w p)))
                 (TResource.verse_paths w chapter_dir)
      then Some (chapter_num,
                 {| chapter_intro_html := chapter_intro_of w chapter_dir;
                    verses_html :=
                      dict_update [] (omap (verse_of w)
                                           (TResource.verse_paths w chapter_dir)) |})
      else None
  | None => None
  end.

(** Every name that [TResource._initialize_verses_html] converts
    with [int] is a number. *)
Definition all_numeric (w : World) (r : Resource) : bool :=
  forallb (fun d => bool_decide (is_Some (chapter_of w d)))
          (TResource.chapter_dirs w r).

(* ================================================================= *)
(** ** A small world to run the definitions in *)

Definition example_books : gmap string string :=
  list_to_map [("gen", "Genesis"); ("exo", "Exodus")].

Definition example_numbers : gmap string string :=
  list_to_map [("gen", "01"); ("exo", "02")].

Definition example_library (html : Outcome string) : Library :=
  {| get_markdown_doc_file_names := ["readme"; "license"];
     replace_rc_links := fun _ text => text;
     transform_rc_links := fun text => text;
     markdown_markdown := fun text => "<p>" ++ text ++ "</p>";
     buildSingleHtmlFromFiles := fun _ _ _ => None;
     read_file := fun _ => html;
     _get_tw_markdown := fun r => Return (set_content r "");
     _get_tq_markdown := fun r => Return (set_content r "");
     _get_ta_markdown := fun r => Return (set_content r "") |}.

(** Every oracle is a parameter or a constant: the location answers,
    the outcome of a process, of a download and of an extraction,
    whether the PDF is there, and the directory listings. *)
Definition example_world
    (usfm_answer t_answer : Resource -> ResourceLookupDto)
    (call : string -> CallOutcome) (download extract : option Exn)
    (pdf_there : bool) (globbed listed : string -> list string)
    (breaks : string -> list string) : World :=
  {| BOOK_NAMES := example_books;
     BOOK_NUMBERS := example_numbers;
     GIT := "git";
     ZIP := "zip";
     get_document_html_header := "<html>";
     get_document_html_footer := "</html>";
     pandoc_command := fun output_dir working_dir key codes => "pandoc " ++ key;
     IN_CONTAINER := false;
     usfm_lookup := usfm_answer;
     t_lookup := t_answer;
     path_exists := fun _ => false;
     isfile := fun _ => pdf_there;
     isdir := fun _ => true;
     listdir := listed;
     glob := globbed;
     mkdir := fun _ => None;
     subprocess_call := call;
     download_file := fun _ _ => download;
     unzip := fun _ _ => extract;
     write_file := fun _ _ => None;
     find_all_chapter_breaks := breaks;
     usfm_chapter := fun _ _ _ _ =>
                       Return {| chapter_content := []; chapter_verses := [] |};
     markdown_file_to_html := fun path => "<p>" ++ path ++ "</p>";
     tn_book_intro := fun _ => EmptyString;
     tn_chapter_intro := fun _ _ _ => EmptyString;
     initialize_tn_chapter_files :=
       fun book_id book_title lang_code chunk_file chapter => chunk_file;
     pad := fun book_id chapter => chapter;
     library := example_library (Return "");
  |}.

Definition not_found : ResourceLookupDto :=
  {| dto_url := None; dto_source := "git"; dto_jsonpath := None |}.

Definition found_at (source url : string) : ResourceLookupDto :=
  {| dto_url := Some url; dto_source := source; dto_jsonpath := None |}.

Definition no_files : string -> list string := fun _ => [].

Definition request (lang_code resource_type resource_code : string)
  : ResourceRequest :=
  {| rr_lang_code := lang_code; rr_resource_type := resource_type;
     rr_resource_code := resource_code |}.

(** A resource as [Resource.__init__] leaves it. *)
Definition fresh (c : ResourceClass) (lang_code resource_type resource_code : string)
  : Resource :=
  {| cls := c; _working_dir := "working"; _output_dir := "output";
     _assembly_strategy_kind := BOOK;
     _lang_code := lang_code; _resource_type := resource_type;
     _resource_code := resource_code;
     _resource_dir := os_path.join "working" (lang_code ++ "_" ++ resource_type);
     _resource_filename := lang_code ++ "_" ++ resource_type ++ "_" ++ resource_code;
     _book_id := resource_code; _book_title := "Genesis"; _book_number := "01";
     _resource_url := None; _resource_source := None; _resource_jsonpath := None;
     _content_files := []; _content := None |}.

(** A generator over given resources, before its fetch phase. *)
Definition generator_of (rs : list Resource) (key : string) : Generator :=
  {| assembly_strategy := AssembleContentByBook; working_dir := "working";
     output_dir := "output"; content := EmptyString;
     unfound_resources := []; found_resources := []; _resources := rs;
     _document_request_key := key |}.


Definition example_no_chapters_world : World :=
  example_world (fun _ => not_found) (fun _ => not_found) (fun _ => Exited 0)
                None None false no_files no_files (fun _ => []).

(** The claim of C2 as the spec words it: with no chapter heading the
    split returns, with empty chapter content. *)
Definition degenerate_parse_yields_empty_content : Prop :=
  forall (w : World) (r : Resource) (content : string) (t : list Event),
    _content r = Some content ->
    find_all_chapter_breaks w content = [] ->
    USFMResource._initialize_verses_html w r [] t = (Return [], t).

Definition located (r : Resource) (source url : string) : Resource :=
  set_location r (found_at source url).

Definition example_tn_git : Resource :=
  located (fresh TN "en" "tn" "gen") "git" "https://host/org/en_tn".

Definition example_tn_zip : Resource :=
  located (fresh TN "en" "tn" "gen") "zip" "https://host/en_tn.zip".

Definition world_with (call : string -> CallOutcome) (download extract : option Exn)
  : World :=
  example_world (fun _ => not_found) (fun _ => not_found) call download extract
                false no_files no_files no_files.

(** The claim of C5 on a git clone as the spec words it: a clone that
    exits with a non-zero status makes provisioning fail. *)
Definition nonzero_clone_exit_fails_provisioning : Prop :=
  forall (w : World) (r : Resource) (url : string) (status : Z) (t : list Event),
    _resource_source r = Some (GIT w) ->
    _resource_url r = Some url ->
    subprocess_call w
      (ResourceProvisioner.git_clone_command url
         (ResourceProvisioner.resource_filepath r url)) = Exited status ->
    status <> 0%Z ->
    exists e t', get_files w r t = (Raise e, t').

(** The claim of C7 as the spec words it: of two chapters, the one
    with the smaller number is processed first. *)
Definition numeric_processing_order : Prop :=
  forall (w : World) (book_dir : string) (i j : nat) (a b : string),
    processed_chapters w book_dir !! i = Some a ->
    processed_chapters w book_dir !! j = Some b ->
    Py.digits_value a < Py.digits_value b ->
    i < j.

Definition example_listing (names : list string) (path : string) : list string :=
  if String.eqb path "working/en_tn/gen" then names else [].

Definition example_chapter_glob (pattern : string) : list string :=
  if String.eqb pattern "working/en_tn/*gen/*[0-9]*"
  then ["working/en_tn/gen/2"; "working/en_tn/gen/10"]
  else if String.eqb pattern "working/en_tn/gen/10/*[0-9]*.md"
  then ["working/en_tn/gen/10/2.md"; "working/en_tn/gen/10/11.md"]
  else [].

Definition world_with_tree (names : list string) : World :=
  example_world (fun _ => not_found) (fun _ => not_found) (fun _ => Exited 0)
                None None false example_chapter_glob (example_listing names)
                no_files.

Definition example_t_answer (r : Resource) : ResourceLookupDto :=
  if String.eqb (_resource_type r) "tn"
  then found_at "git" "https://host/org/en_tn"
  else not_found.

Definition world_of_lookups (pdf_there : bool) : World :=
  example_world (fun _ => not_found) example_t_answer (fun _ => Exited 0)
                None None pdf_there no_files no_files no_files.

Definition example_tn_tq : Generator :=
  generator_of [fresh TN "en" "tn" "gen"; fresh TQ "en" "tq" "gen"]
               "en-tn-gen_en-tq-gen".

Definition example_tq : Generator :=
  generator_of [fresh TQ "en" "tq" "gen"] "en-tq-gen".

Definition example_tn_ulb : Generator :=
  generator_of [fresh TN "en" "tn" "gen"; fresh USFM "en" "ulb" "gen"]
               "en-tn-gen_en-ulb-gen".


Definition example_row (book chapter verse term : string) : TwRef :=
  list_to_map [("Book", book); ("Chapter", chapter); ("Verse", verse);
               ("Term", term)].

Definition example_rows : list TwRef :=
  [ example_row "Genesis" "1" "1" "god"; example_row "Genesis" "1" "2" "spirit";
    example_row "Genesis" "1" "1" "heaven" ].

Definition example_empty_url : Resource :=
  located (fresh TN "en" "tn" "gen") "git" "".

Definition example_padding_glob (pattern : string) : list string :=
  if String.eqb pattern "working/en_tn/*gen/*[0-9]*"
  then ["working/en_tn/gen/1"; "working/en_tn/gen/01"; "working/en_tn/gen/2"]
  else if String.eqb pattern "working/en_tn/gen/1/*[0-9]*.md"
  then ["working/en_tn/gen/1/01.md"]
  else if String.eqb pattern "working/en_tn/gen/01/*[0-9]*.md"
  then ["working/en_tn/gen/01/02.md"]
  else [].


Definition world_with_glob (globbed : string -> list string) : World :=
  example_world (fun _ => not_found) (fun _ => not_found) (fun _ => Exited 0)
                None None false globbed no_files no_files.

Definition with_isdir (w : World) (is_directory : string -> bool) : World :=
  {| BOOK_NAMES := BOOK_NAMES w; BOOK_NUMBERS := BOOK_NUMBERS w;
     GIT := GIT w; ZIP := ZIP w;
     get_document_html_header := get_document_html_header w;
     get_document_html_footer := get_document_html_footer w;
     pandoc_command := pandoc_command w; IN_CONTAINER := IN_CONTAINER w;
     usfm_lookup := usfm_lookup w; t_lookup := t_lookup w;
     path_exists := path_exists w; isfile := isfile w; isdir := is_directory;
     listdir := listdir w; glob := glob w; mkdir := mkdir w;
     subprocess_call := subprocess_call w;
     download_file := download_file w; unzip := unzip w;
     write_file := write_file w;
     find_all_chapter_breaks := find_all_chapter_breaks w;
     usfm_chapter := usfm_chapter w;
     markdown_file_to_html := markdown_file_to_html w;
     tn_book_intro := tn_book_intro w;
     tn_chapter_intro := tn_chapter_intro w;
     initialize_tn_chapter_files := initialize_tn_chapter_files w;
     pad := pad w;
     library := library w |}.

Definition example_notes_listing (path : string) : list string :=
  if String.eqb path "working/en_tn/en_tn" then ["01"] else [].

Definition example_notes_glob (pattern : string) : list string :=
  if String.eqb pattern "working/en_tn/en_tn/01/[0-9]*.md"
  then ["working/en_tn/en_tn/01/01.md"]
  else [].

(** A notes repository with one chapter of one chunk. *)
Definition example_notes_world : World :=
  example_world (fun _ => not_found) (fun _ => not_found) (fun _ => Exited 0)
                None None false example_notes_glob example_notes_listing
                no_files.

Definition example_no_book_dir : World :=
  with_isdir (world_with_glob no_files) (fun _ => false).


Definition example_breaks (content : string) : list string :=
  ["Chapter 1"; "Chapter 2"].

Definition example_verse_resource : Resource :=
  {| cls := USFM; _working_dir := "working"; _output_dir := "output";
     _assembly_strategy_kind := VERSE;
     _lang_code := "en"; _resource_type := "ulb"; _resource_code := "gen";
     _resource_dir := "working/en_ulb"; _resource_filename := "en_ulb_gen";
     _book_id := "gen"; _book_title := "Genesis"; _book_number := "01";
     _resource_url := None; _resource_source := None; _resource_jsonpath := None;
     _content_files := []; _content := None |}.

(* ================================================================= *)
(** * Properties *)

(** ** The primitives on examples *)

Example lower_example : Py.lower "Gen/01-GEN.usfm" = "gen/01-gen.usfm".
Proof. reflexivity. Qed.

Example rpartition_example :
  Py.rpartition_tail os_path.sep "https://host/org/en_tn" = "en_tn".
Proof. reflexivity. Qed.

Example join_example :
  os_path.join "working/en_tn" "en_tn" = "working/en_tn/en_tn"
  /\ os_path.join "working/" "en_tn" = "working/en_tn"
  /\ os_path.join "working" "/abs" = "/abs".
Proof. repeat split. Qed.

Example sorted_example : Py.sorted ["2"; "10"; "1"] = ["1"; "10"; "2"].
Proof. reflexivity. Qed.

Example split_example : Py.split "  Chapter   12 " = ["Chapter"; "12"].
Proof. reflexivity. Qed.

Example int_example :
  Py.int "012" = Some 12%Z /\ Py.int "-3" = Some (-3)%Z /\ Py.int "1a" = None
  /\ Py.int "" = None.
Proof. repeat split. Qed.

Example stem_example :
  Py.stem_of_name "01.md" = "01" /\ Py.stem_of_name ".md" = ".md"
  /\ Py.stem_of_name "a.b.c" = "a.b" /\ Py.stem_of_name "01." = "01."
  /\ Py.stem_of_name "intro" = "intro".
Proof. repeat split. Qed.

Example re_match_example :
  Py.re_match_digits "12" = true /\ Py.re_match_digits "" = false
  /\ Py.re_match_digits "1a" = false /\ Py.re_match_digits "front" = false.
Proof. repeat split. Qed.

Example drop_last_example : Py.drop_last "en-tn-gen_" = "en-tn-gen".
Proof. reflexivity. Qed.

(** ** Strings *)

Lemma append_cons (x : ascii) (a b : string) :
  String x a ++ b = String x (a ++ b).
Proof. reflexivity. Qed.

Lemma append_nil_l (a : string) : "" ++ a = a.
Proof. reflexivity. Qed.

Lemma append_assoc (a b c : string) : (a ++ b) ++ c = a ++ b ++ c.
Proof.
  induction a as [|x a IH]; [reflexivity|].
  rewrite !append_cons. now f_equal.
Qed.

Lemma append_nil_r (a : string) : a ++ "" = a.
Proof.
  induction a as [|x a IH]; [reflexivity|].
  rewrite append_cons. now f_equal.
Qed.

Lemma prefix_spec (p s : string) :
  String.prefix p s = true <-> exists post, s = p ++ post.
Proof.
  revert s. induction p as [|x p IH]; intros s; simpl.
  - split; [intros _; now exists s | intros _; now destruct s].
  - destruct s as [|y s].
    + split; [discriminate | intros [post H]; rewrite append_cons in H; discriminate].
    + simpl. destruct (ascii_dec x y) as [->|Hne].
      * rewrite IH. split; intros [post H]; exists post.
        -- rewrite append_cons. now rewrite H.
        -- rewrite append_cons in H. now injection H.
      * split; [discriminate|].
        intros [post H]. rewrite append_cons in H. injection H; congruence.
Qed.


(** ** The exception monad *)

Lemma bind_Return_inv {A B} (c : M A) (k : A -> M B) t b t' :
  bind c k t = (Return b, t') ->
  exists a t1, c t = (Return a, t1) /\ k a t1 = (Return b, t').
Proof.
  unfold bind. destruct (c t) as [[a|e] t1]; [eauto | discriminate].
Qed.

Lemma bind_Raise {A B} (c : M A) (k : A -> M B) t e t' :
  c t = (Raise e, t') -> bind c k t = (Raise e, t').
Proof. unfold bind. now intros ->. Qed.

Lemma bind_Return {A B} (c : M A) (k : A -> M B) t a t1 :
  c t = (Return a, t1) -> bind c k t = k a t1.
Proof. unfold bind. now intros ->. Qed.

Lemma check_Return_inv b e t u t' :
  check b e t = (Return u, t') -> b = true /\ t' = t.
Proof. destruct b; simpl; unfold ret, raise; intros H; inversion H; auto. Qed.

(** ** [get_tw_refs] *)

Lemma truthy_dict_empty {V} : truthy_dict (∅ : gmap string V) = false.
Proof. unfold truthy_dict. now rewrite bool_decide_eq_true_2. Qed.

Lemma truthy_dict_nonempty {V} (d : gmap string V) :
  d <> ∅ -> truthy_dict d = true.
Proof. intros H. unfold truthy_dict. now rewrite bool_decide_eq_false_2. Qed.

Lemma contains_lookup {V} (d : gmap string V) k :
  contains d k = match d !! k with Some _ => true | None => false end.
Proof.
  unfold contains. destruct (d !! k) eqn:E.
  - apply bool_decide_eq_true_2. eauto.
  - apply bool_decide_eq_false_2. intros [x Hx]. discriminate.
Qed.

(** On a dictionary that is not empty the function is total and
    returns the stored list, or the empty list when a key is missing. *)
Lemma get_tw_refs_nonempty {A}
    (d : gmap string (gmap string (gmap string (list A)))) book chapter verse :
  d <> ∅ ->
  get_tw_refs d book chapter verse =
  Return (match d !! book with
          | Some by_chapter =>
              match by_chapter !! chapter with
              | Some by_verse =>
                  match by_verse !! verse with Some refs => refs | None => [] end
              | None => []
              end
          | None => []
          end).
Proof.
  intros Hne. unfold get_tw_refs, getitem.
  rewrite (truthy_dict_nonempty d Hne), contains_lookup. simpl.
  destruct (d !! book) as [by_chapter|]; simpl; [|reflexivity].
  rewrite contains_lookup.
  destruct (by_chapter !! chapter) as [by_verse|]; simpl; [|reflexivity].
  rewrite contains_lookup.
  destruct (by_verse !! verse); reflexivity.
Qed.

(** C10, at the input where the code leaves the claim: on the empty
    dictionary the guard [tw_refs_by_verse and book not in
    tw_refs_by_verse] is false, the subscript [tw_refs_by_verse[book]]
    is evaluated, and [get_tw_refs] raises [KeyError] instead of
    returning the empty list. *)
Theorem get_tw_refs_empty_dictionary_raises (book chapter verse : string) :
  get_tw_refs (∅ : gmap string (gmap string (gmap string (list string))))
              book chapter verse
  = Raise (KeyError book).
Proof.
  unfold get_tw_refs. rewrite (@truthy_dict_empty (gmap string (gmap string (list string)))).
  simpl. unfold getitem. now rewrite lookup_empty.
Qed.

(** ** [Resource.__init__] *)

Lemma Resource_init_unknown_code w c wd od rr kind :
  BOOK_NAMES w !! rr_resource_code rr = None
  \/ BOOK_NUMBERS w !! rr_resource_code rr = None ->
  Resource_init w c wd od rr kind = Raise (KeyError (rr_resource_code rr)).
Proof.
  intros H. unfold Resource_init, getitem.
  destruct (BOOK_NAMES w !! rr_resource_code rr) eqn:E1; [|reflexivity].
  destruct H as [H|H]; [discriminate|]. now rewrite H.
Qed.

Lemma resource_factory_unknown_code w wd od rr kind :
  BOOK_NAMES w !! rr_resource_code rr = None
  \/ BOOK_NUMBERS w !! rr_resource_code rr = None ->
  exists e, resource_factory w wd od rr kind = Raise e.
Proof.
  intros H. unfold resource_factory.
  destruct (getitem resources (rr_resource_type rr)) as [c|e]; [|eauto].
  rewrite (Resource_init_unknown_code _ _ _ _ _ _ H). eauto.
Qed.

(** C8: a resource code with no entry in the book-name or book-number
    table makes [Resource.__init__] raise [KeyError] for that code, and
    the factory raises for every resource type: [KeyError] for the
    code when the type is one of its table.  Neither makes a call
    outside (they are not computations of the call record), so the
    failure comes at construction, before any lookup, clone or
    download, and no resource exists on which to run them. *)
Theorem unknown_resource_code_fails_at_construction
    (w : World) (rr : ResourceRequest)
    (Hcode : BOOK_NAMES w !! rr_resource_code rr = None
             \/ BOOK_NUMBERS w !! rr_resource_code rr = None) :
  (forall c wd od kind,
      Resource_init w c wd od rr kind = Raise (KeyError (rr_resource_code rr)))
  /\ (forall wd od kind c,
         resources !! rr_resource_type rr = Some c ->
         resource_factory w wd od rr kind = Raise (KeyError (rr_resource_code rr)))
  /\ (forall wd od kind, exists e, resource_factory w wd od rr kind = Raise e).
Proof.
  split; [|split].
  - intros. now apply Resource_init_unknown_code.
  - intros wd od kind c Hc. unfold resource_factory, getitem. rewrite Hc.
    now apply Resource_init_unknown_code.
  - intros. now apply resource_factory_unknown_code.
Qed.

Lemma unknown_resource_code_fails_at_construction_witness :
  let w := example_world (fun _ => not_found) (fun _ => not_found)
             (fun _ => Exited 0) None None false no_files no_files no_files in
  let rr := request "en" "tn" "xyz" in
  Resource_init w TN "working" "output" rr BOOK = Raise (KeyError "xyz")
  /\ resource_factory w "working" "output" rr BOOK = Raise (KeyError "xyz").
Proof.
  intros w rr.
  assert (H : BOOK_NAMES w !! rr_resource_code rr = None
              \/ BOOK_NUMBERS w !! rr_resource_code rr = None)
    by (left; reflexivity).
  destruct (unknown_resource_code_fails_at_construction w rr H)
    as (Hi & Hf & _).
  split.
  - apply (Hi TN "working" "output" BOOK).
  - apply (Hf "working" "output" BOOK TN). reflexivity.
Defined.

(** ** [USFMResource.initialize_from_assets] *)

Lemma filter_sublist {A} (f : A -> bool) (l : list A) :
  List.filter f l `sublist_of` l.
Proof.
  induction l as [|x l IH]; simpl; [constructor|].
  destruct (f x); now constructor.
Qed.





(** ** [USFMResource._initialize_verses_html] *)

(** C2, as the code has it: a USFM document in which the parser
    finds no chapter heading (no [h2] of class [c-num]) makes
    [_initialize_verses_html] raise, and no chapter content is
    returned: [IndexError] from [chapter_breaks[0]] when the content is
    not empty, a contract violation of [require(self._content)] when
    it is. *)
Theorem usfm_without_chapter_breaks_raises
    (w : World) (r : Resource) (chapters_content : list (Z * USFMChapter))
    (content : string) (t : list Event)
    (Hcontent : _content r = Some content)
    (Hnone : find_all_chapter_breaks w content = []) :
  USFMResource._initialize_verses_html w r chapters_content t
  = (Raise (if Py.truthy content then IndexError else ViolationError), t).
Proof.
  unfold USFMResource._initialize_verses_html. rewrite Hcontent, Hnone.
  destruct content; reflexivity.
Qed.

Lemma usfm_without_chapter_breaks_raises_witness :
  USFMResource._initialize_verses_html example_no_chapters_world
    (set_content (fresh USFM "en" "ulb" "gen") "<h1>Genesis</h1>") [] []
  = (Raise IndexError, []).
Proof.
  apply (usfm_without_chapter_breaks_raises example_no_chapters_world
           (set_content (fresh USFM "en" "ulb" "gen") "<h1>Genesis</h1>")
           [] "<h1>Genesis</h1>" []); reflexivity.
Defined.

Lemma degenerate_parse_counterexample :
  ~ degenerate_parse_yields_empty_content.
Proof.
  intros H.
  specialize (H example_no_chapters_world
                (set_content (fresh USFM "en" "ulb" "gen") "<h1>Genesis</h1>")
                "<h1>Genesis</h1>" [] eq_refl eq_refl).
  discriminate H.
Qed.

(** ** [ResourceProvisioner] *)

Ltac eval_m :=
  cbv beta iota zeta delta
    [get_files ResourceProvisioner.__call__ ResourceProvisioner._acquire_resource
     ResourceProvisioner._is_git ResourceProvisioner._is_zip
     ResourceProvisioner.resource_source ResourceProvisioner.resource_filepath
     bind check ret raise emit lift Py.truthy_opt].

(** C5, as the code has it: provisioning fails, with the exception
    that the helper raised, when the download fails and when the
    extraction of the downloaded archive fails; a clone call that
    raises a subprocess error is caught, and provisioning returns
    normally with the resource as it was. *)
Theorem provisioning_fails_on_download_or_extraction_error
    (w : World) (r : Resource) (url source : string) (t t1 : list Event)
    (Hurl : _resource_url r = Some url)
    (Hsource : _resource_source r = Some source)
    (Hcontracts : Py.truthy (_resource_type r) && Py.truthy (_resource_dir r)
                  && Py.truthy url = true)
    (Htruthy : Py.truthy source = true)
    (Hprepare : ResourceProvisioner._prepare_resource_directory w r t
                = (Return tt, t1)) :
  let resource_filepath := ResourceProvisioner.resource_filepath r url in
  (forall e,
      source <> GIT w ->
      download_file w url resource_filepath = Some e ->
      get_files w r t
      = (Raise e, (t1 ++ [EvDownload url resource_filepath])%list))
  /\ (forall e,
         source <> GIT w -> source = ZIP w ->
         download_file w url resource_filepath = None ->
         unzip w resource_filepath (_resource_dir r) = Some e ->
         get_files w r t
         = (Raise e, (t1 ++ [EvDownload url resource_filepath]
                         ++ [EvUnzip resource_filepath (_resource_dir r)])%list))
  /\ (source = GIT w -> source <> ZIP w ->
      subprocess_call w
        (ResourceProvisioner.git_clone_command url resource_filepath)
      = CallRaised SubprocessError ->
      get_files w r t
      = (Return r,
         (t1 ++ [EvCall (ResourceProvisioner.git_clone_command url
                           resource_filepath)])%list)).
Proof.
  intros resource_filepath. subst resource_filepath.
  unfold ResourceProvisioner.resource_filepath.
  assert (Hstart : get_files w r t = ResourceProvisioner._acquire_resource w r t1).
  { eval_m. now rewrite Hprepare. }
  rewrite Hstart. clear Hstart Hprepare.
  split; [|split].
  - intros e Hng Hdl. apply String.eqb_neq in Hng.
    eval_m. rewrite Hurl. eval_m. rewrite Hcontracts, Hsource, Htruthy, Hng.
    eval_m. now rewrite Hdl.
  - intros e Hng Hz Hdl Huz. apply String.eqb_neq in Hng.
    apply String.eqb_eq in Hz.
    eval_m. rewrite Hurl. eval_m. rewrite Hcontracts, Hsource, Htruthy, Hng.
    eval_m. rewrite Hdl, Hsource, Htruthy, Hz. eval_m. rewrite Huz.
    now rewrite <- app_assoc.
  - intros Hg Hnz Hcall. apply String.eqb_eq in Hg. apply String.eqb_neq in Hnz.
    eval_m. rewrite Hurl. eval_m. rewrite Hcontracts, Hsource, Htruthy, Hg.
    eval_m. rewrite Hcall, Hsource, Htruthy, Hnz. reflexivity.
Qed.

Lemma provisioning_fails_on_download_or_extraction_error_witness :
  get_files (world_with (fun _ => Exited 0) (Some DownloadError) None)
            example_tn_zip []
  = (Raise DownloadError,
     [EvMkdir "working/en_tn";
      EvDownload "https://host/en_tn.zip" "working/en_tn/en_tn.zip"])
  /\ get_files (world_with (fun _ => Exited 0) None (Some UnzipError))
               example_tn_zip []
     = (Raise UnzipError,
        [EvMkdir "working/en_tn";
         EvDownload "https://host/en_tn.zip" "working/en_tn/en_tn.zip";
         EvUnzip "working/en_tn/en_tn.zip" "working/en_tn"])
  /\ get_files (world_with (fun _ => CallRaised SubprocessError) None None)
               example_tn_git []
     = (Return example_tn_git,
        [EvMkdir "working/en_tn";
         EvCall "git clone --depth=1 'https://host/org/en_tn' 'working/en_tn/en_tn'"]).
Proof.
  split; [|split].
  - apply (provisioning_fails_on_download_or_extraction_error
             (world_with (fun _ => Exited 0) (Some DownloadError) None)
             example_tn_zip "https://host/en_tn.zip" "zip" []
             [EvMkdir "working/en_tn"]);
      try reflexivity; discriminate.
  - apply (provisioning_fails_on_download_or_extraction_error
             (world_with (fun _ => Exited 0) None (Some UnzipError))
             example_tn_zip "https://host/en_tn.zip" "zip" []
             [EvMkdir "working/en_tn"]);
      try reflexivity; discriminate.
  - apply (provisioning_fails_on_download_or_extraction_error
             (world_with (fun _ => CallRaised SubprocessError) None None)
             example_tn_git "https://host/org/en_tn" "git" []
             [EvMkdir "working/en_tn"]);
      try reflexivity; discriminate.
Defined.

(** A clone that exits with status 128 leaves provisioning to return
    normally. *)
Lemma nonzero_clone_exit_counterexample :
  ~ nonzero_clone_exit_fails_provisioning.
Proof.
  intros H.
  destruct (H (world_with (fun _ => Exited 128) None None) example_tn_git
              "https://host/org/en_tn" 128%Z [] eq_refl eq_refl eq_refl)
    as (e & t' & Habs); [discriminate|].
  vm_compute in Habs. discriminate Habs.
Qed.

Example clone_exit_128_provisions :
  get_files (world_with (fun _ => Exited 128) None None) example_tn_git []
  = (Return (set_resource_dir example_tn_git "working/en_tn/en_tn"),
     [EvMkdir "working/en_tn";
      EvCall "git clone --depth=1 'https://host/org/en_tn' 'working/en_tn/en_tn'"]).
Proof. reflexivity. Qed.

(** C6: after the provisioning of a resource whose source is git, once
    the clone command has run and given an exit status, the resource
    is the one before with [resource_dir] set to the clone target,
    the old [resource_dir] joined with the last component of the URL,
    and discovery globs under that directory; when the source is not
    git, provisioning leaves the resource, and so its [resource_dir],
    as it was. *)
Theorem provisioning_redirects_git_resource_dir
    (w : World) (r r' : Resource) (t t' : list Event)
    (Hrun : get_files w r t = (Return r', t')) :
  (forall url status,
      _resource_source r = Some (GIT w) ->
      _resource_url r = Some url ->
      subprocess_call w
        (ResourceProvisioner.git_clone_command url
           (ResourceProvisioner.resource_filepath r url))
      = Exited status ->
      r' = set_resource_dir r (ResourceProvisioner.resource_filepath r url)
      /\ _resource_dir r'
         = os_path.join (_resource_dir r) (Py.rpartition_tail os_path.sep url)
      /\ USFMResource.usfm_glob_pattern r'
         = os_path.join (_resource_dir r) (Py.rpartition_tail os_path.sep url)
           ++ "**/*.usfm")
  /\ (_resource_source r <> Some (GIT w) ->
      r' = r /\ _resource_dir r' = _resource_dir r).
Proof.
  unfold get_files, ResourceProvisioner.__call__ in Hrun.
  apply bind_Return_inv in Hrun as (u & t1 & _ & Hrun).
  unfold ResourceProvisioner._acquire_resource in Hrun.
  apply bind_Return_inv in Hrun as (u' & t2 & Hc & Hrun).
  destruct (_resource_url r) as [url0|] eqn:Hurl; [|discriminate].
  apply bind_Return_inv in Hrun as (is_git & t3 & Hgit & Hrun).
  apply bind_Return_inv in Hrun as (r1 & t4 & Hstep & Hrun).
  apply bind_Return_inv in Hrun as (is_zip & t5 & Hzip & Hrun).
  apply bind_Return_inv in Hrun as (u'' & t6 & Hunzip & Hrun).
  inversion Hrun; subst r1 t6; clear Hrun.
  unfold ResourceProvisioner._is_git, ResourceProvisioner.resource_source in Hgit.
  destruct (_resource_source r) as [source|] eqn:Hsrc; [|discriminate].
  apply bind_Return_inv in Hgit as (s & t7 & Hs & Hgit).
  inversion Hs; subst s t7; clear Hs.
  apply bind_Return_inv in Hgit as (u3 & t8 & _ & Hgit).
  inversion Hgit; subst is_git t8; clear Hgit.
  split.
  - intros url status Hg Hu Hcall. inversion Hg; subst source.
    inversion Hu; subst url0.
    rewrite String.eqb_refl in Hstep.
    apply bind_Return_inv in Hstep as (u4 & t9 & _ & Hstep).
    rewrite Hcall in Hstep. inversion Hstep; subst r'. repeat split.
  - intros Hng.
    destruct (String.eqb_spec source (GIT w)) as [->|Hne]; [congruence|].
    apply bind_Return_inv in Hstep as (u4 & t9 & _ & Hstep).
    destruct (download_file w url0 _); inversion Hstep; subst r'. now split.
Qed.

Lemma provisioning_redirects_git_resource_dir_witness :
  (exists r' t',
      get_files (world_with (fun _ => Exited 0) None None) example_tn_git []
      = (Return r', t')
      /\ _resource_dir r' = "working/en_tn/en_tn")
  /\ (exists r' t',
         get_files (world_with (fun _ => Exited 0) None None) example_tn_zip []
         = (Return r', t')
         /\ _resource_dir r' = "working/en_tn").
Proof.
  split; eexists _, _; (split; [vm_compute; reflexivity|]).
  - destruct (provisioning_redirects_git_resource_dir
                (world_with (fun _ => Exited 0) None None) example_tn_git
                _ [] _ eq_refl) as [Hgit _].
    destruct (Hgit "https://host/org/en_tn" 0%Z eq_refl eq_refl eq_refl)
      as (_ & Hdir & _).
    etransitivity; [exact Hdir | reflexivity].
  - destruct (provisioning_redirects_git_resource_dir
                (world_with (fun _ => Exited 0) None None) example_tn_zip
                _ [] _ eq_refl) as [_ Hzip].
    destruct Hzip as [_ Hdir]; [discriminate|].
    etransitivity; [exact Hdir | reflexivity].
Defined.

(** ** Sorting *)

Lemma le_leb (x y : string) : String.le x y <-> String.leb x y = true.
Proof. unfold String.le. apply Is_true_true. Qed.

Lemma insert_sorted_perm x l : Permutation (Py.insert_sorted x l) (x :: l).
Proof.
  induction l as [|y l IH]; simpl; [reflexivity|].
  destruct (String.leb x y); [reflexivity|].
  rewrite IH. apply perm_swap.
Qed.

Lemma sorted_perm l : Permutation (Py.sorted l) l.
Proof.
  induction l as [|x l IH]; simpl; [reflexivity|].
  rewrite insert_sorted_perm. now constructor.
Qed.

Lemma insert_sorted_Forall (P : string -> Prop) x l :
  P x -> Forall P l -> Forall P (Py.insert_sorted x l).
Proof.
  intros Hx Hl. induction Hl as [|y l Hy Hl IH]; simpl.
  - now constructor.
  - destruct (String.leb x y); repeat constructor; assumption.
Qed.

Lemma insert_sorted_sorted x l :
  StronglySorted String.le l -> StronglySorted String.le (Py.insert_sorted x l).
Proof.
  induction 1 as [|y l Hs IH Hy]; simpl.
  - repeat constructor.
  - destruct (String.leb x y) eqn:E.
    + constructor; [now constructor|].
      apply le_leb in E. constructor; [exact E|].
      eapply Forall_impl; [exact Hy|]. intros z Hz. simpl in Hz.
      now transitivity y.
    + constructor; [exact IH|].
      apply insert_sorted_Forall; [|exact Hy].
      destruct (String.leb_total x y) as [H|H]; [congruence | now apply le_leb].
Qed.

Lemma sorted_sorted l : StronglySorted String.le (Py.sorted l).
Proof.
  induction l as [|x l IH]; simpl; [constructor | now apply insert_sorted_sorted].
Qed.

Lemma filter_sorted (f : string -> bool) l :
  StronglySorted String.le l -> StronglySorted String.le (List.filter f l).
Proof.
  induction 1 as [|y l Hs IH Hy]; simpl; [constructor|].
  destruct (f y); [|exact IH].
  constructor; [exact IH|].
  apply Forall_forall. intros z Hz. apply list_elem_of_In, filter_In in Hz as [Hz _].
  rewrite Forall_forall in Hy. now apply Hy, list_elem_of_In.
Qed.

Lemma sorted_lookup_le (l : list string) i j x y :
  StronglySorted String.le l ->
  l !! i = Some x -> l !! j = Some y -> i < j -> String.le x y.
Proof.
  intros Hs. revert i j. induction Hs as [|z l Hs IH Hz]; intros i j Hi Hj Hlt.
  - discriminate.
  - destruct j as [|j]; [lia|]. simpl in Hj.
    destruct i as [|i]; simpl in Hi.
    + inversion Hi; subst z. rewrite Forall_forall in Hz. apply Hz.
      eapply list_elem_of_lookup_2; eauto.
    + apply (IH i j); auto. lia.
Qed.

(** ** Decimal numerals of equal width *)

Lemma digits_value_from_acc acc s :
  Py.digits_value_from acc s = acc * 10 ^ String.length s + Py.digits_value_from 0 s.
Proof.
  revert acc. induction s as [|c s IH]; intros acc; simpl.
  - lia.
  - rewrite IH, (IH (nat_of_ascii c - 48)). 
    replace (acc + (acc + (acc + (acc + (acc + (acc + (acc + (acc + (acc + (acc + 0))))))))))
      with (10 * acc) by lia.
    set (p := 10 ^ String.length s). nia.
Qed.

Lemma digits_value_bound s :
  Py.all_digits s = true -> Py.digits_value s < 10 ^ String.length s.
Proof.
  unfold Py.digits_value. induction s as [|c s IH]; simpl; intros H; [lia|].
  apply andb_true_iff in H as [Hc Hs]. specialize (IH Hs).
  rewrite digits_value_from_acc.
  unfold Py.is_digit in Hc. apply andb_true_iff in Hc as [H1 H2].
  apply Nat.leb_le in H1, H2.
  set (p := 10 ^ String.length s) in *. nia.
Qed.

Lemma compare_digits x y :
  Py.all_digits x = true -> Py.all_digits y = true ->
  String.length x = String.length y ->
  String.compare x y = Nat.compare (Py.digits_value x) (Py.digits_value y).
Proof.
  revert y. induction x as [|a x IH]; intros [|b y] Hx Hy Hlen; try discriminate.
  - reflexivity.
  - simpl in Hx, Hy, Hlen. injection Hlen as Hlen.
    apply andb_true_iff in Hx as [Ha Hx]. apply andb_true_iff in Hy as [Hb Hy].
    pose proof (digits_value_bound x Hx) as Bx.
    pose proof (digits_value_bound y Hy) as By.
    specialize (IH y Hx Hy Hlen).
    unfold Py.digits_value in *. simpl.
    rewrite (digits_value_from_acc (nat_of_ascii a - 48)),
            (digits_value_from_acc (nat_of_ascii b - 48)).
    rewrite <- Hlen in *. set (p := 10 ^ String.length x) in *.
    unfold Py.is_digit in Ha, Hb.
    apply andb_true_iff in Ha as [Ha1 Ha2]. apply andb_true_iff in Hb as [Hb1 Hb2].
    apply Nat.leb_le in Ha1, Ha2, Hb1, Hb2.
    unfold Ascii.compare. unfold nat_of_ascii in *.
    destruct (N.compare_spec (N_of_ascii a) (N_of_ascii b)) as [E|E|E].
    + rewrite E, IH.
      destruct (Nat.compare_spec (Py.digits_value_from 0 x) (Py.digits_value_from 0 y));
        symmetry; [apply Nat.compare_eq_iff | apply Nat.compare_lt_iff
                  | apply Nat.compare_gt_iff]; lia.
    + symmetry. apply Nat.compare_lt_iff. 
      assert (N.to_nat (N_of_ascii a) < N.to_nat (N_of_ascii b)) by lia. nia.
    + symmetry. apply Nat.compare_gt_iff.
      assert (N.to_nat (N_of_ascii b) < N.to_nat (N_of_ascii a)) by lia. nia.
Qed.

Lemma le_digits x y :
  Py.all_digits x = true -> Py.all_digits y = true ->
  String.length x = String.length y ->
  (String.le x y <-> Py.digits_value x <= Py.digits_value y).
Proof.
  intros Hx Hy Hlen. rewrite le_leb. unfold String.leb.
  rewrite (compare_digits x y Hx Hy Hlen), <- Nat.compare_le_iff.
  destruct (Nat.compare (Py.digits_value x) (Py.digits_value y));
    split; congruence.
Qed.

Lemma chapter_names_filter w book_dir :
  chapter_names w book_dir
  = List.filter (eligible w book_dir) (Py.sorted (listdir w book_dir)).
Proof.
  unfold chapter_names, TNResource.chapter_entries.
  induction (Py.sorted (listdir w book_dir)) as [|name l IH]; simpl; [reflexivity|].
  unfold eligible at 1.
  destruct (isdir w (os_path.join book_dir name)
            && Py.re_match_digits (Py.lstrip "0" name)); simpl; now rewrite IH.
Qed.

Lemma compare_common_prefix p x y :
  String.compare (p ++ x) (p ++ y) = String.compare x y.
Proof.
  induction p as [|c p IH]; [reflexivity|].
  rewrite !append_cons. simpl. unfold Ascii.compare.
  now rewrite N.compare_refl.
Qed.

Lemma le_common_suffix x y s :
  String.length x = String.length y ->
  String.le (x ++ s) (y ++ s) -> String.le x y.
Proof.
  rewrite !le_leb. unfold String.leb.
  revert y. induction x as [|a x IH]; intros [|b y] Hlen; try discriminate.
  - reflexivity.
  - injection Hlen as Hlen. rewrite !append_cons. simpl.
    destruct (Ascii.compare a b); auto.
Qed.

Lemma sorted_numeric_on_equal_width l :
  StronglySorted String.le l -> numeric_on_equal_width l.
Proof.
  intros Hs prefix suffix x y i j Hi Hj Hlt Hx Hy Hlen.
  pose proof (sorted_lookup_le l i j _ _ Hs Hi Hj Hlt) as Hle.
  apply le_leb in Hle. unfold String.leb in Hle.
  rewrite compare_common_prefix in Hle.
  apply (le_digits x y Hx Hy Hlen), (le_common_suffix x y suffix Hlen).
  now apply le_leb.
Qed.

(** C7, as the code has it: the chapter directories are processed in
    the order [sorted] gives their names as listed, which is the
    character-by-character order of strings, and the leading zeros
    are stripped only inside the loop; the verse files of a chapter
    are processed in the same order of their paths.  Where the
    numerals at some place of the names have equal width (zero-padded
    names), that order is the numeric one.  This holds for the
    chapters and chunk files of [TNResource._get_tn_markdown] and for
    the chapter directories and verse files of
    [TResource._initialize_verses_html]. *)
Theorem directory_parsers_process_in_name_order
    (w : World) (r : Resource) (book_dir chapter_dir : string) :
  (chapter_names w book_dir
   = List.filter (eligible w book_dir) (Py.sorted (listdir w book_dir))
   /\ Permutation (Py.sorted (listdir w book_dir)) (listdir w book_dir)
   /\ StronglySorted String.le (chapter_names w book_dir)
   /\ numeric_on_equal_width (chapter_names w book_dir))
  /\ (Permutation (TNResource.chunk_files w chapter_dir)
                  (glob w (os_path.join chapter_dir "[0-9]*.md"))
      /\ StronglySorted String.le (TNResource.chunk_files w chapter_dir)
      /\ numeric_on_equal_width (TNResource.chunk_files w chapter_dir))
  /\ (StronglySorted String.le (TResource.chapter_dirs w r)
      /\ numeric_on_equal_width (TResource.chapter_dirs w r))
  /\ (Permutation (TResource.verse_paths w chapter_dir)
                  (glob w (chapter_dir ++ "/*[0-9]*.md"))
      /\ StronglySorted String.le (TResource.verse_paths w chapter_dir)
      /\ numeric_on_equal_width (TResource.verse_paths w chapter_dir)).
Proof.
  assert (Hnames : StronglySorted String.le (chapter_names w book_dir)).
  { rewrite chapter_names_filter. apply filter_sorted, sorted_sorted. }
  assert (Hdirs : StronglySorted String.le (TResource.chapter_dirs w r)).
  { unfold TResource.chapter_dirs.
    destruct (Py.truthy_list _); apply sorted_sorted. }
  repeat split;
    try apply sorted_perm; try apply sorted_sorted;
    try (apply sorted_numeric_on_equal_width; apply sorted_sorted);
    try assumption; try now apply sorted_numeric_on_equal_width.
  apply chapter_names_filter.
Qed.

Lemma directory_parsers_process_in_name_order_witness :
  chapter_names (world_with_tree ["10"; "02"; "front"; "01"]) "working/en_tn/gen"
  = ["01"; "02"; "10"]
  /\ Py.digits_value "02" <= Py.digits_value "10".
Proof.
  destruct (directory_parsers_process_in_name_order
              (world_with_tree ["10"; "02"; "front"; "01"])
              (fresh TN "en" "tn" "gen") "working/en_tn/gen"
              "working/en_tn/gen/10") as ((Hf & _ & _ & Hn) & _).
  split.
  - rewrite Hf. reflexivity.
  - apply (Hn "" "" "02" "10" 1 2); reflexivity || lia.
Defined.

(** With the directories [2] and [10], chapter 10 is processed before
    chapter 2, by [TNResource._get_tn_markdown] and by
    [TResource._initialize_verses_html] alike. *)
Lemma numeric_processing_order_counterexample :
  ~ numeric_processing_order.
Proof.
  intros H.
  specialize (H (world_with_tree ["2"; "10"]) "working/en_tn/gen" 1 0 "2" "10"
                eq_refl eq_refl).
  assert (Hlt : Py.digits_value "2" < Py.digits_value "10") by (vm_compute; lia).
  specialize (H Hlt). lia.
Qed.

Example unpadded_chapters_order :
  processed_chapters (world_with_tree ["2"; "10"]) "working/en_tn/gen" = ["10"; "2"]
  /\ TResource.chapter_dirs (world_with_tree []) (fresh TN "en" "tn" "gen")
     = ["working/en_tn/gen/10"; "working/en_tn/gen/2"]
  /\ (exists payload,
        TResource._initialize_verses_html (world_with_tree [])
          (fresh TN "en" "tn" "gen") [] = (Return payload, [])
        /\ List.map fst (chapters payload) = [10%Z; 2%Z]
        /\ List.map (fun c => List.map fst (verses_html (snd c))) (chapters payload)
           = [[11%Z; 2%Z]; []]).
Proof.
  split; [reflexivity | split; [reflexivity|]].
  eexists. split; [reflexivity|]. split; reflexivity.
Qed.

(** ** [DocumentGenerator._fetch_resources] *)


Lemma same_settings_trans dg1 dg2 dg3 :
  same_settings dg1 dg2 -> same_settings dg2 dg3 -> same_settings dg1 dg3.
Proof.
  intros (a1 & a2 & a3 & a4 & a5) (b1 & b2 & b3 & b4 & b5).
  repeat split; congruence.
Qed.

Lemma find_location_inv w r t r1 t1 :
  find_location w r t = (Return r1, t1) ->
  (r1 = set_location r (usfm_lookup w r) \/ r1 = set_location r (t_lookup w r))
  /\ t1 = (t ++ [EvLookup (_resource_filename r)])%list
  /\ (cls r = USFM -> dto_url (usfm_lookup w r) <> None).
Proof.
  unfold find_location. intros H.
  apply bind_Return_inv in H as (u & t2 & He & H).
  inversion He; subst u t2; clear He.
  destruct (cls r) eqn:Hcls;
    try (inversion H; subst; repeat split; auto; discriminate).
  apply bind_Return_inv in H as (u & t2 & Hc & H).
  apply check_Return_inv in Hc as [Hc ->].
  inversion H; subst. repeat split; auto.
  intros _ Hnone. unfold is_found in Hc. simpl in Hc. now rewrite Hnone in Hc.
Qed.

(** Provisioning changes at most the resource directory. *)
Lemma get_files_frame w r t r' t' :
  get_files w r t = (Return r', t') -> exists d, r' = set_resource_dir r d.
Proof.
  intros Hrun.
  unfold get_files, ResourceProvisioner.__call__ in Hrun.
  apply bind_Return_inv in Hrun as (u & t1 & _ & Hrun).
  unfold ResourceProvisioner._acquire_resource in Hrun.
  apply bind_Return_inv in Hrun as (u' & t2 & Hc & Hrun).
  destruct (_resource_url r) as [url0|] eqn:Hurl; [|discriminate].
  apply bind_Return_inv in Hrun as (is_git & t3 & Hgit & Hrun).
  apply bind_Return_inv in Hrun as (r1 & t4 & Hstep & Hrun).
  apply bind_Return_inv in Hrun as (is_zip & t5 & Hzip & Hrun).
  apply bind_Return_inv in Hrun as (u'' & t6 & Hunzip & Hrun).
  inversion Hrun; subst r1 t6; clear Hrun.
  destruct is_git.
  - apply bind_Return_inv in Hstep as (u4 & t9 & _ & Hstep).
    destruct (subprocess_call w _) as [st|[]]; inversion Hstep; subst r'.
    + eauto.
    + exists (_resource_dir r). now destruct r.
  - apply bind_Return_inv in Hstep as (u4 & t9 & _ & Hstep).
    destruct (download_file w url0 _); inversion Hstep; subst r'.
    exists (_resource_dir r). now destruct r.
Qed.

Lemma fetch_step_inv w dg i t dg1 t1 :
  DocumentGenerator.fetch_step w dg i t = (Return dg1, t1) ->
  exists r0 r1,
    _resources dg !! i = Some r0
    /\ (cls r0 = USFM -> dto_url (usfm_lookup w r0) <> None)
    /\ same_request r0 r1
    /\ _resources dg1 = <[i := r1]> (_resources dg)
    /\ same_settings dg dg1
    /\ ((is_found r1 = true
         /\ found_resources dg1 = (found_resources dg ++ [i])%list
         /\ unfound_resources dg1 = unfound_resources dg)
        \/ (is_found r1 = false
            /\ found_resources dg1 = found_resources dg
            /\ unfound_resources dg1 = (unfound_resources dg ++ [i])%list)).
Proof.
  unfold DocumentGenerator.fetch_step. intros H.
  destruct (_resources dg !! i) as [r0|] eqn:Hr0; [|discriminate].
  apply bind_Return_inv in H as (r1 & t2 & Hfind & H).
  apply find_location_inv in Hfind as (Hr1 & _ & Husfm).
  assert (Hsame : same_request r0 r1).
  { destruct Hr1 as [-> | ->]; repeat split. }
  destruct (is_found r1) eqn:Hfound.
  - apply bind_Return_inv in H as (r2 & t3 & Hget & H).
    apply get_files_frame in Hget as [d ->].
    inversion H; subst dg1 t1; clear H. simpl.
    exists r0, (set_resource_dir r1 d). rewrite list_insert_insert_eq.
    split; [reflexivity|]. split; [exact Husfm|].
    split; [exact Hsame|]. split; [reflexivity|].
    split; [repeat split|]. left. auto.
  - inversion H; subst dg1 t1; clear H. simpl.
    exists r0, r1.
    split; [reflexivity|]. split; [exact Husfm|].
    split; [exact Hsame|]. split; [reflexivity|].
    split; [repeat split|]. right. auto.
Qed.

Lemma fetch_loop_inv w l :
  NoDup l ->
  forall dg t dg' t',
    for_each (DocumentGenerator.fetch_step w) l dg t = (Return dg', t') ->
    length (_resources dg') = length (_resources dg)
    /\ (forall j, ~ In j l -> _resources dg' !! j = _resources dg !! j)
    /\ (forall j r0, _resources dg !! j = Some r0 ->
          exists r', _resources dg' !! j = Some r' /\ same_request r0 r')
    /\ same_settings dg dg'
    /\ found_resources dg'
       = (found_resources dg ++ List.filter (is_found_at (_resources dg')) l)%list
    /\ unfound_resources dg'
       = (unfound_resources dg
          ++ List.filter (fun i => negb (is_found_at (_resources dg') i)) l)%list.
Proof.
  induction l as [|i l IH]; intros Hnd dg t dg' t' H.
  - inversion H; subst dg' t'. simpl. rewrite !app_nil_r.
    repeat split; eauto. intros j r0 Hj. exists r0. repeat split; auto.
  - apply NoDup_cons in Hnd as [Hi Hnd]. simpl in H.
    apply bind_Return_inv in H as (dg1 & t1 & Hstep & H).
    apply fetch_step_inv in Hstep
      as (r0 & r1 & Hr0 & _ & Hsame & Hheap & Hset & Hcase).
    destruct (IH Hnd dg1 t1 dg' t' H) as (Hlen & Hother & Hreq & Hset' & Hf & Hu).
    assert (Hlt : i < length (_resources dg)) by (eapply lookup_lt_Some; eauto).
    assert (Hat : _resources dg' !! i = Some r1).
    { rewrite Hother, Hheap by (rewrite <- list_elem_of_In; exact Hi).
      now apply list_lookup_insert_eq. }
    assert (Hfi : is_found_at (_resources dg') i = is_found r1)
      by (unfold is_found_at; now rewrite Hat).
    split; [|split; [|split; [|split; [|split]]]].
    + rewrite Hlen, Hheap. apply length_insert.
    + intros j Hj. simpl in Hj. rewrite Hother by tauto.
      rewrite Hheap. apply list_lookup_insert_ne. tauto.
    + intros j q0 Hj. destruct (decide (j = i)) as [->|Hne].
      * exists r1. split; [exact Hat|]. congruence.
      * apply Hreq. rewrite Hheap. now rewrite list_lookup_insert_ne.
    + eapply same_settings_trans; eauto.
    + simpl. rewrite Hf, Hfi.
      destruct Hcase as [(-> & -> & _) | (-> & -> & _)];
        [now rewrite <- app_assoc | reflexivity].
    + simpl. rewrite Hu, Hfi.
      destruct Hcase as [(-> & _ & ->) | (-> & _ & ->)];
        [reflexivity | now rewrite <- app_assoc].
Qed.

Lemma In_filter_seq (f : nat -> bool) n i :
  In i (List.filter f (seq 0 n)) <-> i < n /\ f i = true.
Proof. rewrite filter_In, in_seq. intuition lia. Qed.

(** C9: when the fetch phase has completed, started with both lists
    empty, the resources are the ones it started with, each at its
    position and with its class, language, type and code; the found
    list holds, in request order, the references to the resources
    whose URL is set, the unfound list, in request order, the
    references to the others; so every resource is in exactly one of
    the two lists, once, and it is in the found list exactly when its
    URL is not [None]. *)
Theorem fetch_partitions_resources
    (w : World) (dg dg' : Generator) (t t' : list Event)
    (Hfound : found_resources dg = [])
    (Hunfound : unfound_resources dg = [])
    (Hrun : DocumentGenerator._fetch_resources w dg t = (Return dg', t')) :
  let n := length (_resources dg) in
  length (_resources dg') = n
  /\ (forall i r0, _resources dg !! i = Some r0 ->
        exists r', _resources dg' !! i = Some r' /\ same_request r0 r')
  /\ found_resources dg'
     = List.filter (is_found_at (_resources dg')) (seq 0 n)
  /\ unfound_resources dg'
     = List.filter (fun i => negb (is_found_at (_resources dg') i)) (seq 0 n)
  /\ (forall i, i < n ->
        (In i (found_resources dg') /\ ~ In i (unfound_resources dg'))
        \/ (~ In i (found_resources dg') /\ In i (unfound_resources dg')))
  /\ (forall i r, _resources dg' !! i = Some r ->
        (In i (found_resources dg') <-> _resource_url r <> None)
        /\ (In i (unfound_resources dg') <-> _resource_url r = None))
  /\ List.NoDup (found_resources dg') /\ List.NoDup (unfound_resources dg')
  /\ found_resources dg' `sublist_of` seq 0 n
  /\ unfound_resources dg' `sublist_of` seq 0 n.
Proof.
  intros n. unfold DocumentGenerator._fetch_resources in Hrun.
  destruct (fetch_loop_inv w (seq 0 n) (NoDup_seq _ _) dg t dg' t' Hrun)
    as (Hlen & _ & Hreq & _ & Hf & Hu).
  rewrite Hfound in Hf. rewrite Hunfound in Hu. simpl in Hf, Hu.
  split; [exact Hlen|]. split; [exact Hreq|].
  split; [exact Hf|]. split; [exact Hu|].
  split; [|split; [|split; [|split; [|split]]]].
  - intros i Hi. rewrite Hf, Hu, !In_filter_seq.
    destruct (is_found_at (_resources dg') i); [left | right];
      split; try tauto; intros [_ H]; discriminate.
  - intros i r Hr.
    assert (Hi : i < n) by (apply lookup_lt_Some in Hr; unfold n; lia).
    rewrite Hf, Hu, !In_filter_seq. unfold is_found_at. rewrite Hr.
    unfold is_found. destruct (_resource_url r); simpl; split; split;
      try tauto; try congruence; intros [_ H]; discriminate.
  - rewrite Hf. apply List.NoDup_filter, seq_NoDup.
  - rewrite Hu. apply List.NoDup_filter, seq_NoDup.
  - rewrite Hf. apply filter_sublist.
  - rewrite Hu. apply filter_sublist.
Qed.

Lemma fetch_loop_usfm_found w l :
  NoDup l ->
  forall dg t dg' t',
    for_each (DocumentGenerator.fetch_step w) l dg t = (Return dg', t') ->
    forall j r0,
      In j l -> _resources dg !! j = Some r0 -> cls r0 = USFM ->
      dto_url (usfm_lookup w r0) <> None.
Proof.
  induction l as [|i l IH]; intros Hnd dg t dg' t' H j q0 Hj Hq Hcls;
    [destruct Hj|].
  apply NoDup_cons in Hnd as [Hi Hnd]. simpl in H.
  apply bind_Return_inv in H as (dg1 & t1 & Hstep & H).
  apply fetch_step_inv in Hstep
    as (r0 & r1 & Hr0 & Husfm & _ & Hheap & _ & _).
  destruct Hj as [<-|Hj].
  - rewrite Hq in Hr0. inversion Hr0; subst r0. auto.
  - apply (IH Hnd dg1 t1 dg' t' H j q0 Hj); [|exact Hcls].
    rewrite Hheap, list_lookup_insert_ne; [exact Hq|].
    intros ->. apply Hi, list_elem_of_In, Hj.
Qed.

(** C1, where the code leaves the claim: a USFM resource for which the
    lookup gives no URL fails the postcondition of
    [USFMResource.find_location]; the fetch phase, and with it the run
    of the pipeline, ends in an exception instead of recording the
    resource as unfound. *)
Theorem unfound_usfm_resource_aborts_run
    (w : World) (dg : Generator) (t : list Event) (i : nat) (r : Resource)
    (Hr : _resources dg !! i = Some r)
    (Hcls : cls r = USFM)
    (Hnone : dto_url (usfm_lookup w r) = None) :
  (exists e t', DocumentGenerator._fetch_resources w dg t = (Raise e, t'))
  /\ (exists e t', DocumentGenerator.run w dg t = (Raise e, t')).
Proof.
  assert (Hfetch : exists e t',
             DocumentGenerator._fetch_resources w dg t = (Raise e, t')).
  { destruct (DocumentGenerator._fetch_resources w dg t) as [[dg'|e] t'] eqn:E;
      [|eauto].
    exfalso. unfold DocumentGenerator._fetch_resources in E.
    apply (fetch_loop_usfm_found w _ (NoDup_seq _ _) dg t dg' t' E i r);
      auto.
    apply in_seq. apply lookup_lt_Some in Hr. lia. }
  split; [exact Hfetch|].
  destruct Hfetch as (e & t' & E). exists e, t'.
  unfold DocumentGenerator.run. now apply bind_Raise.
Qed.

(** ** [DocumentGenerator._generate_pdf] and [run] *)



(** The content phase: its loop body raises at the first statement. *)
Lemma content_step_outcome w dg i t :
  DocumentGenerator.content_step w dg i t
  = (Raise (match _resources dg !! i with
            | Some _ => AttributeError "initialize_assets"
            | None => IndexError
            end), t).
Proof.
  unfold DocumentGenerator.content_step.
  destruct (_resources dg !! i); reflexivity.
Qed.

Lemma initialize_resource_content_outcome w dg t :
  DocumentGenerator._initialize_resource_content w dg t
  = match found_resources dg with
    | [] => (Return dg, t)
    | i :: _ =>
        (Raise (match _resources dg !! i with
                | Some _ => AttributeError "initialize_assets"
                | None => IndexError
                end), t)
    end.
Proof.
  unfold DocumentGenerator._initialize_resource_content.
  destruct (found_resources dg) as [|i l]; [reflexivity|].
  simpl for_each. unfold bind. now rewrite content_step_outcome.
Qed.

Lemma initialize_resource_content_inv w dg t o t' :
  DocumentGenerator._initialize_resource_content w dg t = (o, t') ->
  t' = t /\ forall dg', o = Return dg' -> dg' = dg /\ found_resources dg = [].
Proof.
  rewrite initialize_resource_content_outcome.
  destruct (found_resources dg); intros H; inversion H; subst;
    (split; [reflexivity|]); intros dg' Hdg'; inversion Hdg'; auto.
Qed.






Lemma fetch_partitions_resources_witness :
  exists dg' t',
    DocumentGenerator._fetch_resources (world_of_lookups false) example_tn_tq []
    = (Return dg', t')
    /\ found_resources dg' = [0]
    /\ unfound_resources dg' = [1].
Proof.
  eexists _, _. split; [reflexivity|].
  destruct (fetch_partitions_resources (world_of_lookups false) example_tn_tq
              _ [] _ eq_refl eq_refl eq_refl)
    as (_ & _ & Hf & Hu & _).
  split; [rewrite Hf | rewrite Hu]; reflexivity.
Defined.

Lemma unfound_usfm_resource_aborts_run_witness :
  exists e t',
    DocumentGenerator.run (world_of_lookups false) example_tn_ulb [] = (Raise e, t').
Proof.
  apply (unfound_usfm_resource_aborts_run (world_of_lookups false) example_tn_ulb
           [] 1 (fresh USFM "en" "ulb" "gen")); reflexivity.
Defined.

(** The run on the failing input: the notes are looked up and cloned,
    the lookup for the scripture gives no URL, and the run ends there. *)
Example unfound_usfm_resource_run :
  DocumentGenerator.run (world_of_lookups false) example_tn_ulb []
  = (Raise ViolationError,
     [EvLookup "en_tn_gen"; EvMkdir "working/en_tn";
      EvCall "git clone --depth=1 'https://host/org/en_tn' 'working/en_tn/en_tn'";
      EvLookup "en_ulb_gen"]).
Proof. reflexivity. Qed.

(** The sibling path: an unfound translation-questions resource is
    recorded as unfound and is neither cloned nor downloaded; with no
    resource found the run completes, on a document without
    sections. *)
Example unfound_tq_resource_run :
  exists dg',
    DocumentGenerator.run (world_of_lookups false) example_tq []
    = (Return dg',
       [EvLookup "en_tq_gen";
        EvWriteFile "output/en-tq-gen.html" "<html></html>";
        EvCall "pandoc en-tq-gen"])
    /\ found_resources dg' = []
    /\ unfound_resources dg' = [0]
    /\ content dg' = "<html></html>".
Proof. eexists. split; [reflexivity|]. repeat split. Qed.

(** A found resource beside it: the notes are looked up and cloned,
    the questions are looked up and recorded as unfound, and the
    content phase raises on the notes. *)
Example found_resource_run :
  DocumentGenerator.run (world_of_lookups false) example_tn_tq []
  = (Raise (AttributeError "initialize_assets"),
     [EvLookup "en_tn_gen"; EvMkdir "working/en_tn";
      EvCall "git clone --depth=1 'https://host/org/en_tn' 'working/en_tn/en_tn'";
      EvLookup "en_tq_gen"]).
Proof. reflexivity. Qed.

(** The constructor on a request of two resources. *)
Example constructor_on_a_request :
  DocumentGenerator.__init__
    {| assembly_strategy_kind := BOOK;
       resource_requests := [request "en" "tn" "gen"; request "en" "tq" "gen"] |}
    "working" "output" []
  = (Raise TypeError, []).
Proof. reflexivity. Qed.



Example existing_pdf_run_trace :
  snd (DocumentGenerator.run (world_of_lookups true) example_tn_tq [])
  = [EvLookup "en_tn_gen"; EvMkdir "working/en_tn";
     EvCall "git clone --depth=1 'https://host/org/en_tn' 'working/en_tn/en_tn'";
     EvLookup "en_tq_gen"].
Proof. reflexivity. Qed.

(** With the PDF in place and no resource found, the run is the
    lookup and returns. *)
Example existing_pdf_nothing_found_run :
  exists dg',
    DocumentGenerator.run (world_of_lookups true) example_tq []
    = (Return dg', [EvLookup "en_tq_gen"])
    /\ content dg' = "".
Proof. eexists. split; reflexivity. Qed.

(** ** [index_tw_refs_by_verse] and [get_tw_refs] *)

Lemma get_tw_refs_nonempty_witness :
  get_tw_refs ({[ "Genesis" := {[ "1" := {[ "1" := ["god"; "heaven"] ]} ]} ]}
               : gmap string (gmap string (gmap string (list string))))
              "Genesis" "1" "2"
  = Return [].
Proof.
  rewrite get_tw_refs_nonempty; [reflexivity|].
  intros H. apply (f_equal (fun d => d !! "Genesis")) in H.
  rewrite lookup_empty in H. discriminate H.
Defined.

Lemma row_complete_getitems (tw_ref : TwRef) :
  row_complete tw_ref = true ->
  exists book chapter verse,
    tw_ref !! "Book" = Some book /\ tw_ref !! "Chapter" = Some chapter
    /\ tw_ref !! "Verse" = Some verse.
Proof.
  unfold row_complete. rewrite !andb_true_iff, !contains_lookup.
  intros [[Hb Hc] Hv].
  destruct (tw_ref !! "Book") as [b|]; [|discriminate].
  destruct (tw_ref !! "Chapter") as [c|]; [|discriminate].
  destruct (tw_ref !! "Verse") as [v|]; [|discriminate].
  exists b, c, v. auto.
Qed.

Lemma index_tw_ref_refs_at d tw_ref :
  row_complete tw_ref = true ->
  exists d',
    index_tw_ref d tw_ref = Return d'
    /\ d' <> ∅
    /\ forall book chapter verse,
         refs_at d' book chapter verse
         = (refs_at d book chapter verse
            ++ if row_of book chapter verse tw_ref then [tw_ref] else [])%list.
Proof.
  intros Hc. destruct (row_complete_getitems _ Hc) as (b & c & v & Hb & Hch & Hv).
  unfold index_tw_ref, getitem. rewrite Hb, Hch, Hv.
  eexists. split; [reflexivity|]. split.
  { intros H. apply (f_equal (fun m => m !! b)) in H.
    rewrite lookup_insert_eq, lookup_empty in H. discriminate H. }
  intros book chapter verse. unfold refs_at, row_of.
  rewrite Hb, Hch, Hv, !contains_lookup.
  destruct (d !! b) as [by_chapter|] eqn:Ed; simpl;
    [destruct (by_chapter !! c) as [by_verse|] eqn:Ec; simpl;
     [destruct (by_verse !! v) as [refs|] eqn:Ev; simpl|]|];
    (destruct (decide (b = book)) as [<-|Hnb];
     [rewrite lookup_insert_eq, ?Ed
     |rewrite lookup_insert_ne by exact Hnb;
      rewrite (bool_decide_eq_false_2 (Some b = Some book)) by congruence;
      simpl; rewrite ?app_nil_r; reflexivity]);
    rewrite (bool_decide_eq_true_2 (Some b = Some b)) by reflexivity;
    (destruct (decide (c = chapter)) as [<-|Hnc];
     [rewrite lookup_insert_eq, ?Ec
     |rewrite lookup_insert_ne, ?lookup_empty by exact Hnc;
      rewrite (bool_decide_eq_false_2 (Some c = Some chapter)) by congruence;
      simpl; rewrite ?app_nil_r; reflexivity]);
    rewrite (bool_decide_eq_true_2 (Some c = Some c)) by reflexivity;
    (destruct (decide (v = verse)) as [<-|Hnv];
     [rewrite lookup_insert_eq, ?Ev;
      now rewrite (bool_decide_eq_true_2 (Some v = Some v))
     |rewrite lookup_insert_ne, ?lookup_empty by exact Hnv;
      rewrite (bool_decide_eq_false_2 (Some v = Some verse)) by congruence;
      simpl; rewrite ?app_nil_r; reflexivity]).
Qed.

Lemma index_tw_refs_from_refs_at tw_refs :
  forallb row_complete tw_refs = true ->
  forall d,
  exists d',
    index_tw_refs_from d tw_refs = Return d'
    /\ (d <> ∅ \/ tw_refs <> [] -> d' <> ∅)
    /\ forall book chapter verse,
         refs_at d' book chapter verse
         = (refs_at d book chapter verse
            ++ List.filter (row_of book chapter verse) tw_refs)%list.
Proof.
  induction tw_refs as [|tw_ref rest IH]; intros Hall d.
  - exists d. split; [reflexivity|]. split; [intros [H|H]; congruence|].
    intros. simpl. now rewrite app_nil_r.
  - simpl in Hall. apply andb_true_iff in Hall as [Hrow Hall].
    destruct (index_tw_ref_refs_at d tw_ref Hrow) as (d1 & E1 & Hne1 & H1).
    destruct (IH Hall d1) as (d' & E' & Hne' & H').
    exists d'. simpl. rewrite E1. split; [exact E'|]. split; [auto|].
    intros book chapter verse. rewrite H', H1, <- app_assoc. f_equal.
    simpl. destruct (row_of book chapter verse tw_ref); reflexivity.
Qed.

Lemma get_tw_refs_refs_at
    (d : gmap string (gmap string (gmap string (list TwRef))))
    (book chapter verse : string) :
  d <> ∅ -> get_tw_refs d book chapter verse = Return (refs_at d book chapter verse).
Proof.
  intros Hne. unfold get_tw_refs, refs_at, getitem.
  rewrite (truthy_dict_nonempty d Hne), contains_lookup. simpl.
  destruct (d !! book) as [by_chapter|]; simpl; [|reflexivity].
  rewrite contains_lookup.
  destruct (by_chapter !! chapter) as [by_verse|]; simpl; [|reflexivity].
  rewrite contains_lookup.
  destruct (by_verse !! verse); reflexivity.
Qed.

(** Indexing the rows and asking for a verse gives back the rows of
    that verse, in file order: the index loses no row, adds none and
    keeps the order within a verse. *)
Theorem index_then_get_tw_refs
    (tw_refs : list TwRef) (book chapter verse : string)
    (Hrows : forallb row_complete tw_refs = true)
    (Hsome : tw_refs <> []) :
  exists d,
    index_tw_refs_by_verse tw_refs = Return d
    /\ get_tw_refs d book chapter verse
       = Return (List.filter (row_of book chapter verse) tw_refs).
Proof.
  destruct (index_tw_refs_from_refs_at tw_refs Hrows ∅) as (d & E & Hne & H).
  exists d. split; [exact E|].
  rewrite get_tw_refs_refs_at by auto.
  f_equal. exact (H book chapter verse).
Qed.

Lemma index_then_get_tw_refs_witness :
  exists d,
    index_tw_refs_by_verse example_rows = Return d
    /\ get_tw_refs d "Genesis" "1" "1"
       = Return [example_row "Genesis" "1" "1" "god";
                 example_row "Genesis" "1" "1" "heaven"].
Proof.
  destruct (index_then_get_tw_refs example_rows "Genesis" "1" "1")
    as (d & E & H); [reflexivity | discriminate |].
  exists d. split; [exact E|]. rewrite H. reflexivity.
Defined.

Lemma index_tw_ref_incomplete d tw_ref :
  row_complete tw_ref = false ->
  exists column, index_tw_ref d tw_ref = Raise (KeyError column)
                 /\ tw_ref !! column = None.
Proof.
  unfold row_complete, index_tw_ref, getitem. rewrite !contains_lookup.
  destruct (tw_ref !! "Book") eqn:Eb; [|eauto].
  destruct (tw_ref !! "Chapter") eqn:Ec; [|eauto].
  destruct (tw_ref !! "Verse") eqn:Ev; [discriminate | eauto].
Qed.

(** A row without a Book, Chapter or Verse column makes the indexing
    raise [KeyError] for a column that the row does not have. *)
Theorem index_tw_refs_incomplete_row_raises
    (tw_refs : list TwRef)
    (Hrow : forallb row_complete tw_refs = false) :
  exists column tw_ref,
    index_tw_refs_by_verse tw_refs = Raise (KeyError column)
    /\ In tw_ref tw_refs /\ tw_ref !! column = None.
Proof.
  unfold index_tw_refs_by_verse. generalize (∅ : gmap string (gmap string (gmap string (list TwRef)))).
  induction tw_refs as [|tw_ref rest IH]; intros d; [discriminate|].
  simpl in Hrow. destruct (row_complete tw_ref) eqn:Hc.
  - simpl in Hrow.
    destruct (index_tw_ref_refs_at d tw_ref Hc) as (d1 & E1 & _).
    destruct (IH Hrow d1) as (column & bad & E & Hin & Hnone).
    exists column, bad. simpl. rewrite E1. auto.
  - destruct (index_tw_ref_incomplete d tw_ref Hc) as (column & E & Hnone).
    exists column, tw_ref. simpl. rewrite E. auto.
Qed.

Lemma index_tw_refs_incomplete_row_raises_witness :
  exists column tw_ref,
    index_tw_refs_by_verse
      [example_row "Genesis" "1" "1" "god"; {[ "Book" := "Genesis" ]}]
    = Raise (KeyError column)
    /\ In tw_ref [example_row "Genesis" "1" "1" "god"; {[ "Book" := "Genesis" ]}]
    /\ tw_ref !! column = None.
Proof.
  apply index_tw_refs_incomplete_row_raises. reflexivity.
Defined.

(** ** More on [ResourceProvisioner] *)

Lemma has_char_rpartition_tail (sep : ascii) (s : string) :
  Py.has_char sep (Py.rpartition_tail sep s) = false.
Proof.
  induction s as [|a s IH]; [reflexivity|]. simpl.
  destruct (Py.has_char sep s) eqn:E; [exact IH|].
  destruct (Ascii.eqb a sep) eqn:Ea; [exact E|].
  simpl. now rewrite Ea, E.
Qed.

Lemma rpartition_tail_suffix (sep : ascii) (s : string) :
  exists pre, s = pre ++ Py.rpartition_tail sep s.
Proof.
  induction s as [|a s [pre IH]]; [now exists ""|]. simpl.
  destruct (Py.has_char sep s).
  - exists (String a pre). rewrite append_cons. now f_equal.
  - destruct (Ascii.eqb a sep).
    + now exists (String a "").
    + now exists "".
Qed.

Lemma startswith_sep_has_char (s : string) :
  Py.startswith "/" s = true -> Py.has_char "/" s = true.
Proof.
  unfold Py.startswith. rewrite prefix_spec. intros [post ->]. reflexivity.
Qed.

(** The target of the clone or download lies directly in the resource
    directory: it is the resource directory, a separator unless the
    directory already ends in one (or is empty), and the part of the
    URL after its last separator, which holds no separator. *)
Theorem resource_filepath_in_resource_dir (r : Resource) (resource_url : string) :
  let name := Py.rpartition_tail os_path.sep resource_url in
  Py.has_char os_path.sep name = false
  /\ (exists pre, resource_url = pre ++ name)
  /\ (ResourceProvisioner.resource_filepath r resource_url
      = _resource_dir r ++ name
      \/ ResourceProvisioner.resource_filepath r resource_url
         = _resource_dir r ++ "/" ++ name).
Proof.
  intros name. split; [apply has_char_rpartition_tail|].
  split; [apply rpartition_tail_suffix|].
  unfold ResourceProvisioner.resource_filepath, os_path.join. fold name.
  destruct (Py.startswith "/" name) eqn:E.
  - apply startswith_sep_has_char in E.
    pose proof (has_char_rpartition_tail os_path.sep resource_url) as H.
    fold name in H. unfold os_path.sep in H. congruence.
  - destruct (negb (Py.truthy (_resource_dir r))
              || Py.endswith_char os_path.sep (_resource_dir r)); auto.
Qed.

Ltac destruct_outcomes H :=
  repeat match type of H with
         | context [match ?x with _ => _ end] =>
             lazymatch x with
             | context [match _ with _ => _ end] => fail
             | _ => destruct x eqn:?
             end
         end.

Lemma prepare_events w r t o t' :
  ResourceProvisioner._prepare_resource_directory w r t = (o, t') ->
  t' = t \/ t' = (t ++ [EvMkdir (_resource_dir r)])%list.
Proof.
  unfold ResourceProvisioner._prepare_resource_directory.
  cbv beta iota zeta delta [bind check ret raise emit lift].
  destruct (path_exists w (_resource_dir r)); simpl.
  - destruct (Py.truthy (_resource_dir r)); intros H; inversion H; auto.
  - destruct (mkdir w (_resource_dir r)) as [[]|];
      destruct (Py.truthy (_resource_dir r)); intros H; inversion H; auto.
Qed.

Lemma acquire_events w r t o t' :
  ResourceProvisioner._acquire_resource w r t = (o, t') ->
  exists evs,
    t' = (t ++ evs)%list
    /\ (_resource_source r = Some (GIT w) ->
        forallb (fun ev => negb (is_download ev)) evs = true)
    /\ (_resource_source r <> Some (GIT w) ->
        forallb (fun ev => negb (is_call ev)) evs = true)
    /\ (_resource_source r <> Some (ZIP w) ->
        forallb (fun ev => negb (is_unzip ev)) evs = true)
    /\ forallb (fun ev => is_call ev || is_download ev || is_unzip ev) evs = true
    /\ length evs <= 2.
Proof.
  unfold ResourceProvisioner._acquire_resource.
  cbv beta iota zeta delta
    [bind check ret raise emit lift ResourceProvisioner._is_git
     ResourceProvisioner._is_zip ResourceProvisioner.resource_source
     Py.truthy_opt].
  destruct (_resource_url r) as [url|] eqn:Hurl.
  2:{ rewrite !andb_false_r. intros H. inversion H. exists [].
      rewrite app_nil_r. repeat split; auto. }
  destruct (Py.truthy (_resource_type r) && Py.truthy (_resource_dir r)
            && Py.truthy url).
  2:{ intros H. inversion H. exists []. rewrite app_nil_r. repeat split; auto. }
  destruct (_resource_source r) as [source|] eqn:Hsrc.
  2:{ intros H. inversion H. exists []. rewrite app_nil_r. repeat split; auto. }
  destruct (Py.truthy source).
  2:{ intros H. inversion H. exists []. rewrite app_nil_r. repeat split; auto. }
  assert (Hzip : ((source =? ZIP w) = true /\ source = ZIP w)
                 \/ ((source =? ZIP w) = false /\ source <> ZIP w))
    by (destruct (String.eqb_spec source (ZIP w)); auto).
  destruct (String.eqb_spec source (GIT w)) as [Hg|Hg].
  - destruct (subprocess_call w _) as [status|[]]; simpl; rewrite ?Hsrc; simpl;
      try (destruct (Py.truthy source));
      destruct Hzip as [[Ez Hz]|[Ez Hz]]; rewrite ?Ez;
      try (destruct (unzip w _ _));
      intros H; inversion H;
      (eexists; split;
       [rewrite <- ?app_assoc; reflexivity
       | repeat split; simpl; auto; try lia; intros; congruence]).
  - destruct (download_file w _ _); simpl; rewrite ?Hsrc; simpl;
      try (destruct (Py.truthy source));
      destruct Hzip as [[Ez Hz]|[Ez Hz]]; rewrite ?Ez;
      try (destruct (unzip w _ _));
      intros H; inversion H;
      (eexists; split;
       [rewrite <- ?app_assoc; reflexivity
       | repeat split; simpl; auto; try lia; intros; congruence]).
Qed.

Lemma prepare_shape w r t o t' :
  ResourceProvisioner._prepare_resource_directory w r t = (o, t') ->
  t' = t
  \/ (t' = (t ++ [EvMkdir (_resource_dir r)])%list
      /\ path_exists w (_resource_dir r) = false).
Proof.
  unfold ResourceProvisioner._prepare_resource_directory.
  cbv beta iota zeta delta [bind check ret raise emit lift].
  destruct (path_exists w (_resource_dir r)); simpl.
  - destruct (Py.truthy (_resource_dir r)); intros H; inversion H; auto.
  - destruct (mkdir w (_resource_dir r)) as [[]|];
      destruct (Py.truthy (_resource_dir r)); intros H; inversion H; auto.
Qed.

Lemma acquire_shape w r t o t' :
  ResourceProvisioner._acquire_resource w r t = (o, t') ->
  exists acq,
    t' = (t ++ acq)%list
    /\ ((acq = [] /\ forall r', o <> Return r')
        \/ exists source url,
             _resource_source r = Some source /\ _resource_url r = Some url
             /\ (acq = [acquisition w r source url]
                 \/ (source = ZIP w
                     /\ exists dir,
                          acq = [acquisition w r source url;
                                 EvUnzip (ResourceProvisioner.resource_filepath r url)
                                         dir]
                          /\ (source <> GIT w -> dir = _resource_dir r)))).
Proof.
  unfold ResourceProvisioner._acquire_resource, acquisition.
  cbv beta iota zeta delta
    [bind check ret raise emit lift ResourceProvisioner._is_git
     ResourceProvisioner._is_zip ResourceProvisioner.resource_source
     Py.truthy_opt].
  destruct (_resource_url r) as [url|] eqn:Hurl.
  2:{ rewrite !andb_false_r. intros H. inversion H. exists [].
      rewrite app_nil_r. split; [reflexivity|]. left. split; [reflexivity|].
      intros r' Hr'. discriminate. }
  destruct (Py.truthy (_resource_type r) && Py.truthy (_resource_dir r)
            && Py.truthy url).
  2:{ intros H. inversion H. exists []. rewrite app_nil_r.
      split; [reflexivity|]. left. split; [reflexivity|].
      intros r' Hr'. discriminate. }
  destruct (_resource_source r) as [source|] eqn:Hsrc.
  2:{ intros H. inversion H. exists []. rewrite app_nil_r.
      split; [reflexivity|]. left. split; [reflexivity|].
      intros r' Hr'. discriminate. }
  destruct (Py.truthy source).
  2:{ intros H. inversion H. exists []. rewrite app_nil_r.
      split; [reflexivity|]. left. split; [reflexivity|].
      intros r' Hr'. discriminate. }
  assert (Hzip : ((source =? ZIP w) = true /\ source = ZIP w)
                 \/ ((source =? ZIP w) = false /\ source <> ZIP w))
    by (destruct (String.eqb_spec source (ZIP w)); auto).
  destruct (String.eqb_spec source (GIT w)) as [Hg|Hg];
    [assert (Eg : (source =? GIT w) = true) by now apply String.eqb_eq
    |assert (Eg : (source =? GIT w) = false) by now apply String.eqb_neq].
  - destruct (subprocess_call w _) as [status|[]]; simpl; rewrite ?Hsrc; simpl;
      try (destruct (Py.truthy source));
      destruct Hzip as [[Ez Hz]|[Ez Hz]]; rewrite ?Ez;
      try (destruct (unzip w _ _));
      intros H; inversion H;
      (eexists; split; [rewrite <- ?app_assoc; reflexivity|]);
      right; exists source, url; (split; [reflexivity|]); (split; [reflexivity|]);
      rewrite ?Eg;
      first [ left; reflexivity
            | right; split; [exact Hz|]; eexists; split;
              [reflexivity | intros Hng; congruence] ].
  - destruct (download_file w _ _); simpl; rewrite ?Hsrc; simpl;
      try (destruct (Py.truthy source));
      destruct Hzip as [[Ez Hz]|[Ez Hz]]; rewrite ?Ez;
      try (destruct (unzip w _ _));
      intros H; inversion H;
      (eexists; split; [rewrite <- ?app_assoc; reflexivity|]);
      right; exists source, url; (split; [reflexivity|]); (split; [reflexivity|]);
      rewrite ?Eg;
      first [ left; reflexivity
            | right; split; [exact Hz|]; eexists; split;
              [reflexivity | intros _; reflexivity] ].
Qed.

(** What provisioning does outside, whether it returns or raises: at
    most one creation of the resource directory (only when the
    directory is not there), then at most one acquisition, the clone
    command for a git source and the download for any other, then at
    most one extraction, only after the acquisition and only for a
    zip source; and nothing else.  A provisioning that returns has
    made its acquisition. *)
Theorem provisioning_effects
    (w : World) (r : Resource) (t t' : list Event) (o : Outcome Resource)
    (Hrun : get_files w r t = (o, t')) :
  exists mk acq,
    t' = (t ++ mk ++ acq)%list
    /\ (mk = []
        \/ (mk = [EvMkdir (_resource_dir r)]
            /\ path_exists w (_resource_dir r) = false))
    /\ ((acq = [] /\ forall r', o <> Return r')
        \/ exists source url,
             _resource_source r = Some source /\ _resource_url r = Some url
             /\ (acq = [acquisition w r source url]
                 \/ (source = ZIP w
                     /\ exists dir,
                          acq = [acquisition w r source url;
                                 EvUnzip (ResourceProvisioner.resource_filepath r url)
                                         dir]
                          /\ (source <> GIT w -> dir = _resource_dir r)))).
Proof.
  unfold get_files, ResourceProvisioner.__call__, bind in Hrun.
  destruct (ResourceProvisioner._prepare_resource_directory w r t)
    as [[u|e] t1] eqn:Hprep; apply prepare_shape in Hprep.
  - apply acquire_shape in Hrun as (acq & -> & Hacq).
    destruct Hprep as [-> | [-> Hex]].
    + exists [], acq. auto.
    + exists [EvMkdir (_resource_dir r)], acq. rewrite <- app_assoc. auto.
  - inversion Hrun; subst o t'.
    assert (Hnone : ([] : list Event) = []
                    /\ forall r' : Resource, Raise e <> Return r')
      by (split; [reflexivity | discriminate]).
    destruct Hprep as [-> | [-> Hex]].
    + exists [], []. rewrite !app_nil_r. auto.
    + exists [EvMkdir (_resource_dir r)], []. rewrite app_nil_r. auto.
Qed.

Lemma provisioning_effects_witness :
  exists mk acq,
    snd (get_files (world_with (fun _ => Exited 0) None (Some UnzipError))
                   example_tn_zip [])
    = ([] ++ mk ++ acq)%list
    /\ mk = [EvMkdir "working/en_tn"]
    /\ acq = [EvDownload "https://host/en_tn.zip" "working/en_tn/en_tn.zip";
              EvUnzip "working/en_tn/en_tn.zip" "working/en_tn"].
Proof.
  destruct (provisioning_effects
              (world_with (fun _ => Exited 0) None (Some UnzipError))
              example_tn_zip [] _ _ eq_refl)
    as (mk & acq & E & Hmk & Hacq).
  exists mk, acq. split; [exact E|].
  destruct Hmk as [-> | [-> _]];
    destruct Hacq as [[-> _] | (source & url & Hs & Hu & [-> | (_ & dir & -> & Hd)])];
    try discriminate E;
    inversion Hs; inversion Hu; subst source url;
    try discriminate E.
  split; [reflexivity|]. rewrite Hd by discriminate. reflexivity.
Defined.

(** A lookup that answers with the empty string as URL gives a
    resource that counts as found, since [is_found] tests for [None],
    and that provisioning refuses: its precondition tests the
    truthiness of the URL, so it raises before any clone, download or
    extraction. *)
Theorem empty_url_is_found_but_not_provisioned
    (w : World) (r : Resource) (t : list Event)
    (Hurl : _resource_url r = Some "") :
  is_found r = true
  /\ exists e t',
       get_files w r t = (Raise e, t')
       /\ (t' = t \/ t' = (t ++ [EvMkdir (_resource_dir r)])%list)
       /\ (forall t1, ResourceProvisioner._prepare_resource_directory w r t
                      = (Return tt, t1) -> e = ViolationError).
Proof.
  split; [unfold is_found; now rewrite Hurl|].
  unfold get_files, ResourceProvisioner.__call__, bind.
  destruct (ResourceProvisioner._prepare_resource_directory w r t)
    as [[[]|e] t1] eqn:Hprep.
  - unfold ResourceProvisioner._acquire_resource, bind, check.
    rewrite Hurl. simpl. rewrite !andb_false_r. simpl.
    exists ViolationError, t1. split; [reflexivity|].
    split; [eapply prepare_events; eauto | auto].
  - exists e, t1. split; [reflexivity|].
    split; [eapply prepare_events; eauto | discriminate].
Qed.

Lemma empty_url_is_found_but_not_provisioned_witness :
  is_found example_empty_url = true
  /\ exists e t',
       get_files (world_with (fun _ => Exited 0) None None) example_empty_url []
       = (Raise e, t').
Proof.
  destruct (empty_url_is_found_but_not_provisioned
              (world_with (fun _ => Exited 0) None None) example_empty_url []
              eq_refl) as (Hf & e & t' & E & _).
  split; [exact Hf|]. now exists e, t'.
Defined.

(** ** More on construction *)

(** The factory returns exactly when the resource type is one of its
    table and the resource code is in both book tables; an unknown
    type is reported before an unknown code.  The resource it returns
    has the class of its type, its directory is the working directory
    joined with [lang_type], and it is not found, has no content
    files and no content yet. *)
Theorem resource_factory_outcome
    (w : World) (wd od : string) (rr : ResourceRequest)
    (kind : AssemblyStrategyEnum) :
  ((exists r, resource_factory w wd od rr kind = Return r)
   <-> is_Some (resources !! rr_resource_type rr)
       /\ is_Some (BOOK_NAMES w !! rr_resource_code rr)
       /\ is_Some (BOOK_NUMBERS w !! rr_resource_code rr))
  /\ (resources !! rr_resource_type rr = None ->
      resource_factory w wd od rr kind = Raise (KeyError (rr_resource_type rr)))
  /\ (forall r,
         resource_factory w wd od rr kind = Return r ->
         resources !! rr_resource_type rr = Some (cls r)
         /\ BOOK_NAMES w !! rr_resource_code rr = Some (_book_title r)
         /\ BOOK_NUMBERS w !! rr_resource_code rr = Some (_book_number r)
         /\ _lang_code r = rr_lang_code rr
         /\ _resource_type r = rr_resource_type rr
         /\ _resource_code r = rr_resource_code rr
         /\ _resource_dir r
            = os_path.join wd (rr_lang_code rr ++ "_" ++ rr_resource_type rr)
         /\ _assembly_strategy_kind r = kind
         /\ is_found r = false
         /\ _content_files r = [] /\ _content r = None).
Proof.
  unfold resource_factory, Resource_init, getitem.
  destruct (resources !! rr_resource_type rr) as [c|] eqn:Ec;
    destruct (BOOK_NAMES w !! rr_resource_code rr) as [title|] eqn:En;
    destruct (BOOK_NUMBERS w !! rr_resource_code rr) as [number|] eqn:Eb;
    (split; [split; [intros [r H]; try discriminate H; eauto
                    | intros (H1 & H2 & H3);
                      try (destruct H1; discriminate);
                      try (destruct H2; discriminate);
                      try (destruct H3; discriminate); eauto]
            | split; [intros H; try discriminate H; reflexivity
                     | intros r H; try discriminate H;
                       inversion H; subst r; repeat split]]).
Qed.

Lemma initialize_resources_outcome wd od document_request t :
  DocumentGenerator._initialize_resources wd od document_request t
  = match resource_requests document_request with
    | [] => (Return [], t)
    | _ :: _ => (Raise TypeError, t)
    end.
Proof.
  unfold DocumentGenerator._initialize_resources.
  destruct (resource_requests document_request); reflexivity.
Qed.

(** The constructor of the generator returns only for the book
    strategy and a request without resources.  For another strategy
    the strategy table raises [KeyError]; for the book strategy and a
    request of one resource or more, [_initialize_resources] raises
    [TypeError] at its first call of [resource_factory], to which it
    passes three of the four required arguments.  The constructor
    makes no call outside.  The generator of the empty request has no
    resources, nothing found or unfound, empty content, the working
    directory in place of an empty output directory, and the empty
    key. *)
Theorem generator_construction
    (document_request : DocumentRequest) (wd od : string) (t : list Event) :
  ((exists dg, DocumentGenerator.__init__ document_request wd od t = (Return dg, t))
   <-> assembly_strategy_kind document_request = BOOK
       /\ resource_requests document_request = [])
  /\ (assembly_strategy_kind document_request = BOOK ->
      resource_requests document_request <> [] ->
      DocumentGenerator.__init__ document_request wd od t = (Raise TypeError, t))
  /\ (assembly_strategy_kind document_request <> BOOK ->
      exists key,
        DocumentGenerator.__init__ document_request wd od t
        = (Raise (KeyError key), t))
  /\ (forall dg t',
         DocumentGenerator.__init__ document_request wd od t = (Return dg, t') ->
         t' = t
         /\ _resources dg = []
         /\ found_resources dg = [] /\ unfound_resources dg = []
         /\ content dg = "" /\ working_dir dg = wd
         /\ output_dir dg = (if Py.truthy od then od else wd)
         /\ _document_request_key dg = "").
Proof.
  unfold DocumentGenerator.__init__, bind, lift.
  rewrite initialize_resources_outcome.
  unfold DocumentGenerator._initialize_document_request_key.
  destruct (assembly_strategy_kind document_request);
    destruct (resource_requests document_request) as [|rr l]; simpl;
    (split; [split; [intros [dg H]; try discriminate H; auto
                    | intros [Hk Hl]; try discriminate Hk; try discriminate Hl; eauto]|]);
    (split; [intros Hk Hl; congruence|]);
    (split; [intros Hk; try congruence; eauto|]);
    intros dg t' H; try discriminate H;
    inversion H; subst; destruct (Py.truthy od); repeat split.
Qed.

Lemma generator_construction_witness :
  DocumentGenerator.__init__
    {| assembly_strategy_kind := BOOK;
       resource_requests := [request "en" "tn" "gen"; request "en" "tq" "gen"] |}
    "working" "output" []
  = (Raise TypeError, []).
Proof.
  destruct (generator_construction
              {| assembly_strategy_kind := BOOK;
                 resource_requests := [request "en" "tn" "gen"; request "en" "tq" "gen"] |}
              "working" "output" []) as (_ & H & _).
  apply H; [reflexivity | discriminate].
Defined.

(** ** More on [DocumentGenerator] *)

Lemma assemble_step_content dg acc i t c :
  content_at (_resources dg) i = Some c ->
  DocumentGenerator.assemble_step dg acc i t = (Return (acc ++ book_section c), t).
Proof.
  unfold content_at, DocumentGenerator.assemble_step. intros H.
  destruct (_resources dg !! i) as [r|]; [|discriminate]. now rewrite H.
Qed.

Lemma concat_cons_empty_sep (x : string) (l : list string) :
  String.concat "" (x :: l) = x ++ String.concat "" l.
Proof.
  destruct l as [|y l]; simpl.
  - now rewrite append_nil_r.
  - now rewrite append_nil_l.
Qed.

Lemma assemble_loop dg l :
  forall acc t,
    Forall (fun i => is_Some (content_at (_resources dg) i)) l ->
    for_each (DocumentGenerator.assemble_step dg) l acc t
    = (Return (acc ++ String.concat ""
                        (List.map (fun i => book_section
                                              (default "" (content_at (_resources dg) i)))
                                  l)), t).
Proof.
  induction l as [|i l IH]; intros acc t Hall.
  - simpl. now rewrite append_nil_r.
  - apply Forall_cons in Hall as [[c Hc] Hall]. simpl for_each.
    unfold bind. rewrite (assemble_step_content dg acc i t c Hc).
    rewrite IH by exact Hall.
    simpl List.map. rewrite concat_cons_empty_sep, Hc. simpl default.
    now rewrite append_assoc.
Qed.

Lemma assemble_loop_missing dg i r l :
  In i l -> _resources dg !! i = Some r -> _content r = None ->
  Forall (fun j => is_Some (_resources dg !! j)) l ->
  forall acc t,
    for_each (DocumentGenerator.assemble_step dg) l acc t
    = (Raise (AttributeError "_content"), t).
Proof.
  intros Hi Hr Hc. induction l as [|j l IH]; intros Hrefs acc t; [destruct Hi|].
  apply Forall_cons in Hrefs as [[q Hq] Hrefs]. simpl for_each.
  unfold bind at 1, DocumentGenerator.assemble_step at 1. rewrite Hq.
  destruct (_content q) as [c|] eqn:Ec; [|reflexivity].
  unfold ret at 1. destruct Hi as [->|Hi]; [congruence|].
  now apply IH.
Qed.

(** The by-book strategy returns the sections of the found resources,
    in the order of the found list, each section being two newlines
    and the resource's content; resources that are not in the found
    list do not enter.  When a found resource has no content yet, the
    strategy raises [AttributeError]. *)
Theorem assemble_content_by_book_outcome (dg : Generator) (t : list Event) :
  (Forall (fun i => is_Some (content_at (_resources dg) i)) (found_resources dg) ->
   DocumentGenerator.assemble_content_by_book dg t
   = (Return (String.concat ""
                (List.map (fun i => book_section
                                      (default "" (content_at (_resources dg) i)))
                          (found_resources dg))), t))
  /\ (forall i r,
         In i (found_resources dg) ->
         _resources dg !! i = Some r -> _content r = None ->
         Forall (fun j => is_Some (_resources dg !! j)) (found_resources dg) ->
         DocumentGenerator.assemble_content_by_book dg t
         = (Raise (AttributeError "_content"), t)).
Proof.
  split.
  - intros Hall. unfold DocumentGenerator.assemble_content_by_book.
    now rewrite assemble_loop.
  - intros i r Hi Hr Hc Hrefs. unfold DocumentGenerator.assemble_content_by_book.
    eapply assemble_loop_missing; eauto.
Qed.

Lemma assemble_content_by_book_outcome_witness :
  DocumentGenerator.assemble_content_by_book
    (append_found
       (generator_of [set_content (fresh TN "en" "tn" "gen") "notes";
                      set_content (fresh TQ "en" "tq" "gen") "questions"] "k") 1)
    []
  = (Return (String "010" (String "010" "questions")), []).
Proof.
  destruct (assemble_content_by_book_outcome
              (append_found
                 (generator_of [set_content (fresh TN "en" "tn" "gen") "notes";
                                set_content (fresh TQ "en" "tq" "gen") "questions"]
                               "k") 1) []) as [H _].
  rewrite H; [reflexivity|].
  repeat constructor. simpl. eauto.
Defined.

(** When the PDF is not there yet, [_generate_pdf] wraps the assembled
    sections in the header and the footer, writes that text to
    [output_dir/key.html], and calls the typesetter; inside the
    container it then copies the PDF.  The exit statuses of the
    typesetter and of the copy are not looked at: whatever they are,
    [_generate_pdf] returns normally. *)
Theorem generate_pdf_ignores_typesetter_status
    (w : World) (dg : Generator) (t : list Event) (status copy_status : Z)
    (Hpdf : isfile w (DocumentGenerator.pdf_path dg) = false)
    (Hcontent : Forall (fun i => is_Some (content_at (_resources dg) i))
                       (found_resources dg))
    (Hwrite : forall path text, write_file w path text = None)
    (Hcall : subprocess_call w
               (pandoc_command w (output_dir dg) (working_dir dg)
                  (_document_request_key dg)
                  (List.map _resource_code (_resources dg)))
             = Exited status)
    (Hcopy : subprocess_call w
               ("cp " ++ output_dir dg ++ "/" ++ _document_request_key dg
                ++ ".pdf /output")
             = Exited copy_status) :
  let body :=
    String.concat ""
      (List.map (fun i => book_section (default "" (content_at (_resources dg) i)))
                (found_resources dg)) in
  let html := get_document_html_header w ++ body ++ get_document_html_footer w in
  let typeset :=
    EvCall (pandoc_command w (output_dir dg) (working_dir dg)
              (_document_request_key dg)
              (List.map _resource_code (_resources dg))) in
  let copy :=
    EvCall ("cp " ++ output_dir dg ++ "/" ++ _document_request_key dg
            ++ ".pdf /output") in
  DocumentGenerator._generate_pdf w dg t
  = (Return (set_document_content dg html),
     (t ++ [EvWriteFile (os_path.join (output_dir dg)
                           (_document_request_key dg ++ ".html")) html;
            typeset]
        ++ if IN_CONTAINER w then [copy] else [])%list).
Proof.
  intros body html typeset copy.
  pose proof (assemble_loop dg (found_resources dg) "" t Hcontent) as Hbody.
  rewrite append_nil_l in Hbody.
  change (DocumentGenerator.assemble_content_by_book dg t = (Return body, t))
    in Hbody.
  subst html typeset copy. clearbody body. clear Hcontent.
  unfold DocumentGenerator._generate_pdf. rewrite Hpdf.
  unfold DocumentGenerator.assemble_content, DocumentGenerator.convert_html2pdf,
    DocumentGenerator.call, DocumentGenerator.enclose_html_content,
    DocumentGenerator.html_path, set_document_content.
  destruct dg as [s wd od c uf f rs key]. destruct s.
  cbn [assembly_strategy output_dir working_dir _document_request_key
       _resources content found_resources unfound_resources] in *.
  cbv beta iota zeta delta [bind negb emit ret]. rewrite Hbody.
  cbv beta iota zeta. rewrite Hwrite. cbv beta iota zeta.
  cbn [assembly_strategy output_dir working_dir _document_request_key
       _resources content found_resources unfound_resources].
  rewrite Hcall. cbv beta iota zeta.
  destruct (IN_CONTAINER w).
  - rewrite Hcopy. rewrite <- !app_assoc. reflexivity.
  - rewrite <- !app_assoc. reflexivity.
Qed.

Lemma generate_pdf_ignores_typesetter_status_witness :
  exists dg' t',
    DocumentGenerator._generate_pdf
      (example_world (fun _ => not_found) (fun _ => not_found)
                     (fun _ => Exited 43) None None false no_files no_files no_files)
      (generator_of [] "") []
    = (Return dg', t')
    /\ content dg' = "<html></html>".
Proof.
  eexists _, _. split.
  - apply (generate_pdf_ignores_typesetter_status
             (example_world (fun _ => not_found) (fun _ => not_found)
                            (fun _ => Exited 43) None None false no_files
                            no_files no_files)
             (generator_of [] "") [] 43%Z 43%Z); try reflexivity.
    constructor.
  - reflexivity.
Defined.

Lemma fetch_step_unfound w dg i r t :
  _resources dg !! i = Some r ->
  cls r <> USFM -> dto_url (t_lookup w r) = None ->
  DocumentGenerator.fetch_step w dg i t
  = (Return (append_unfound
               (set_resources dg (<[i := set_location r (t_lookup w r)]> (_resources dg)))
               i),
     (t ++ [EvLookup (_resource_filename r)])%list).
Proof.
  intros Hr Hcls Hnone. unfold DocumentGenerator.fetch_step. rewrite Hr.
  unfold find_location, bind, emit.
  destruct (cls r); try congruence;
    unfold ret, is_found; simpl; rewrite Hnone; reflexivity.
Qed.

Lemma insert_middle {A} (l1 l2 : list A) (x y : A) :
  <[length l1 := y]> (l1 ++ x :: l2)%list = (l1 ++ y :: l2)%list.
Proof.
  replace (length l1) with (length l1 + 0) at 1 by lia.
  now rewrite insert_app_r.
Qed.

Lemma fetch_loop_unfound w todo :
  forall done dg t,
    _resources dg = (done ++ todo)%list ->
    Forall (fun r => cls r <> USFM /\ dto_url (t_lookup w r) = None) todo ->
    for_each (DocumentGenerator.fetch_step w) (seq (length done) (length todo)) dg t
    = (Return
         {| assembly_strategy := assembly_strategy dg; working_dir := working_dir dg;
            output_dir := output_dir dg; content := content dg;
            unfound_resources :=
              (unfound_resources dg ++ seq (length done) (length todo))%list;
            found_resources := found_resources dg;
            _resources :=
              (done ++ List.map (fun r => set_location r (t_lookup w r)) todo)%list;
            _document_request_key := _document_request_key dg |},
       (t ++ lookups_of todo)%list).
Proof.
  induction todo as [|r todo IH]; intros done dg t Hheap Hall.
  - rewrite app_nil_r in Hheap. simpl. unfold lookups_of. simpl.
    rewrite !app_nil_r, <- Hheap. unfold ret. now destruct dg.
  - apply Forall_cons in Hall as [[Hcls Hnone] Hall]. simpl for_each.
    assert (Hr : _resources dg !! length done = Some r)
      by (rewrite Hheap; apply list_lookup_middle; reflexivity).
    unfold bind. rewrite (fetch_step_unfound w dg _ r t Hr Hcls Hnone).
    specialize (IH (done ++ [set_location r (t_lookup w r)])%list).
    rewrite length_app in IH. simpl in IH.
    replace (length done + 1) with (S (length done)) in IH by lia.
    rewrite IH; [|simpl; rewrite Hheap, <- app_assoc; simpl;
                  now rewrite insert_middle | exact Hall].
    simpl. rewrite <- !app_assoc. reflexivity.
Qed.

(** When no resource of the request is found (all of them
    translation helps whose lookup gives no URL; the empty request is
    the case of no resource at all), the fetch phase makes the
    lookups, in request order, and nothing else, and puts every
    resource in the unfound list; when the PDF is not there yet, the
    HTML file can be written, the process is outside the container
    and the typesetter returns an exit status, the run then writes a
    document that is the header followed by the footer and calls the
    typesetter on it. *)
Theorem run_with_nothing_found
    (w : World) (dg : Generator) (t : list Event) (status : Z)
    (Hall : Forall (fun r => cls r <> USFM /\ dto_url (t_lookup w r) = None)
                   (_resources dg))
    (Hfound : found_resources dg = [])
    (Hpdf : isfile w (DocumentGenerator.pdf_path dg) = false)
    (Hwrite : forall path text, write_file w path text = None)
    (Hcontainer : IN_CONTAINER w = false)
    (Hcall : subprocess_call w
               (pandoc_command w (output_dir dg) (working_dir dg)
                  (_document_request_key dg)
                  (List.map _resource_code (_resources dg)))
             = Exited status) :
  let html := get_document_html_header w ++ get_document_html_footer w in
  DocumentGenerator._fetch_resources w dg t
  = (Return (all_unfound w dg), (t ++ lookups_of (_resources dg))%list)
  /\ DocumentGenerator.run w dg t
     = (Return (set_document_content (all_unfound w dg) html),
        (t ++ lookups_of (_resources dg)
           ++ [EvWriteFile (os_path.join (output_dir dg)
                              (_document_request_key dg ++ ".html")) html;
               EvCall (pandoc_command w (output_dir dg) (working_dir dg)
                         (_document_request_key dg)
                         (List.map _resource_code (_resources dg)))])%list).
Proof.
  intros html.
  assert (Hfetch : DocumentGenerator._fetch_resources w dg t
                   = (Return (all_unfound w dg), (t ++ lookups_of (_resources dg))%list)).
  { unfold DocumentGenerator._fetch_resources.
    exact (fetch_loop_unfound w (_resources dg) [] dg t eq_refl Hall). }
  split; [exact Hfetch|].
  assert (Hcodes : List.map _resource_code
                     (List.map (fun r => set_location r (t_lookup w r)) (_resources dg))
                   = List.map _resource_code (_resources dg)).
  { rewrite List.map_map. apply List.map_ext. reflexivity. }
  unfold DocumentGenerator.run, bind. rewrite Hfetch.
  unfold DocumentGenerator._initialize_resource_content.
  unfold all_unfound at 1. cbn [found_resources]. rewrite Hfound. simpl for_each.
  unfold ret at 1.
  unfold DocumentGenerator._generate_pdf.
  replace (DocumentGenerator.pdf_path (all_unfound w dg))
    with (DocumentGenerator.pdf_path dg) by reflexivity.
  rewrite Hpdf.
  unfold DocumentGenerator.assemble_content, DocumentGenerator.assemble_content_by_book,
    DocumentGenerator.convert_html2pdf, DocumentGenerator.call,
    DocumentGenerator.enclose_html_content, DocumentGenerator.html_path,
    set_document_content, all_unfound.
  destruct dg as [s wd od c uf f rs key]. destruct s.
  cbn [assembly_strategy output_dir working_dir _document_request_key
       _resources content found_resources unfound_resources] in *.
  subst f. simpl for_each.
  cbv beta iota zeta delta [bind negb emit ret].
  cbn [assembly_strategy output_dir working_dir _document_request_key
       _resources content found_resources unfound_resources].
  cbn [for_each]. cbv beta iota zeta delta [ret].
  rewrite Hwrite. cbv beta iota zeta.
  cbn [assembly_strategy output_dir working_dir _document_request_key
       _resources content found_resources unfound_resources].
  rewrite Hcodes, Hcall. cbv beta iota zeta. rewrite Hcontainer.
  subst html. rewrite <- !app_assoc. reflexivity.
Qed.

Lemma run_with_nothing_found_witness :
  exists dg',
    DocumentGenerator.run (world_of_lookups false)
      (generator_of [fresh TQ "en" "tq" "gen"] "en-tq-gen") []
    = (Return dg',
       [EvLookup "en_tq_gen"; EvWriteFile "output/en-tq-gen.html" "<html></html>";
        EvCall "pandoc en-tq-gen"])
    /\ unfound_resources dg' = [0].
Proof.
  eexists. split.
  - apply (run_with_nothing_found (world_of_lookups false)
             (generator_of [fresh TQ "en" "tq" "gen"] "en-tq-gen") [] 0);
      try reflexivity.
    repeat constructor. discriminate.
  - reflexivity.
Defined.

(** ** Dictionaries kept in insertion order *)

Lemma dict_get_set {V} (d : list (Z * V)) k v k' :
  dict_get (Py.dict_set d k v) k'
  = if (k =? k')%Z then Some v else dict_get d k'.
Proof.
  induction d as [|[k0 v0] d IH]; simpl.
  - reflexivity.
  - destruct (Z.eqb_spec k0 k) as [->|Hne]; simpl.
    + destruct (k =? k')%Z; reflexivity.
    + rewrite IH. destruct (Z.eqb_spec k0 k') as [->|Hne'].
      * destruct (Z.eqb_spec k k'); [congruence | reflexivity].
      * reflexivity.
Qed.

Lemma dict_set_keys {V} (d : list (Z * V)) k v k' :
  In k' (List.map fst (Py.dict_set d k v)) <-> k' = k \/ In k' (List.map fst d).
Proof.
  induction d as [|[k0 v0] d IH]; simpl.
  - intuition.
  - destruct (Z.eqb_spec k0 k) as [->|Hne]; simpl.
    + intuition.
    + rewrite IH. intuition.
Qed.

Lemma dict_set_NoDup {V} (d : list (Z * V)) k v :
  List.NoDup (List.map fst d) -> List.NoDup (List.map fst (Py.dict_set d k v)).
Proof.
  induction d as [|[k0 v0] d IH]; simpl; intros Hnd.
  - repeat constructor. intros [].
  - inversion Hnd as [|? ? Hnot Hnd']; subst.
    destruct (Z.eqb_spec k0 k) as [->|Hne]; simpl.
    + now constructor.
    + constructor; [|auto]. rewrite dict_set_keys. intros [H|H]; auto.
Qed.

Lemma dict_get_In {V} (d : list (Z * V)) k v :
  List.NoDup (List.map fst d) -> (In (k, v) d <-> dict_get d k = Some v).
Proof.
  induction d as [|[k0 v0] d IH]; simpl; intros Hnd.
  - split; [intros [] | discriminate].
  - inversion Hnd as [|? ? Hnot Hnd']; subst. specialize (IH Hnd').
    destruct (Z.eqb_spec k0 k) as [->|Hne].
    + split.
      * intros [H|H]; [congruence|]. exfalso. apply Hnot.
        apply in_map_iff. now exists (k, v).
      * intros H. left. congruence.
    + rewrite <- IH. split; [intros [H|H]; [congruence | exact H] | auto].
Qed.

Lemma dict_update_NoDup {V} (l d : list (Z * V)) :
  List.NoDup (List.map fst d) -> List.NoDup (List.map fst (dict_update d l)).
Proof.
  unfold dict_update.
  revert d. induction l as [|[k v] l IH]; intros d Hnd; simpl; [exact Hnd|].
  apply IH. now apply dict_set_NoDup.
Qed.

Lemma dict_update_keys {V} (l d : list (Z * V)) k :
  In k (List.map fst (dict_update d l))
  <-> In k (List.map fst d) \/ In k (List.map fst l).
Proof.
  unfold dict_update.
  revert d. induction l as [|[k0 v0] l IH]; intros d; simpl.
  - intuition.
  - rewrite IH, dict_set_keys. intuition.
Qed.

(** The value under a key after a run of assignments is that of the
    last assignment to the key. *)
Lemma dict_update_last {V} (l1 l2 d : list (Z * V)) k v :
  ~ In k (List.map fst l2) ->
  dict_get (dict_update d (l1 ++ (k, v) :: l2)) k = Some v.
Proof.
  intros Hlast. unfold dict_update. rewrite fold_left_app. simpl.
  generalize (fold_left (fun d kv => Py.dict_set d (fst kv) (snd kv)) l1 d).
  intros d1.
  assert (H : dict_get (Py.dict_set d1 k v) k = Some v)
    by (rewrite dict_get_set, Z.eqb_refl; reflexivity).
  revert H. generalize (Py.dict_set d1 k v). clear d1.
  induction l2 as [|[k0 v0] l2 IH]; intros d0 H; simpl; [exact H|].
  apply IH.
  - intros Hin. apply Hlast. now right.
  - rewrite dict_get_set. destruct (Z.eqb_spec k0 k) as [->|Hne]; [|exact H].
    exfalso. apply Hlast. now left.
Qed.


(** A loop whose turns either assign one key or raise. *)
Lemma for_each_assign {X V} (step : list (Z * V) -> X -> M (list (Z * V)))
    (f : X -> option (Z * V)) (e : Exn) :
  (forall acc x t,
      step acc x t = match f x with
                     | Some kv => (Return (Py.dict_set acc (fst kv) (snd kv)), t)
                     | None => (Raise e, t)
                     end) ->
  forall l acc t,
    for_each step l acc t
    = if forallb (fun x => bool_decide (is_Some (f x))) l
      then (Return (dict_update acc (omap f l)), t)
      else (Raise e, t).
Proof.
  intros Hstep. induction l as [|x l IH]; intros acc t; [reflexivity|].
  simpl for_each. unfold bind. rewrite Hstep. simpl forallb. simpl omap.
  destruct (f x) as [kv|] eqn:Ef.
  - rewrite bool_decide_eq_true_2 by eauto. simpl. apply IH.
  - rewrite bool_decide_eq_false_2 by (intros [? ?]; discriminate). reflexivity.
Qed.

(** ** [TResource._initialize_verses_html] *)

Lemma verse_step_of w acc filepath t :
  TResource.verse_step w acc filepath t
  = match verse_of w filepath with
    | Some kv => (Return (Py.dict_set acc (fst kv) (snd kv)), t)
    | None => (Raise ValueError, t)
    end.
Proof.
  unfold TResource.verse_step, verse_of.
  destruct (Py.int _); reflexivity.
Qed.

Lemma chapter_step_of w acc chapter_dir t :
  TResource.chapter_step w acc chapter_dir t
  = match chapter_of w chapter_dir with
    | Some kv => (Return (Py.dict_set acc (fst kv) (snd kv)), t)
    | None => (Raise ValueError, t)
    end.
Proof.
  unfold TResource.chapter_step, chapter_of.
  destruct (Py.int (TResource.basename chapter_dir)) as [n|]; [|reflexivity].
  unfold bind.
  rewrite (for_each_assign (TResource.verse_step w) (verse_of w) ValueError
             (verse_step_of w)).
  destruct (forallb _ _); reflexivity.
Qed.

Lemma T_initialize_verses_html_eq w r t :
  TResource._initialize_verses_html w r t
  = if all_numeric w r
    then (Return
            {| book_intro_html :=
                 match glob w (_resource_dir r ++ "/*" ++ _resource_code r
                               ++ "/front/intro.md") with
                 | p :: _ => markdown_file_to_html w p
                 | [] => ""
                 end;
               chapters :=
                 dict_update [] (omap (chapter_of w) (TResource.chapter_dirs w r)) |},
          t)
    else (Raise ValueError, t).
Proof.
  unfold TResource._initialize_verses_html, bind, all_numeric.
  rewrite (for_each_assign (TResource.chapter_step w) (chapter_of w) ValueError
             (chapter_step_of w)).
  destruct (forallb _ _); reflexivity.
Qed.



(** In the payload that the parser returns, no chapter number occurs
    twice; the chapter numbers are those of the chapter directories;
    and when several directories give the same number (such as [1]
    and [01]), the payload under that number is that of the one that
    comes last in sorted order. *)
Theorem T_chapters_last_directory_wins
    (w : World) (r : Resource) (t t' : list Event) (payload : TNBookPayload)
    (Hrun : TResource._initialize_verses_html w r t = (Return payload, t')) :
  List.NoDup (List.map fst (chapters payload))
  /\ (forall k,
         In k (List.map fst (chapters payload))
         <-> exists chapter_dir,
               In chapter_dir (TResource.chapter_dirs w r)
               /\ Py.int (TResource.basename chapter_dir) = Some k)
  /\ (forall before chapter_dir after k chapter,
         TResource.chapter_dirs w r = (before ++ chapter_dir :: after)%list ->
         chapter_of w chapter_dir = Some (k, chapter) ->
         (forall later, In later after ->
                        Py.int (TResource.basename later) <> Some k) ->
         In (k, chapter) (chapters payload)).
Proof.
  rewrite T_initialize_verses_html_eq in Hrun.
  destruct (all_numeric w r) eqn:Hnum; [|discriminate].
  inversion Hrun; subst payload t'. clear Hrun. simpl chapters.
  unfold all_numeric in Hnum. rewrite forallb_forall in Hnum.
  assert (Hnd : List.NoDup
                  (List.map fst (dict_update ([] : list (Z * TNChapterPayload))
                                   (omap (chapter_of w) (TResource.chapter_dirs w r)))))
    by (apply dict_update_NoDup; constructor).
  assert (Hnumber : forall d kv, chapter_of w d = Some kv ->
                                 Py.int (TResource.basename d) = Some (fst kv)).
  { intros d kv H. unfold chapter_of in H.
    destruct (Py.int (TResource.basename d)); [|discriminate].
    destruct (forallb _ _); [|discriminate]. now inversion H. }
  split; [exact Hnd|]. split.
  - intros k. rewrite dict_update_keys. simpl. split.
    + intros [[]|H]. apply in_map_iff in H as [kv [<- Hkv]].
      apply list_elem_of_In, list_elem_of_omap in Hkv as [d [Hd Hkv]].
      exists d. split; [now apply list_elem_of_In | now apply Hnumber].
    + intros [d [Hd Hk]]. right.
      specialize (Hnum d Hd). apply bool_decide_eq_true in Hnum as [kv Hkv].
      apply in_map_iff. exists kv. split.
      * apply Hnumber in Hkv. congruence.
      * apply list_elem_of_In, list_elem_of_omap. exists d.
        split; [now apply list_elem_of_In | exact Hkv].
  - intros before d after k chapter Hsplit Hd Hlater.
    apply dict_get_In; [exact Hnd|].
    rewrite Hsplit, omap_app. simpl omap. rewrite Hd.
    apply dict_update_last.
    intros Hin. apply in_map_iff in Hin as [kv [Hk Hkv]].
    apply list_elem_of_In, list_elem_of_omap in Hkv as [d' [Hd' Hkv]].
    apply (Hlater d'); [now apply list_elem_of_In|].
    apply Hnumber in Hkv. congruence.
Qed.

Lemma T_chapters_last_directory_wins_witness :
  exists payload,
    TResource._initialize_verses_html (world_with_glob example_padding_glob)
      (fresh TN "en" "tn" "gen") []
    = (Return payload, [])
    /\ List.map fst (chapters payload) = [1%Z; 2%Z]
    /\ In (1%Z, {| chapter_intro_html := "";
                   verses_html := [(1%Z, "<p>working/en_tn/gen/1/01.md</p>")] |})
          (chapters payload).
Proof.
  eexists. split; [vm_compute; reflexivity|]. split; [reflexivity|].
  destruct (T_chapters_last_directory_wins (world_with_glob example_padding_glob)
              (fresh TN "en" "tn" "gen") [] [] _ eq_refl) as (_ & _ & H).
  apply (H ["working/en_tn/gen/01"] "working/en_tn/gen/1" ["working/en_tn/gen/2"]).
  - reflexivity.
  - reflexivity.
  - intros later [<-|[]]. discriminate.
Defined.

(** ** The chapters of [TNResource._get_tn_markdown] *)

Lemma filter_perm {A} (f : A -> bool) (l l' : list A) :
  Permutation l l' -> Permutation (List.filter f l) (List.filter f l').
Proof.
  induction 1 as [|x l l' _ IH|x y l|l l' l'' _ IH1 _ IH2]; simpl.
  - constructor.
  - destruct (f x); [now constructor | exact IH].
  - destruct (f x), (f y); try reflexivity. constructor.
  - now transitivity (List.filter f l').
Qed.

Lemma lstrip_head c s a rest :
  Py.lstrip c s = String a rest -> a <> c.
Proof.
  induction s as [|b s IH]; simpl; [discriminate|].
  destruct (Ascii.eqb_spec b c) as [->|Hne]; [exact IH|].
  intros H. inversion H; subst. exact Hne.
Qed.

Lemma processed_chapters_names w book_dir :
  processed_chapters w book_dir
  = List.map (Py.lstrip "0") (chapter_names w book_dir).
Proof.
  unfold processed_chapters, chapter_names, TNResource.chapter_entries.
  induction (Py.sorted (listdir w book_dir)) as [|name l IH]; simpl; [reflexivity|].
  destruct (isdir w (os_path.join book_dir name)
            && Py.re_match_digits (Py.lstrip "0" name)); simpl; now rewrite IH.
Qed.

(** The chapters that the notes' Markdown is built from are the
    entries of the book directory that are directories and whose
    name, once its leading zeros are gone, is a numeral: each of
    them once, none dropped when two names give the same chapter (as
    [1] and [01] do).  A processed chapter is never empty and starts
    with a digit other than zero, so an entry named [0] or [00] is
    skipped. *)
Theorem tn_chapters_are_the_numbered_directories (w : World) (book_dir : string) :
  Permutation (processed_chapters w book_dir)
              (List.map (Py.lstrip "0")
                        (List.filter (eligible w book_dir) (listdir w book_dir)))
  /\ (forall chapter,
         In chapter (processed_chapters w book_dir) ->
         exists c rest,
           chapter = String c rest /\ Py.is_digit c = true /\ c <> "0"%char).
Proof.
  rewrite processed_chapters_names, chapter_names_filter. split.
  - apply Permutation_map, filter_perm, sorted_perm.
  - intros chapter Hin. apply in_map_iff in Hin as [name [<- Hname]].
    apply filter_In in Hname as [_ Hel]. unfold eligible in Hel.
    apply andb_true_iff in Hel as [_ Hre].
    destruct (Py.lstrip "0" name) as [|c rest] eqn:E; [discriminate|].
    exists c, rest. split; [reflexivity|]. split.
    + simpl in Hre. now apply andb_true_iff in Hre as [Hd _].
    + now apply lstrip_head in E.
Qed.

(** ** [TNResource.get_content] *)

Lemma get_tn_markdown_eq w r t :
  Py.truthy (_resource_dir r) = true ->
  Py.truthy (_lang_code r) = true ->
  Py.truthy (_resource_type r) = true ->
  Py.truthy (_resource_code r) = true ->
  exists book_dir,
    TNResource._get_book_dir w r t = (Return book_dir, t)
    /\ TNResource._get_tn_markdown w r t
       = if isdir w book_dir then (Return (set_content r (tn_md w r book_dir)), t)
         else (Return r, t).
Proof.
  intros Hd Hl Ht Hc.
  unfold TNResource._get_tn_markdown, TNResource._get_book_dir, check, bind, ret.
  rewrite Hd, Hl, Ht, Hc. cbn [andb]. cbv iota beta.
  destruct (isdir w (os_path.join (_resource_dir r)
                       (_lang_code r ++ "_" ++ _resource_type r))) eqn:E1.
  - eexists. split; [reflexivity|]. rewrite E1. reflexivity.
  - eexists. split; [reflexivity|].
    destruct (isdir w (os_path.join (_resource_dir r) (_resource_code r)));
      reflexivity.
Qed.

(** Getting the content of a notes resource whose book directory is
    not on disk does not give empty content: [_get_tn_markdown]
    returns before it assigns [_content], and [_transform_content]
    then reads the attribute that [Resource.__init__] only declared,
    which raises [AttributeError].  When the directory is there, the
    Markdown built is run through the link replacement and the
    converter if it is not empty (a contract violation if the link
    replacement leaves nothing), and stays empty otherwise. *)
Theorem tn_get_content_outcome
    (w : World) (lib : Library) (r : Resource) (t : list Event)
    (Hdir : Py.truthy (_resource_dir r) = true)
    (Hlang : Py.truthy (_lang_code r) = true)
    (Htype : Py.truthy (_resource_type r) = true)
    (Hcode : Py.truthy (_resource_code r) = true)
    (Hfresh : _content r = None) :
  exists book_dir,
    TNResource._get_book_dir w r t = (Return book_dir, t)
    /\ (isdir w book_dir = false ->
        TNResource_get_content w lib r t = (Raise (AttributeError "_content"), t))
    /\ (isdir w book_dir = true ->
        let md := tn_md w r book_dir in
        let transformed :=
          transform_rc_links lib (replace_rc_links lib (set_content r md) md) in
        TNResource_get_content w lib r t
        = if Py.truthy md then
            if Py.truthy transformed
            then (Return (set_content r (markdown_markdown lib transformed)), t)
            else (Raise ViolationError, t)
          else (Return (set_content r ""), t)).
Proof.
  destruct (get_tn_markdown_eq w r t Hdir Hlang Htype Hcode)
    as [book_dir [Hbook Hmd]].
  exists book_dir. split; [exact Hbook|].
  unfold TNResource_get_content, bind. rewrite Hmd. split; intros His; rewrite His.
  - unfold _transform_content. now rewrite Hfresh.
  - cbv zeta. unfold _transform_content.
    change (_content (set_content r (tn_md w r book_dir)))
      with (Some (tn_md w r book_dir)).
    generalize (tn_md w r book_dir). intros md. cbv iota beta.
    destruct (Py.truthy md) eqn:Emd; [|destruct md; [reflexivity | discriminate]].
    cbv zeta.
    generalize (transform_rc_links lib (replace_rc_links lib (set_content r md) md)).
    intros transformed.
    unfold _convert_md2html, check, bind, ret, raise.
    change (_content (set_content (set_content r md) transformed))
      with (Some transformed). cbv iota beta.
    destruct (Py.truthy transformed); reflexivity.
Qed.

Lemma tn_get_content_outcome_witness :
  TNResource_get_content example_no_book_dir (example_library (Return ""))
    (fresh TN "en" "tn" "gen") []
  = (Raise (AttributeError "_content"), []).
Proof.
  destruct (tn_get_content_outcome example_no_book_dir
              (example_library (Return "")) (fresh TN "en" "tn" "gen") []
              eq_refl eq_refl eq_refl eq_refl eq_refl)
    as [book_dir [Hbook [Hmissing _]]].
  apply Hmissing. inversion Hbook. reflexivity.
Defined.



(** With no chapter introduction the link line is not there. *)
Example tn_markdown_without_chapter_intro :
  exists md,
    TNResource._get_tn_markdown
      (with_tn_chapter_intro example_notes_world (fun _ _ _ => ""))
      (fresh TN "en" "tn" "gen") []
    = (Return (set_content (fresh TN "en" "tn" "gen") md), [])
    /\ Py.str_in "/intro]]" md = false.
Proof. eexists. split; [vm_compute; reflexivity | reflexivity]. Qed.

(** ** [TResource.initialize_from_assets] *)





(** ** [USFMResource.get_content] *)

(** The exception that one turn of the chapter loop raises. *)
Lemma usfm_chapter_step_of w r content heading acc chapter_break t :
  exists err,
    USFMResource.chapter_step w r content heading acc chapter_break t
    = match usfm_chapter_of w r content heading chapter_break with
      | Some kv => (Return (Py.dict_set acc (fst kv) (snd kv)), t)
      | None => (Raise err, t)
      end.
Proof.
  unfold USFMResource.chapter_step, usfm_chapter_of, heading_number.
  destruct (Py.split chapter_break) as [|w0 [|num ws]];
    try (exists IndexError; reflexivity).
  destruct (Py.int num) as [n|]; [|exists ValueError; reflexivity].
  unfold bind, lift.
  destruct (usfm_chapter w r content heading n) as [ch|e];
    [exists IndexError | exists e]; reflexivity.
Qed.

Lemma usfm_chapter_loop w r content heading l :
  forall acc t,
    (Forall (fun b => is_Some (usfm_chapter_of w r content heading b)) l ->
     for_each (USFMResource.chapter_step w r content heading) l acc t
     = (Return (dict_update acc (omap (usfm_chapter_of w r content heading) l)), t))
    /\ (Exists (fun b => usfm_chapter_of w r content heading b = None) l ->
        exists e,
          for_each (USFMResource.chapter_step w r content heading) l acc t
          = (Raise e, t)).
Proof.
  induction l as [|b l IH]; intros acc t.
  - split; [reflexivity | intros H; inversion H].
  - simpl for_each. unfold bind.
    destruct (usfm_chapter_step_of w r content heading acc b t) as [err ->].
    simpl omap.
    destruct (usfm_chapter_of w r content heading b) as [kv|] eqn:Eb.
    + split.
      * intros H. inversion H; subst. now apply IH.
      * intros H. inversion H; subst; [congruence|]. now apply IH.
    + split.
      * intros H. inversion H as [|? ? [kv Hkv] ?]; subst. congruence.
      * intros _. now exists err.
Qed.

Lemma dict_set_truthy {V} (d : list (Z * V)) k v :
  Py.truthy_list (Py.dict_set d k v) = true.
Proof.
  destruct d as [|[k0 v0] d]; simpl; [reflexivity|].
  destruct (k0 =? k)%Z; reflexivity.
Qed.

Lemma dict_update_truthy {V} (l d : list (Z * V)) :
  Py.truthy_list d = true \/ l <> [] -> Py.truthy_list (dict_update d l) = true.
Proof.
  unfold dict_update. revert d. induction l as [|[k v] l IH]; intros d H; simpl.
  - destruct H as [H|H]; [exact H | congruence].
  - apply IH. left. apply dict_set_truthy.
Qed.

Lemma usfm_split_outcome w r c chapters_content t :
  let r' := set_content r c in
  let result :=
    (chapters_content0 <-
       USFMResource._initialize_verses_html w r' chapters_content ;;
     ret (r', chapters_content0)) t in
  (c = "" -> result = (Raise ViolationError, t))
  /\ (c <> "" -> find_all_chapter_breaks w c = [] ->
      result = (Raise IndexError, t))
  /\ (forall first rest heading words,
         c <> "" ->
         find_all_chapter_breaks w c = first :: rest ->
         Py.split first = heading :: words ->
         (Forall (fun b => is_Some (usfm_chapter_of w r' c heading b))
                 (first :: rest) ->
          result
          = (Return (r', dict_update chapters_content
                           (omap (usfm_chapter_of w r' c heading)
                                 (first :: rest))), t))
         /\ (Exists (fun b => usfm_chapter_of w r' c heading b = None)
                    (first :: rest) ->
             exists e, result = (Raise e, t))).
Proof.
  cbv zeta. unfold USFMResource._initialize_verses_html.
  change (_content (set_content r c)) with (Some c). cbv iota beta.
  split; [|split].
  - intros ->. reflexivity.
  - intros Hc Hbreaks. unfold bind, check. rewrite Hbreaks.
    destruct c; [congruence | reflexivity].
  - intros first rest heading words Hc Hbreaks Hsplit.
    unfold bind, check. rewrite Hbreaks, Hsplit.
    destruct c as [|a c']; [congruence|].
    set (content := String a c') in *.
    cbn [Py.truthy content]. unfold ret.
    destruct (usfm_chapter_loop w (set_content r content) content heading
                (first :: rest) chapters_content t) as [Hok Hbad].
    split.
    + intros Hall. specialize (Hok Hall). rewrite Hok.
      rewrite dict_update_truthy; [reflexivity|].
      right. inversion Hall as [|? ? [kv Hkv] ?]; subst.
      simpl omap. rewrite Hkv. discriminate.
    + intros Hex. specialize (Hbad Hex). destruct Hbad as [e Hbad].
      rewrite Hbad. now exists e.
Qed.

(** Getting the content of a scripture resource, once the USFM
    files are converted and the HTML file is read.  With the book
    strategy the content is the text of
    [<output_dir>/<resource_filename>.html] and the chapters are left
    alone.  With a verse strategy the text is split at its chapter
    headings: empty text is a contract violation, text without
    chapter headings an [IndexError]; the chapters returned are the
    assignments, in document order, of each heading's number to its
    chapter, when every heading has a number for its second word and
    every chapter parses, and an exception is raised when one does
    not. *)
Theorem usfm_get_content_outcome
    (w : World) (lib : Library) (r : Resource)
    (chapters_content : list (Z * USFMChapter)) (t : list Event) (c : string)
    (Hbuild : buildSingleHtmlFromFiles lib (_content_files r) (_output_dir r)
                                       (_resource_filename r) = None)
    (Hread : read_file lib (html_file r) = Return c) :
  let r' := set_content r c in
  let result := USFMResource_get_content w lib r chapters_content t in
  (_assembly_strategy_kind r = BOOK ->
   result = (Return (r', chapters_content), t))
  /\ (_assembly_strategy_kind r <> BOOK ->
      (c = "" -> result = (Raise ViolationError, t))
      /\ (c <> "" -> find_all_chapter_breaks w c = [] ->
          result = (Raise IndexError, t))
      /\ (forall first rest heading words,
             c <> "" ->
             find_all_chapter_breaks w c = first :: rest ->
             Py.split first = heading :: words ->
             (Forall (fun b => is_Some (usfm_chapter_of w r' c heading b))
                     (first :: rest) ->
              result
              = (Return (r', dict_update chapters_content
                               (omap (usfm_chapter_of w r' c heading)
                                     (first :: rest))), t))
             /\ (Exists (fun b => usfm_chapter_of w r' c heading b = None)
                        (first :: rest) ->
                 exists e, result = (Raise e, t)))).
Proof.
  assert (Hres :
            USFMResource_get_content w lib r chapters_content t
            = match _assembly_strategy_kind r with
              | BOOK => (Return (set_content r c, chapters_content), t)
              | _ =>
                  (chapters_content0 <-
                     USFMResource._initialize_verses_html w (set_content r c)
                       chapters_content ;;
                   ret (set_content r c, chapters_content0)) t
              end).
  { unfold USFMResource_get_content. rewrite Hbuild.
    unfold bind at 1. unfold lift. rewrite Hread.
    change (_assembly_strategy_kind (set_content r c))
      with (_assembly_strategy_kind r).
    destruct (_assembly_strategy_kind r); reflexivity. }
  cbv zeta. rewrite Hres. clear Hres. split.
  - intros ->. reflexivity.
  - intros Hkind.
    destruct (_assembly_strategy_kind r); [congruence | |];
      exact (usfm_split_outcome w r c chapters_content t).
Qed.

Lemma usfm_get_content_outcome_witness :
  exists chapters,
    USFMResource_get_content
      (example_world (fun _ => not_found) (fun _ => not_found) (fun _ => Exited 0)
                     None None false no_files no_files example_breaks)
      (example_library (Return "<h2>")) example_verse_resource [] []
    = (Return (set_content example_verse_resource "<h2>", chapters), [])
    /\ List.map fst chapters = [1%Z; 2%Z].
Proof.
  eexists. split.
  - destruct (usfm_get_content_outcome
                (example_world (fun _ => not_found) (fun _ => not_found)
                               (fun _ => Exited 0) None None false
                               no_files no_files example_breaks)
                (example_library (Return "<h2>")) example_verse_resource [] []
                "<h2>" eq_refl eq_refl) as [_ Hverse].
    destruct (Hverse ltac:(discriminate)) as (_ & _ & Hsplit).
    destruct (Hsplit "Chapter 1" ["Chapter 2"] "Chapter" ["1"]
                ltac:(discriminate) eq_refl eq_refl) as [Hok _].
    apply Hok. repeat constructor; vm_compute; eauto.
  - reflexivity.
Defined.

(** ** The calls of the fetch phase *)

Lemma find_location_events w r t o t1 :
  find_location w r t = (o, t1) ->
  t1 = (t ++ [EvLookup (_resource_filename r)])%list.
Proof.
  unfold find_location, bind, emit, check, ret, raise.
  destruct (cls r); try (intros H; now inversion H);
    destruct (is_found _); intros H; now inversion H.
Qed.

Lemma get_files_events w r t o t' :
  get_files w r t = (o, t') ->
  exists evs,
    t' = (t ++ evs)%list /\ length evs <= 3
    /\ List.filter is_lookup evs = [].
Proof.
  intros Hrun.
  unfold get_files, ResourceProvisioner.__call__, bind in Hrun.
  destruct (ResourceProvisioner._prepare_resource_directory w r t)
    as [[u|e] t1] eqn:Hprep.
  - apply prepare_events in Hprep.
    apply acquire_events in Hrun as (evs & -> & _ & _ & _ & Hkind & Hlen).
    assert (Hnl : List.filter is_lookup evs = []).
    { clear Hlen. induction evs as [|ev evs IH]; [reflexivity|].
      simpl in Hkind. apply andb_true_iff in Hkind as [Hev Hkind].
      simpl. destruct ev; simpl in *; try discriminate; now apply IH. }
    destruct Hprep as [-> | ->].
    + exists evs. repeat split; auto; lia.
    + exists (EvMkdir (_resource_dir r) :: evs).
      rewrite <- app_assoc. simpl. repeat split; auto; lia.
  - inversion Hrun; subst o t'. apply prepare_events in Hprep.
    destruct Hprep as [-> | ->].
    + exists []. rewrite app_nil_r. repeat split; auto; simpl; lia.
    + exists [EvMkdir (_resource_dir r)]. repeat split; auto; simpl; lia.
Qed.

Lemma fetch_step_events w dg i r t o t' :
  _resources dg !! i = Some r ->
  DocumentGenerator.fetch_step w dg i t = (o, t') ->
  exists evs,
    t' = (t ++ EvLookup (_resource_filename r) :: evs)%list
    /\ List.filter is_lookup evs = [] /\ length evs <= 3
    /\ forall dg1, o = Return dg1 ->
                   exists r1, _resources dg1 = <[i := r1]> (_resources dg).
Proof.
  intros Hr. unfold DocumentGenerator.fetch_step. rewrite Hr. unfold bind.
  destruct (find_location w r t) as [[r1|e] t1] eqn:Hfl;
    apply find_location_events in Hfl; subst t1.
  - destruct (is_found r1).
    + destruct (get_files w r1 _) as [[r2|e] t2] eqn:Hgf;
        apply get_files_events in Hgf as (evs & -> & Hlen & Hnl);
        intros H; inversion H; subst o t'; clear H;
        exists evs; rewrite <- app_assoc; simpl;
        (split; [reflexivity|]); (split; [exact Hnl|]); (split; [exact Hlen|]).
      * intros dg1 Hdg1. inversion Hdg1. exists r2. simpl.
        now rewrite list_insert_insert_eq.
      * intros dg1 Hdg1. discriminate.
    + intros H. inversion H; subst o t'. exists []. simpl.
      repeat split; auto; try lia.
      intros dg1 Hdg1. inversion Hdg1. exists r1. reflexivity.
  - intros H. inversion H; subst o t'. exists []. simpl.
    repeat split; auto; try lia. intros dg1 Hdg1. discriminate.
Qed.

Lemma fetch_loop_events w todo :
  forall done dg t o t',
    _resources dg = (done ++ todo)%list ->
    for_each (DocumentGenerator.fetch_step w)
             (seq (length done) (length todo)) dg t = (o, t') ->
    exists blocks,
      t' = (t ++ concat (zip_with (fun r block =>
                                     EvLookup (_resource_filename r) :: block)
                                  todo blocks))%list
      /\ length blocks <= length todo
      /\ (forall dg', o = Return dg' -> length blocks = length todo)
      /\ Forall (fun block => length block <= 3
                              /\ List.filter is_lookup block = []) blocks.
Proof.
  induction todo as [|r todo IH]; intros done dg t o t' Hrs Hrun.
  - simpl in Hrun. inversion Hrun; subst. exists [].
    rewrite app_nil_r. repeat split; auto.
  - simpl in Hrun. unfold bind in Hrun.
    assert (Hr : _resources dg !! length done = Some r)
      by (rewrite Hrs; apply list_lookup_middle; reflexivity).
    destruct (DocumentGenerator.fetch_step w dg (length done) t)
      as [[dg1|e] t1] eqn:Hstep;
      destruct (fetch_step_events w dg _ r t _ _ Hr Hstep)
        as (evs1 & -> & Hnl & Hlen & Hnext).
    + destruct (Hnext dg1 eq_refl) as [r1 Hrs1].
      rewrite Hrs, insert_middle in Hrs1.
      assert (Hrs1' : _resources dg1 = ((done ++ [r1]) ++ todo)%list)
        by (rewrite Hrs1, <- app_assoc; reflexivity).
      replace (S (length done)) with (length (done ++ [r1])%list) in Hrun
        by (rewrite length_app; simpl; lia).
      destruct (IH _ _ _ _ _ Hrs1' Hrun) as (blocks & -> & Hk & Hret & Hall).
      exists (evs1 :: blocks). simpl.
      split; [now rewrite <- !app_assoc|]. split; [lia|].
      split; [intros dg' Hdg'; f_equal; eauto|].
      constructor; auto.
    + inversion Hrun; subst o t'. exists [evs1]. simpl.
      split; [destruct todo; simpl; now rewrite app_nil_r|].
      split; [lia|]. split; [intros dg' Hdg'; discriminate|].
      constructor; auto.
Qed.

(** The calls of the fetch phase, whether it returns or raises, come
    in blocks, one for each of the first [k] resources in request
    order: the lookup of that resource, followed by at most three
    calls (its provisioning) none of which is a lookup.  So each
    resource is looked up at most once, in request order; and [k] is
    the number of resources when the phase returns. *)
Theorem fetch_looks_up_each_resource_once
    (w : World) (dg : Generator) (t t' : list Event) (o : Outcome Generator)
    (Hrun : DocumentGenerator._fetch_resources w dg t = (o, t')) :
  exists blocks,
    t' = (t ++ concat (zip_with (fun r block =>
                                   EvLookup (_resource_filename r) :: block)
                                (_resources dg) blocks))%list
    /\ length blocks <= length (_resources dg)
    /\ (forall dg', o = Return dg' -> length blocks = length (_resources dg))
    /\ Forall (fun block => length block <= 3
                            /\ List.filter is_lookup block = []) blocks.
Proof.
  unfold DocumentGenerator._fetch_resources in Hrun.
  exact (fetch_loop_events w (_resources dg) [] dg t o t' eq_refl Hrun).
Qed.

Example fetch_blocks :
  snd (DocumentGenerator._fetch_resources (world_of_lookups false)
         example_tn_ulb [])
  = concat (zip_with (fun r block => EvLookup (_resource_filename r) :: block)
              (_resources example_tn_ulb)
              [[EvMkdir "working/en_tn";
                EvCall "git clone --depth=1 'https://host/org/en_tn' 'working/en_tn/en_tn'"];
               []]).
Proof. reflexivity. Qed.

Lemma fetch_looks_up_each_resource_once_witness :
  exists blocks,
    snd (DocumentGenerator._fetch_resources (world_of_lookups false)
           example_tn_ulb [])
    = ([] ++ concat (zip_with (fun r block =>
                                 EvLookup (_resource_filename r) :: block)
                              (_resources example_tn_ulb) blocks))%list
    /\ length blocks <= 2
    /\ Forall (fun block => length block <= 3
                            /\ List.filter is_lookup block = []) blocks.
Proof.
  destruct (fetch_looks_up_each_resource_once (world_of_lookups false)
              example_tn_ulb [] _ _ eq_refl)
    as (blocks & Ht & Hk & _ & Hall).
  exists blocks. auto.
Defined.

(** ** A phase that fails *)

Lemma for_each_appends {A S} (P : Event -> bool) (body : S -> A -> M S) :
  (forall s x t o t',
      body s x t = (o, t') ->
      exists evs, t' = (t ++ evs)%list /\ forallb P evs = true) ->
  forall l s t o t',
    for_each body l s t = (o, t') ->
    exists evs, t' = (t ++ evs)%list /\ forallb P evs = true.
Proof.
  intros Hbody. induction l as [|x l IH]; intros s t o t' Hrun.
  - inversion Hrun; subst. exists []. now rewrite app_nil_r.
  - simpl in Hrun. unfold bind in Hrun.
    destruct (body s x t) as [[s1|e] t1] eqn:Hstep;
      apply Hbody in Hstep as (evs1 & -> & H1).
    + apply IH in Hrun as (evs2 & -> & H2).
      exists (evs1 ++ evs2)%list. rewrite <- app_assoc. split; [reflexivity|].
      rewrite forallb_app, H1, H2. reflexivity.
    + inversion Hrun; subst. eauto.
Qed.

Lemma get_files_writes_nothing w r t o t' :
  get_files w r t = (o, t') ->
  exists evs, t' = (t ++ evs)%list
              /\ forallb (fun ev => negb (is_write ev)) evs = true.
Proof.
  intros Hrun.
  unfold get_files, ResourceProvisioner.__call__, bind in Hrun.
  destruct (ResourceProvisioner._prepare_resource_directory w r t)
    as [[u|e] t1] eqn:Hprep; apply prepare_events in Hprep.
  - apply acquire_events in Hrun as (evs & -> & _ & _ & _ & Hkind & _).
    assert (Hnw : forallb (fun ev => negb (is_write ev)) evs = true).
    { rewrite forallb_forall in *. intros ev Hev. specialize (Hkind ev Hev).
      destruct ev; simpl in *; congruence. }
    destruct Hprep as [-> | ->].
    + eauto.
    + exists (EvMkdir (_resource_dir r) :: evs). rewrite <- app_assoc. auto.
  - inversion Hrun; subst o t'. destruct Hprep as [-> | ->].
    + exists []. now rewrite app_nil_r.
    + exists [EvMkdir (_resource_dir r)]. auto.
Qed.

Lemma fetch_step_writes_nothing w dg i t o t' :
  DocumentGenerator.fetch_step w dg i t = (o, t') ->
  exists evs, t' = (t ++ evs)%list
              /\ forallb (fun ev => negb (is_write ev)) evs = true.
Proof.
  unfold DocumentGenerator.fetch_step.
  destruct (_resources dg !! i) as [r|];
    [|intros H; inversion H; subst; exists []; now rewrite app_nil_r].
  unfold bind.
  destruct (find_location w r t) as [[r1|e] t1] eqn:Hfl;
    apply find_location_events in Hfl; subst t1.
  - destruct (is_found r1).
    + destruct (get_files w r1 _) as [[r2|e] t2] eqn:Hgf;
        apply get_files_writes_nothing in Hgf as (evs & -> & Hnw);
        intros H; inversion H; subst o t';
        exists (EvLookup (_resource_filename r) :: evs);
        rewrite <- app_assoc; auto.
    + intros H. inversion H; subst. eauto.
  - intros H. inversion H; subst. eauto.
Qed.

Lemma fetch_found_valid w dg t dg1 t1 i rest :
  DocumentGenerator._fetch_resources w dg t = (Return dg1, t1) ->
  found_resources dg = [] ->
  found_resources dg1 = i :: rest ->
  is_Some (_resources dg1 !! i).
Proof.
  intros Hfetch Hnone Hfound. unfold DocumentGenerator._fetch_resources in Hfetch.
  apply (fetch_loop_inv w _ (NoDup_seq _ _)) in Hfetch
    as (Hlen & _ & _ & _ & Hf & _).
  rewrite Hnone in Hf. simpl in Hf.
  assert (Hin : In i (List.filter (is_found_at (_resources dg1))
                        (seq 0 (length (_resources dg)))))
    by (rewrite <- Hf, Hfound; now left).
  apply filter_In in Hin as [Hin _]. apply in_seq in Hin.
  apply lookup_lt_is_Some. lia.
Qed.

(** A run has no error handling between its phases.  When the fetch
    phase raises, the run raises the same exception after the same
    calls.  When the fetch phase returns with a resource found, the
    run raises [AttributeError] right after it: the content phase
    calls [initialize_assets] on the first found resource, a method
    that no resource class defines.  The calls made are then those of
    the fetch phase, none of which writes the HTML document.  So a run
    that completes has found no resource. *)
Theorem failed_phase_aborts_run
    (w : World) (dg : Generator) (t : list Event) :
  (forall e t1,
      DocumentGenerator._fetch_resources w dg t = (Raise e, t1) ->
      DocumentGenerator.run w dg t = (Raise e, t1)
      /\ exists evs, t1 = (t ++ evs)%list
                     /\ forallb (fun ev => negb (is_write ev)) evs = true)
  /\ (forall dg1 t1,
         DocumentGenerator._fetch_resources w dg t = (Return dg1, t1) ->
         found_resources dg = [] ->
         found_resources dg1 <> [] ->
         DocumentGenerator.run w dg t
         = (Raise (AttributeError "initialize_assets"), t1)
         /\ exists evs, t1 = (t ++ evs)%list
                        /\ forallb (fun ev => negb (is_write ev)) evs = true)
  /\ (forall dg' t',
         DocumentGenerator.run w dg t = (Return dg', t') ->
         found_resources dg' = []).
Proof.
  split; [|split].
  - intros e t1 Hfetch. unfold DocumentGenerator.run, bind. rewrite Hfetch.
    split; [reflexivity|].
    exact (for_each_appends _ _ (fetch_step_writes_nothing w) _ _ _ _ _ Hfetch).
  - intros dg1 t1 Hfetch Hnone Hsome.
    unfold DocumentGenerator.run, bind. rewrite Hfetch.
    rewrite initialize_resource_content_outcome.
    destruct (found_resources dg1) as [|i rest] eqn:Hfound; [congruence|].
    destruct (fetch_found_valid w dg t dg1 t1 i rest Hfetch Hnone Hfound)
      as [r Hr].
    rewrite Hr. split; [reflexivity|].
    exact (for_each_appends _ _ (fetch_step_writes_nothing w) _ _ _ _ _ Hfetch).
  - intros dg' t' Hrun. unfold DocumentGenerator.run in Hrun.
    apply bind_Return_inv in Hrun as (dg1 & t1 & _ & Hrun).
    apply bind_Return_inv in Hrun as (dg2 & t2 & Hcontent & Hpdf).
    apply initialize_resource_content_inv in Hcontent as [_ Hcontent].
    destruct (Hcontent dg2 eq_refl) as [-> Hnone].
    unfold DocumentGenerator._generate_pdf in Hpdf.
    destruct (negb (isfile w (DocumentGenerator.pdf_path dg1)));
      [|inversion Hpdf; now subst].
    apply bind_Return_inv in Hpdf as (dg3 & t3 & Hassemble & Hpdf).
    apply bind_Return_inv in Hpdf as (u & t4 & _ & Hpdf).
    inversion Hpdf; subst dg' t'.
    unfold DocumentGenerator.assemble_content in Hassemble.
    apply bind_Return_inv in Hassemble as (c & t5 & _ & Hassemble).
    apply bind_Return_inv in Hassemble as (u' & t6 & _ & Hassemble).
    destruct (write_file w _ _); [discriminate|].
    inversion Hassemble; subst dg3. exact Hnone.
Qed.

Lemma failed_phase_aborts_run_witness :
  DocumentGenerator.run (world_of_lookups false) example_tn_tq []
  = (Raise (AttributeError "initialize_assets"),
     [EvLookup "en_tn_gen"; EvMkdir "working/en_tn";
      EvCall "git clone --depth=1 'https://host/org/en_tn' 'working/en_tn/en_tn'";
      EvLookup "en_tq_gen"]).
Proof.
  destruct (failed_phase_aborts_run (world_of_lookups false) example_tn_tq [])
    as (_ & H & _).
  destruct (H _ _ eq_refl eq_refl) as [Hrun _]; [discriminate|].
  exact Hrun.
Defined.
